(** * Multi-network service layer of crypto-network: factory, aggregation
      and the per-chain adapter operations.

    Shallow embedding of
    - src/src/factory/BlockchainServiceFactory.ts  (createService, getAllServices,
      getAvailableNetworks) as explicit state passing over the static cache;
    - src/src/abstracts/BaseBlockchainService.ts   (BlockchainController.getMultiNetworkBalance);
    - the adapters' validateAddress, getTransactionStatus and createWallet
      (src/src/services/*.ts, src/unnamed/part_003 = CardanoService,
      src/unnamed/part_004 = RippleService).

    External libraries (RPC clients, key derivation) are parameters: every
    statement holds for every behaviour of them.  A JavaScript exception is
    the [Throw] branch of [outcome]. *)

From stdpp Require Import base gmap strings list.
From Stdlib Require Import String Ascii ZArith Lia.

(* ------------------------------------------------------------------ *)
(** ** Exceptions *)

(** A thrown JavaScript value: an [Error] with its [message], or anything else. *)
Inductive exn :=
| ErrorObj (message : string)
| OtherThrown.

(** Result of a call that may throw (or a promise that may reject). *)
Inductive outcome (A : Type) :=
| Ok (a : A)
| Throw (e : exn).
Arguments Ok {A} a.
Arguments Throw {A} e.

(** [error instanceof Error ? error.message : 'Unknown error'] *)
Definition errorMessage (e : exn) : string :=
  match e with
  | ErrorObj m => m
  | OtherThrown => "Unknown error"%string
  end.

(* ------------------------------------------------------------------ *)
(** ** Data model (src/unnamed/part_001, blockchain.types.ts) *)

Record NetworkConfig := {
  name : string;
  rpcUrl : string;
  chainId : option Z;
  apiKey : option string;
  testnet : option bool;
  enable : bool
}.

(** The concrete classes the factory's [switch] can construct. *)
Inductive AdapterKind :=
| ArbitrumService | SolanaService | TONService | RippleService
| PolygonService | AvalancheService | CardanoService | TRC20Service.

(** A constructed service object.  [inst_id] is its object identity
    (JavaScript reference equality); [inst_config] is the [config] passed to
    the constructor ([NETWORK_CONFIGS[networkType]], possibly undefined). *)
Record Inst := {
  inst_id : nat;
  inst_kind : AdapterKind;
  inst_network : string;
  inst_config : option NetworkConfig
}.

(** [service.getNetworkConfig().name] *)
Definition networkName (s : Inst) : option string :=
  match inst_config s with Some c => Some (name c) | None => None end.

(* ------------------------------------------------------------------ *)
(** ** BlockchainServiceFactory *)

(** The static parts the factory reads: [Object.values(NetworkType)], the
    [switch (networkType)] of [createService], and [NETWORK_CONFIGS]. *)
Record Registry := {
  NetworkTypeValues : list string;
  serviceClass : string -> option AdapterKind;
  NETWORK_CONFIGS : string -> option NetworkConfig
}.

(** Process state touched by the factory: the static [services] map, the
    next fresh object identity, and the log of [initialize()] calls (the
    "spy" on [initialize]). *)
Record FactoryState := {
  services : gmap string Inst;
  next_obj : nat;
  initialize_calls : list string
}.

Definition initial_state : FactoryState :=
  {| services := ∅; next_obj := 0; initialize_calls := [] |}.

(** The outcome of [service.initialize()] for the object being initialised
    (network I/O: any behaviour). *)
Definition InitOracle := Inst -> outcome unit.

Section Factory.
Context (R : Registry).

(** [BlockchainServiceFactory.createService(networkType)] *)
Definition createService (initialize : InitOracle) (networkType : string)
    (st : FactoryState) : outcome Inst * FactoryState :=
  match services st !! networkType with
  | Some s => (Ok s, st)
  | None =>
      let config := NETWORK_CONFIGS R networkType in
      match serviceClass R networkType with
      | None =>
          (Throw (ErrorObj ("Unsupported network type: " ++ networkType)), st)
      | Some k =>
          let service := {| inst_id := next_obj st; inst_kind := k;
                            inst_network := networkType; inst_config := config |} in
          let st1 := {| services := services st; next_obj := S (next_obj st);
                        initialize_calls := initialize_calls st |} in
          match config with
          | None =>
              (* [config.enable] on undefined *)
              (Throw (ErrorObj "Cannot read properties of undefined (reading 'enable')"), st1)
          | Some c =>
              if enable c then
                let st2 := {| services := services st1; next_obj := next_obj st1;
                              initialize_calls := networkType :: initialize_calls st1 |} in
                match initialize service with
                | Ok _ =>
                    (Ok service,
                     {| services := <[networkType := service]> (services st2);
                        next_obj := next_obj st2;
                        initialize_calls := initialize_calls st2 |})
                | Throw e => (Throw e, st2)
                end
              else (Ok service, st1)
          end
      end
  end.

(** The [for ... of] loop of [getAllServices]: a failing network is logged
    and skipped. *)
Fixpoint getAllServices_loop (initialize : InitOracle) (l : list string)
    (st : FactoryState) : list Inst * FactoryState :=
  match l with
  | [] => ([], st)
  | networkType :: l' =>
      let '(r, st1) := createService initialize networkType st in
      let '(rest, st2) := getAllServices_loop initialize l' st1 in
      match r with
      | Ok service => (service :: rest, st2)
      | Throw _ => (rest, st2)
      end
  end.

(** [BlockchainServiceFactory.getAllServices()] *)
Definition getAllServices (initialize : InitOracle) (st : FactoryState)
    : list Inst * FactoryState :=
  getAllServices_loop initialize (NetworkTypeValues R) st.

(** [BlockchainServiceFactory.getAvailableNetworks()] *)
Definition getAvailableNetworks : list string := NetworkTypeValues R.

(** States the process can be in: start-up, then any sequence of
    [createService] calls (on any string, with any initialisation outcome). *)
Inductive reachable : FactoryState -> Prop :=
| reachable_init : reachable initial_state
| reachable_step (initialize : InitOracle) (n : string) (st : FactoryState) :
    reachable st -> reachable (createService initialize n st).2.
End Factory.

(** The registry of the source: [NetworkType] and [NETWORK_CONFIGS]
    (src/unnamed/part_001, part_002), with the environment variables unset. *)
Definition NetworkType_values : list string :=
  ["arbitrum"; "ton"; "solana"; "ripple"; "polygon"; "avalanche"; "cardano"; "trc20"]%string.

Definition source_serviceClass (n : string) : option AdapterKind :=
  if String.eqb n "arbitrum" then Some ArbitrumService
  else if String.eqb n "solana" then Some SolanaService
  else if String.eqb n "ton" then Some TONService
  else if String.eqb n "ripple" then Some RippleService
  else if String.eqb n "polygon" then Some PolygonService
  else if String.eqb n "avalanche" then Some AvalancheService
  else if String.eqb n "cardano" then Some CardanoService
  else if String.eqb n "trc20" then Some TRC20Service
  else None.

Definition mkConfig (nm url : string) (cid : option Z) (en : bool) : NetworkConfig :=
  {| name := nm; rpcUrl := url; chainId := cid; apiKey := None;
     testnet := Some false; enable := en |}.

Definition source_NETWORK_CONFIGS (n : string) : option NetworkConfig :=
  if String.eqb n "arbitrum" then Some (mkConfig "Arbitrum One" "https://arb1.arbitrum.io/rpc" (Some 42161%Z) false)
  else if String.eqb n "ton" then Some (mkConfig "TON Mainnet" "https://toncenter.com/api/v2/jsonRPC" None false)
  else if String.eqb n "solana" then Some (mkConfig "Solana Mainnet" "https://api.mainnet-beta.solana.com" None false)
  else if String.eqb n "ripple" then Some (mkConfig "XRPL Mainnet" "wss://xrplcluster.com" None false)
  else if String.eqb n "polygon" then Some (mkConfig "Polygon Mainnet" "https://polygon-rpc.com" (Some 137%Z) false)
  else if String.eqb n "avalanche" then Some (mkConfig "Avalanche C-Chain" "https://api.avax.network/ext/bc/C/rpc" (Some 43114%Z) false)
  else if String.eqb n "cardano" then Some (mkConfig "Cardano Mainnet" "https://cardano-mainnet.blockfrost.io/api/v0" None false)
  else if String.eqb n "trc20" then Some (mkConfig "Tron Mainnet" "https://api.trongrid.io" None true)
  else None.

Definition source_registry : Registry :=
  {| NetworkTypeValues := NetworkType_values;
     serviceClass := source_serviceClass;
     NETWORK_CONFIGS := source_NETWORK_CONFIGS |}.

(* ------------------------------------------------------------------ *)
(** ** BlockchainController.getMultiNetworkBalance *)

Section Aggregation.
(** JavaScript [number], kept abstract: [add] is [+] and [zero] is [0]. *)
Context {Num : Type} (add : Num -> Num -> Num) (zero : Num).

Record WalletInfo := {
  wi_address : string;
  wi_balance : Num;
  wi_nativeToken : string
}.

(** The adapter methods the aggregation calls, for each service object. *)
Record AdapterOps := {
  validateAddress : Inst -> string -> outcome bool;
  getWalletInfo : Inst -> string -> outcome WalletInfo
}.

(** The objects built by the per-service mapper and by the [failed] map;
    the constructor fixes the [status] field. *)
Inductive BalanceQueryResult :=
| Success (network : string) (networkName : option string) (address : string)
    (balance : Num) (nativeToken : string)                    (* 'success' *)
| InvalidAddress (network : string) (networkName : option string)
    (error : string)                                          (* 'invalid_address' *)
| ErrorResult (network : string) (networkName : option string)
    (error : string)                                          (* 'error' *)
| RejectedResult (error : string).                            (* 'rejected' *)

Definition status (r : BalanceQueryResult) : string :=
  match r with
  | Success _ _ _ _ _ => "success"
  | InvalidAddress _ _ _ => "invalid_address"
  | ErrorResult _ _ _ => "error"
  | RejectedResult _ => "rejected"
  end.

(** The [network] field of an entry (absent on a rejected entry). *)
Definition entry_network (r : BalanceQueryResult) : option string :=
  match r with
  | Success n _ _ _ _ | InvalidAddress n _ _ | ErrorResult n _ _ => Some n
  | RejectedResult _ => None
  end.

(** [PromiseSettledResult] *)
Inductive Settled :=
| Fulfilled (value : BalanceQueryResult)
| Rejected (reason : exn).

Context (ops : AdapterOps).

(** The [async (service) => { try { ... } catch { ... } }] mapper.  Its
    body is wholly inside [try], and the [catch] branch only reads fields,
    so the promise always fulfils. *)
Definition queryService (address : string) (service : Inst) : Settled :=
  Fulfilled
    (match validateAddress ops service address with
     | Ok true =>
         match getWalletInfo ops service address with
         | Ok walletInfo =>
             Success (inst_network service) (networkName service)
               (wi_address walletInfo) (wi_balance walletInfo) (wi_nativeToken walletInfo)
         | Throw e => ErrorResult (inst_network service) (networkName service) (errorMessage e)
         end
     | Ok false =>
         InvalidAddress (inst_network service) (networkName service)
           "Address format not supported on this network"
     | Throw e => ErrorResult (inst_network service) (networkName service) (errorMessage e)
     end).

(** [Promise.allSettled(services.map(...))]: one settled result per
    service, in the order of [services]. *)
Definition balances (address : string) (svcs : list Inst) : list Settled :=
  map (queryService address) svcs.

Definition is_successful (r : Settled) : bool :=
  match r with
  | Fulfilled v => String.eqb (status v) "success"
  | Rejected _ => false
  end.

Definition is_failed (r : Settled) : bool :=
  match r with
  | Rejected _ => true
  | Fulfilled v => negb (String.eqb (status v) "success")
  end.

(** [result.status === 'rejected' ? { error: result.reason.message,
    status: 'rejected' } : result.value] *)
Definition settled_value (r : Settled) : BalanceQueryResult :=
  match r with
  | Rejected e => RejectedResult (errorMessage e)
  | Fulfilled v => v
  end.

Definition successful (bs : list Settled) : list BalanceQueryResult :=
  map settled_value (List.filter is_successful bs).

Definition failed (bs : list Settled) : list BalanceQueryResult :=
  map settled_value (List.filter is_failed bs).

(** [successful.reduce((sum, item) => sum + item.balance, 0)]; every item
    of [successful] is a [Success], the other branch is never taken. *)
Definition totalBalance (succ : list BalanceQueryResult) : Num :=
  fold_left (fun sum item =>
               match item with
               | Success _ _ _ b _ => add sum b
               | _ => sum
               end) succ zero.

(** The JSON body of the response (timestamp omitted). *)
Record AggregateReport := {
  rep_address : string;
  rep_networks : list BalanceQueryResult;
  rep_totalNetworks : nat;
  rep_totalBalance : Num;
  rep_failedNetworks : list BalanceQueryResult;
  rep_successfulQueries : nat;
  rep_failedQueries : nat;
  rep_totalNetworksChecked : nat
}.

Definition aggregate (address : string) (svcs : list Inst) : AggregateReport :=
  let bs := balances address svcs in
  let succ := successful bs in
  let fl := failed bs in
  {| rep_address := address;
     rep_networks := succ;
     rep_totalNetworks := List.length succ;
     rep_totalBalance := totalBalance succ;
     rep_failedNetworks := fl;
     rep_successfulQueries := List.length succ;
     rep_failedQueries := List.length fl;
     rep_totalNetworksChecked := List.length bs |}.

(** [getMultiNetworkBalance]: [getAllServices()] (which never throws),
    then the fan-out over the returned services. *)
Definition getMultiNetworkBalance (R : Registry) (initialize : InitOracle)
    (address : string) (st : FactoryState) : AggregateReport * FactoryState :=
  let '(svcs, st') := getAllServices R initialize st in
  (aggregate address svcs, st').
End Aggregation.
Arguments WalletInfo : clear implicits.
Arguments AdapterOps : clear implicits.
Arguments BalanceQueryResult : clear implicits.
Arguments Settled : clear implicits.

(* ------------------------------------------------------------------ *)
(** ** Adapter operations *)

(** [try { body } catch (e) { handler(e) }] *)
Definition try_catch {A} (body : outcome A) (handler : exn -> outcome A) : outcome A :=
  match body with
  | Ok a => Ok a
  | Throw e => handler e
  end.

(** Sequencing of statements that may throw ([await] of a promise that may
    reject, or a call that may throw). *)
Definition obind {A B} (m : outcome A) (k : A -> outcome B) : outcome B :=
  match m with
  | Ok a => k a
  | Throw e => Throw e
  end.

(** [BaseBlockchainService.handleError(error, context)]: always throws
    [`${networkType} ${context} failed: ${error.message}`]. *)
Definition handleError {A} (networkType context : string) (e : exn) : outcome A :=
  let m := match e with ErrorObj m => m | OtherThrown => "undefined"%string end in
  Throw (ErrorObj (networkType ++ " " ++ context ++ " failed: " ++ m)).

(** *** validateAddress *)

(** ArbitrumService / AvalancheService:
    [try { return ethers.isAddress(address); } catch { return false; }] *)
Definition validateAddress_evm (isAddress : string -> outcome bool) (address : string)
    : outcome bool :=
  try_catch (isAddress address) (fun _ => Ok false).

(** TRC20Service: [this.tronWeb.isAddress(address)]; [tronWeb] is unset on a
    service that was never initialised. *)
Definition validateAddress_trc20 (tronWeb : option (string -> outcome bool))
    (address : string) : outcome bool :=
  try_catch
    (match tronWeb with
     | None => Throw (ErrorObj "Cannot read properties of undefined (reading 'isAddress')")
     | Some isAddress => isAddress address
     end)
    (fun _ => Ok false).

(** SolanaService: [new PublicKey(address)], then [PublicKey.isOnCurve]. *)
Definition validateAddress_solana {PK : Type} (newPublicKey : string -> outcome PK)
    (isOnCurve : PK -> outcome bool) (address : string) : outcome bool :=
  try_catch (obind (newPublicKey address) isOnCurve) (fun _ => Ok false).

(** TONService: [Address.parse(address) instanceof Address]; a parsed value
    is an [Address]. *)
Definition validateAddress_ton {Addr : Type} (parse : string -> outcome Addr)
    (address : string) : outcome bool :=
  try_catch (obind (parse address) (fun _ => Ok true)) (fun _ => Ok false).

(** CardanoService: [CardanoWasm.Address.from_bech32(address); return true]. *)
Definition validateAddress_cardano {Addr : Type} (from_bech32 : string -> outcome Addr)
    (address : string) : outcome bool :=
  try_catch (obind (from_bech32 address) (fun _ => Ok true)) (fun _ => Ok false).

(** The character class [[1-9A-HJ-NP-Za-km-z]]. *)
Definition ripple_b58_char (c : Ascii.ascii) : bool :=
  let n := Ascii.nat_of_ascii c in
  (Nat.leb 49 n && Nat.leb n 57)          (* 1-9 *)
  || (Nat.leb 65 n && Nat.leb n 72)       (* A-H *)
  || (Nat.leb 74 n && Nat.leb n 78)       (* J-N *)
  || (Nat.leb 80 n && Nat.leb n 90)       (* P-Z *)
  || (Nat.leb 97 n && Nat.leb n 107)      (* a-k *)
  || (Nat.leb 109 n && Nat.leb n 122).    (* m-z *)

(** [/^r[1-9A-HJ-NP-Za-km-z]{25,34}$/.test(address)] *)
Definition ripple_address_regex (address : string) : bool :=
  match address with
  | String c rest =>
      Nat.eqb (Ascii.nat_of_ascii c) 114   (* r *)
      && forallb ripple_b58_char (list_ascii_of_string rest)
      && Nat.leb 25 (String.length rest) && Nat.leb (String.length rest) 34
  | EmptyString => false
  end.

(** RippleService: [isValidAddress(address)], the regular expression when it throws. *)
Definition validateAddress_ripple (isValidAddress : string -> outcome bool)
    (address : string) : outcome bool :=
  try_catch (isValidAddress address) (fun _ => Ok (ripple_address_regex address)).

(** Modelled from the spec: PolygonService.validateAddress (its source file
    src/services/PolygonService.ts is not in the repository); the spec's
    contract "pure, side-effect-free, never throws; chain-specific
    syntax/checksum check" with the chain check a parameter. *)
Definition validateAddress_polygon (chainCheck : string -> bool) (address : string)
    : outcome bool :=
  Ok (chainCheck address).

(** *** getTransactionStatus *)

Inductive TxStatus := Pending | Confirmed | Failed.

(** [TransactionResponse] (fee, gasUsed and the wall-clock timestamp omitted). *)
Record TransactionResponse := {
  tr_hash : string;
  tr_status : TxStatus;
  tr_blockNumber : option Z
}.

Definition mkResponse (hash : string) (s : TxStatus) (b : option Z) : TransactionResponse :=
  {| tr_hash := hash; tr_status := s; tr_blockNumber := b |}.

(** ethers receipt fields read by the code. *)
Record EvmReceipt := { rc_status : Z; rc_blockNumber : Z }.

(** ArbitrumService / AvalancheService: [provider.getTransaction(hash)]
    ([null] = unknown), then [provider.getTransactionReceipt(hash)]. *)
Definition getTransactionStatus_evm {Tx : Type} (networkType : string)
    (getTransaction : string -> outcome (option Tx))
    (getTransactionReceipt : string -> outcome (option EvmReceipt))
    (hash : string) : outcome TransactionResponse :=
  try_catch
    (obind (getTransaction hash) (fun tx =>
       match tx with
       | None => Ok (mkResponse hash Failed None)
       | Some _ =>
           obind (getTransactionReceipt hash) (fun receipt =>
             match receipt with
             | Some r =>
                 Ok (mkResponse hash (if Z.eqb (rc_status r) 1 then Confirmed else Failed)
                       (Some (rc_blockNumber r)))
             | None => Ok (mkResponse hash Pending None)
             end)
       end))
    (handleError networkType "getTransactionStatus").

(** TronWeb transaction and transaction-info fields read by the code;
    [None] and [Some ""] are both falsy. *)
Record TronTx := { txID : option string }.
Record TronTxInfo := { ti_id : option string; ti_result : option string;
                       ti_blockNumber : option Z }.

Definition truthy_str (o : option string) : option string :=
  match o with
  | Some s => if String.eqb s "" then None else Some s
  | None => None
  end.

(** TRC20Service.getTransactionStatus *)
Definition getTransactionStatus_trc20 (networkType : string)
    (getTransaction : string -> outcome (option TronTx))
    (getTransactionInfo : string -> outcome TronTxInfo)
    (hash : string) : outcome TransactionResponse :=
  try_catch
    (obind (getTransaction hash) (fun transaction =>
       match option_map txID transaction with
       | None | Some None => Ok (mkResponse hash Failed None)
       | Some (Some id) =>
           if String.eqb id "" then Ok (mkResponse hash Failed None) else
           obind (getTransactionInfo hash) (fun info =>
             let s := match truthy_str (ti_id info) with
                      | Some _ => match ti_result info with
                                  | Some r => if String.eqb r "SUCCESS" then Confirmed else Failed
                                  | None => Failed
                                  end
                      | None => Pending
                      end in
             Ok (mkResponse hash s (ti_blockNumber info)))
       end))
    (handleError networkType "getTransactionStatus").

(** [connection.getSignatureStatus(hash)].value *)
Record SolSignatureStatus := { sol_err : bool; sol_confirmationStatus : option string;
                               sol_slot : Z }.

(** SolanaService.getTransactionStatus; [getTransaction] is awaited only
    for the fee and block time, but its failure is not caught locally. *)
Definition getTransactionStatus_solana {SolTx : Type} (networkType : string)
    (getSignatureStatus : string -> outcome (option SolSignatureStatus))
    (getTransaction : string -> outcome (option SolTx))
    (hash : string) : outcome TransactionResponse :=
  try_catch
    (obind (getSignatureStatus hash) (fun value =>
       match value with
       | None => Ok (mkResponse hash Failed None)
       | Some v =>
           let s := if sol_err v then Failed
                    else match sol_confirmationStatus v with
                         | Some c => if String.eqb c "finalized" || String.eqb c "confirmed"
                                     then Confirmed else Pending
                         | None => Pending
                         end in
           obind (getTransaction hash) (fun _ => Ok (mkResponse hash s (Some (sol_slot v))))
       end))
    (handleError networkType "getTransactionStatus").

(** A TON transaction as the code reads it: [tx.hash().toString()] and [lt]. *)
Record TonTx := { ton_hash : string; ton_lt : Z }.

(** TONService.getTransactionStatus.  [getTransactions] is the call
    [client.getTransactions(Address.parse(wallet address or ''), { limit: 100 })]
    of the service's own wallet, with any failure of it caught by the
    inner [catch]. *)
Definition getTransactionStatus_ton (networkType : string)
    (getTransactions : outcome (list TonTx)) (hash : string)
    : outcome TransactionResponse :=
  try_catch
    (if String.prefix "ton_" hash then Ok (mkResponse hash Confirmed None)
     else
       try_catch
         (obind getTransactions (fun transactions =>
            let found := List.find (fun tx => String.eqb (ton_hash tx) hash) transactions in
            match found with
            | Some tx => Ok (mkResponse hash Confirmed (Some (ton_lt tx)))
            | None => Ok (mkResponse hash Pending None)
            end))
         (fun _ => Ok (mkResponse hash Pending None)))
    (handleError networkType "getTransactionStatus").

(** Blockfrost [/txs/{hash}] fields read by the code. *)
Record CardanoTx := { ca_block : option string; ca_block_height : option Z }.

(** CardanoService.getTransactionStatus: any failure of the API call
    (e.g. 404 for an unknown hash) yields [failed]. *)
Definition getTransactionStatus_cardano (makeApiCall : string -> outcome CardanoTx)
    (hash : string) : outcome TransactionResponse :=
  try_catch
    (obind (makeApiCall ("/txs/" ++ hash)%string) (fun txInfo =>
       Ok (mkResponse hash (match truthy_str (ca_block txInfo) with
                            | Some _ => Confirmed | None => Pending end)
             (ca_block_height txInfo))))
    (fun _ => Ok (mkResponse hash Failed None)).

(** xrpl [tx] response fields read by the code. *)
Record XrpTx := { xrp_validated : bool; xrp_ledger_index : option Z }.

(** RippleService.getTransactionStatus: [client.request({command: 'tx', ...})];
    a rejected request (rippled answers [txnNotFound] for an unknown hash)
    goes to [handleError]. *)
Definition getTransactionStatus_ripple (networkType : string)
    (request_tx : string -> outcome XrpTx) (hash : string)
    : outcome TransactionResponse :=
  try_catch
    (obind (request_tx hash) (fun r =>
       Ok (mkResponse hash (if xrp_validated r then Confirmed else Pending)
             (xrp_ledger_index r))))
    (handleError networkType "getTransactionStatus").

(** *** createWallet *)

(** [CreateWalletOptions] (password and keySize are not read by these adapters). *)
Record CreateWalletOptions := {
  opt_mnemonic : option string;
  opt_derivationPath : option string;
  opt_index : option Z
}.

(** [WalletCreationResponse] (seed and keyPair omitted). *)
Record WalletCreationResponse := {
  wc_address : string;
  wc_privateKey : option string;
  wc_publicKey : option string;
  wc_mnemonic : option string;
  wc_network : string;
  wc_index : option Z;
  wc_derivationPath : option string
}.

(** Decimal rendering of an integer in a template literal. *)
Fixpoint N_digits (fuel : nat) (n : N) (acc : string) : string :=
  match fuel with
  | O => acc
  | S f =>
      let acc' := String (Ascii.ascii_of_N (48 + N.modulo n 10)) acc in
      if N.ltb n 10 then acc' else N_digits f (N.div n 10) acc'
  end.

Definition Z_to_dec (z : Z) : string :=
  match z with
  | Z0 => "0"
  | Zpos p => N_digits 400 (Npos p) ""
  | Zneg p => "-" ++ N_digits 400 (Npos p) ""
  end.

(** The fresh entropy a call draws ([generateMnemonic()], [Wallet.generate()],
    [ethers.Wallet.createRandom()], [mnemonicNew()]). *)
Definition Entropy := nat.

(** Key material produced by the signing libraries. *)
Record KeyPair := { kp_address : string; kp_publicKey : string; kp_privateKey : string }.

(** SolanaService: bip39, ed25519-hd-key and [Keypair.fromSeed]. *)
Record SolanaLib := {
  sol_generateMnemonic : Entropy -> string;
  sol_mnemonicToSeedSync : string -> string;     (* seed, hex *)
  sol_seedSlice32 : string -> string;            (* seed.slice(0, 32) *)
  sol_derivePath : string -> string -> outcome string;
  sol_fromSeed : string -> outcome KeyPair
}.

(** SolanaService.createWallet; [SOLANA_SEED] is [process.env.SOLANA_SEED]. *)
Definition createWallet_solana (lib : SolanaLib) (SOLANA_SEED : option string)
    (entropy : Entropy) (options : CreateWalletOptions) : outcome WalletCreationResponse :=
  let mnemonic :=
    match truthy_str (opt_mnemonic options) with
    | Some m => m
    | None => match truthy_str SOLANA_SEED with
              | Some m => m
              | None => sol_generateMnemonic lib entropy
              end
    end in
  let seed := sol_mnemonicToSeedSync lib mnemonic in
  let '(kp, usedIndex, usedPath) :=
    match opt_index options with
    | Some i =>
        let path := match truthy_str (opt_derivationPath options) with
                    | Some p => p
                    | None => ("m/44'/501'/" ++ Z_to_dec i ++ "'/0'")%string
                    end in
        (obind (sol_derivePath lib path seed) (sol_fromSeed lib), Some i, Some path)
    | None => (sol_fromSeed lib (sol_seedSlice32 lib seed), None, None)
    end in
  try_catch
    (obind kp (fun keypair =>
       Ok {| wc_address := kp_publicKey keypair;
             wc_privateKey := Some (kp_privateKey keypair);
             wc_publicKey := Some (kp_publicKey keypair);
             wc_mnemonic := Some mnemonic;
             wc_network := "solana";
             wc_index := usedIndex;
             wc_derivationPath := usedPath |}))
    (handleError "solana" "createWallet").

(** RippleService: bip39, ed25519-hd-key and xrpl's [Wallet]. *)
Record RippleLib := {
  xrp_generateMnemonic : Entropy -> string;
  xrp_mnemonicToSeedSync : string -> string;
  xrp_derivePath : string -> string -> outcome string;
  xrp_Wallet_fromSeed : string -> outcome KeyPair;
  xrp_Wallet_generate : Entropy -> KeyPair
}.

(** RippleService.createWallet *)
Definition createWallet_ripple (lib : RippleLib) (entropy : Entropy)
    (options : CreateWalletOptions) : outcome WalletCreationResponse :=
  let derive (mnemonic : string) (i : Z) :=
    let path := match truthy_str (opt_derivationPath options) with
                | Some p => p
                | None => ("m/44'/144'/" ++ Z_to_dec i ++ "'/0/0")%string
                end in
    (obind (xrp_derivePath lib path (xrp_mnemonicToSeedSync lib mnemonic))
       (xrp_Wallet_fromSeed lib), Some path) in
  let '(w, mnemonic, usedIndex, usedPath) :=
    match truthy_str (opt_mnemonic options) with
    | Some m =>
        match opt_index options with
        | Some i => let '(w, p) := derive m i in (w, Some m, Some i, p)
        | None => (xrp_Wallet_fromSeed lib m, Some m, None, None)
        end
    | None =>
        match opt_index options with
        | Some i =>
            let m := xrp_generateMnemonic lib entropy in
            let '(w, p) := derive m i in (w, Some m, Some i, p)
        | None => (Ok (xrp_Wallet_generate lib entropy), None, None, None)
        end
    end in
  try_catch
    (obind w (fun wallet =>
       Ok {| wc_address := kp_address wallet;
             wc_privateKey := Some (kp_privateKey wallet);
             wc_publicKey := Some (kp_publicKey wallet);
             wc_mnemonic := mnemonic;
             wc_network := "ripple";
             wc_index := usedIndex;
             wc_derivationPath := usedPath |}))
    (handleError "ripple" "createWallet").

(** CardanoService: bip39 and [createWalletFromMnemonic] (fixed path
    1852'/1815'/0'). *)
Record CardanoLib := {
  ada_generateMnemonic256 : Entropy -> string;
  ada_createWalletFromMnemonic : string -> outcome KeyPair
}.

(** CardanoService.createWallet ([options.index] is not read). *)
Definition createWallet_cardano (lib : CardanoLib) (entropy : Entropy)
    (options : CreateWalletOptions) : outcome WalletCreationResponse :=
  let mnemonic := match truthy_str (opt_mnemonic options) with
                  | Some m => m
                  | None => ada_generateMnemonic256 lib entropy
                  end in
  try_catch
    (obind (ada_createWalletFromMnemonic lib mnemonic) (fun walletData =>
       Ok {| wc_address := kp_address walletData;
             wc_privateKey := Some (kp_privateKey walletData);
             wc_publicKey := Some (kp_publicKey walletData);
             wc_mnemonic := Some mnemonic;
             wc_network := "cardano";
             wc_index := None;
             wc_derivationPath := None |}))
    (handleError "cardano" "createWallet").

(** [s.split(' ')]: every single space separates, empty pieces kept. *)
Fixpoint split_space_aux (s : list Ascii.ascii) (cur : list Ascii.ascii) : list string :=
  match s with
  | [] => [string_of_list_ascii (rev cur)]
  | c :: rest =>
      if Nat.eqb (Ascii.nat_of_ascii c) 32
      then string_of_list_ascii (rev cur) :: split_space_aux rest []
      else split_space_aux rest (c :: cur)
  end.

Definition split_space (s : string) : list string :=
  split_space_aux (list_ascii_of_string s) [].

(** [words.join(' ')] *)
Definition join_space (l : list string) : string := String.concat " " l.

(** TONService: @ton/crypto and [WalletContractV4]. *)
Record TonLib := {
  ton_mnemonicNew : Entropy -> list string;
  ton_mnemonicToWalletKey : list string -> outcome KeyPair;   (* public/secret key, hex *)
  ton_walletAddress : string -> Z -> outcome string           (* V4 wallet of (publicKey, workchain) *)
}.

(** TONService.createWallet; [TON_SEED] is [process.env.TON_SEED]. *)
Definition createWallet_ton (lib : TonLib) (TON_SEED : option string) (entropy : Entropy)
    (options : CreateWalletOptions) : outcome WalletCreationResponse :=
  let mnemonic :=
    match truthy_str (opt_mnemonic options) with
    | Some m => split_space m
    | None => match truthy_str TON_SEED with
              | Some m => split_space m
              | None => ton_mnemonicNew lib entropy
              end
    end in
  let workchain := match opt_index options with Some i => i | None => 0%Z end in
  try_catch
    (obind (ton_mnemonicToWalletKey lib mnemonic) (fun keyPair =>
       obind (ton_walletAddress lib (kp_publicKey keyPair) workchain) (fun address =>
         Ok {| wc_address := address;
               wc_privateKey := Some (kp_privateKey keyPair);
               wc_publicKey := Some (kp_publicKey keyPair);
               wc_mnemonic := Some (join_space mnemonic);
               wc_network := "ton";
               wc_index := opt_index options;
               wc_derivationPath := None |})))
    (handleError "ton" "createWallet").

(** ethers v6 as used by the EVM adapters. *)
Record EthersLib := {
  eth_Mnemonic_fromPhrase : string -> outcome string;
  (** [HDNodeWallet.fromMnemonic(mnemonic, path?)] (no path: ethers' default) *)
  eth_HDNodeWallet_fromMnemonic : string -> option string -> outcome KeyPair;
  (** [Wallet.createRandom()] with its [mnemonic?.phrase] *)
  eth_createRandom : Entropy -> KeyPair * option string
}.

(** ArbitrumService.createWallet ([coinType] "60", [label] "Arbitrum",
    seed variable [ARBITRUM_SEED]) and AvalancheService.createWallet
    ([coinType] "9000", [label] "avalanche", seed variable [AVALANCHE_SEED]). *)
Definition createWallet_evm (networkType coinType label : string) (lib : EthersLib)
    (SEED : option string) (entropy : Entropy) (options : CreateWalletOptions)
    : outcome WalletCreationResponse :=
  let pathFor (i : Z) :=
    match truthy_str (opt_derivationPath options) with
    | Some p => p
    | None => ("m/44'/" ++ coinType ++ "'/" ++ Z_to_dec i ++ "'/0/0")%string
    end in
  let result (w : KeyPair) (mnemonic : option string) (usedIndex : option Z)
      (usedPath : option string) :=
    Ok {| wc_address := kp_address w;
          wc_privateKey := Some (kp_privateKey w);
          wc_publicKey := Some (kp_publicKey w);
          wc_mnemonic := mnemonic;
          wc_network := label;
          wc_index := usedIndex;
          wc_derivationPath := usedPath |} in
  let targetMnemonic := match truthy_str (opt_mnemonic options) with
                        | Some m => Some m
                        | None => truthy_str SEED
                        end in
  try_catch
    (match targetMnemonic with
     | Some m =>
         obind (eth_Mnemonic_fromPhrase lib m) (fun mnemonicObj =>
           match opt_index options with
           | Some i =>
               obind (eth_HDNodeWallet_fromMnemonic lib mnemonicObj (Some (pathFor i)))
                 (fun w => result w (Some m) (Some i) (Some (pathFor i)))
           | None =>
               obind (eth_HDNodeWallet_fromMnemonic lib mnemonicObj None)
                 (fun w => result w (Some m) None None)
           end)
     | None =>
         match opt_index options with
         | Some i =>
             let '(_, phrase) := eth_createRandom lib entropy in
             match truthy_str phrase with
             | Some mn =>
                 obind (eth_Mnemonic_fromPhrase lib mn) (fun mnemonicObj =>
                   obind (eth_HDNodeWallet_fromMnemonic lib mnemonicObj (Some (pathFor i)))
                     (fun w => result w (Some mn) (Some i) (Some (pathFor i))))
             | None => Throw (ErrorObj "Failed to generate mnemonic for new wallet")
             end
         | None =>
             let '(w, phrase) := eth_createRandom lib entropy in
             result w phrase None None
         end
     end)
    (handleError networkType "createWallet").

(* ------------------------------------------------------------------ *)
(** ** Auxiliary definitions for the statements *)

(** The entries of a result list that carry network id [n]. *)
Definition entries_for {Num} (n : string) (l : list (BalanceQueryResult Num))
    : list (BalanceQueryResult Num) :=
  List.filter (fun e => match entry_network e with
                        | Some m => String.eqb m n
                        | None => false
                        end) l.

(** The [balance] fields of the [Success] entries of a list. *)
Definition success_balances {Num} (l : list (BalanceQueryResult Num)) : list Num :=
  flat_map (fun e => match e with Success _ _ _ b _ => [b] | _ => [] end) l.

Definition is_success_entry {Num} (e : BalanceQueryResult Num) : bool :=
  match e with Success _ _ _ _ _ => true | _ => false end.

(** [initialize()] succeeding on every object. *)
Definition init_ok : InitOracle := fun _ => Ok tt.

(** [initialize()] rejecting on every object. *)
Definition init_down : InitOracle := fun _ => Throw (ErrorObj "connect ECONNREFUSED").

(** A configuration of four networks, [ripple] disabled. *)
Definition four_NetworkTypeValues : list string := ["arbitrum"; "solana"; "ton"; "ripple"]%string.

Definition four_NETWORK_CONFIGS (n : string) : option NetworkConfig :=
  if existsb (String.eqb n) four_NetworkTypeValues
  then Some (mkConfig n "https://rpc.example" None (negb (String.eqb n "ripple")))
  else None.

Definition four_registry : Registry :=
  {| NetworkTypeValues := four_NetworkTypeValues;
     serviceClass := source_serviceClass;
     NETWORK_CONFIGS := four_NETWORK_CONFIGS |}.

(** Concrete adapter behaviour for the aggregation: balances in [Z];
    [solana] rejects the address, [ton] fails on [getWalletInfo]. *)
Definition demo_ops : AdapterOps Z :=
  {| validateAddress := fun s _ => Ok (negb (String.eqb (inst_network s) "solana"));
     getWalletInfo := fun s a =>
       if String.eqb (inst_network s) "ton" then Throw (ErrorObj "timeout")
       else Ok {| wi_address := a; wi_balance := 5%Z; wi_nativeToken := "TOKEN" |} |}.

Definition demo_svcs : list Inst :=
  [ {| inst_id := 0; inst_kind := ArbitrumService; inst_network := "arbitrum"; inst_config := None |};
    {| inst_id := 1; inst_kind := SolanaService; inst_network := "solana"; inst_config := None |};
    {| inst_id := 2; inst_kind := TONService; inst_network := "ton"; inst_config := None |};
    {| inst_id := 3; inst_kind := TRC20Service; inst_network := "trc20"; inst_config := None |} ].

(** Stand-in key derivation with distinct outputs for distinct inputs. *)
Definition demo_solana_lib : SolanaLib :=
  {| sol_generateMnemonic := fun e => ("fresh " ++ Z_to_dec (Z.of_nat e))%string;
     sol_mnemonicToSeedSync := fun m => ("seed:" ++ m)%string;
     sol_seedSlice32 := fun s => s;
     sol_derivePath := fun p s => Ok (p ++ "|" ++ s)%string;
     sol_fromSeed := fun s => Ok {| kp_address := s; kp_publicKey := ("pk:" ++ s)%string;
                                    kp_privateKey := ("sk:" ++ s)%string |} |}.

Definition no_options : CreateWalletOptions :=
  {| opt_mnemonic := None; opt_derivationPath := None; opt_index := None |}.

(** Well-formedness of the factory cache: an entry for [n] is an
    initialised object of network [n] built for an enabled, supported
    network, and its identity is already allocated. *)
Definition cache_wf (R : Registry) (st : FactoryState) : Prop :=
  forall n s, services st !! n = Some s ->
    inst_network s = n /\ inst_id s < next_obj st /\
    serviceClass R n = Some (inst_kind s) /\
    exists c, NETWORK_CONFIGS R n = Some c /\ enable c = true.

(** The successive [createService] calls made for the networks of [l],
    in order, each paired with its network and its outcome, and the state
    after the last one. *)
Fixpoint createService_calls (R : Registry) (initialize : InitOracle) (l : list string)
    (st : FactoryState) : list (string * outcome Inst) * FactoryState :=
  match l with
  | [] => ([], st)
  | n :: l' =>
      let '(r, st1) := createService R initialize n st in
      let '(rs, st2) := createService_calls R initialize l' st1 in
      ((n, r) :: rs, st2)
  end.

(** The objects returned by the calls that did not throw, in order. *)
Definition ok_values (rs : list (string * outcome Inst)) : list Inst :=
  flat_map (fun p => match p.2 with Ok s => [s] | Throw _ => [] end) rs.

(* ------------------------------------------------------------------ *)
(** ** TONService: amounts, sendTransaction and deployWallet *)

(** ** JavaScript string primitives, on a string as its list of code units *)

Definition is_dec_digit (c : Ascii.ascii) : bool :=
  let n := Ascii.nat_of_ascii c in Nat.leb 48 n && Nat.leb n 57.

(** JavaScript white space and line terminators among code units 0-255. *)
Definition js_whitespace (c : Ascii.ascii) : bool :=
  let n := Ascii.nat_of_ascii c in
  (Nat.leb 9 n && Nat.leb n 13) || Nat.eqb n 32 || Nat.eqb n 160.

Fixpoint trim_start (s : list Ascii.ascii) : list Ascii.ascii :=
  match s with
  | c :: rest => if js_whitespace c then trim_start rest else s
  | [] => []
  end.

(** [s.trim()] *)
Definition js_trim (s : list Ascii.ascii) : list Ascii.ascii :=
  rev (trim_start (rev (trim_start s))).

(** [s.split(sep)] for a one-character separator. *)
Fixpoint split_char_aux (sep : Ascii.ascii) (s cur : list Ascii.ascii)
    : list (list Ascii.ascii) :=
  match s with
  | [] => [rev cur]
  | c :: rest =>
      if Ascii.eqb c sep then rev cur :: split_char_aux sep rest []
      else split_char_aux sep rest (c :: cur)
  end.

Definition split_char (sep : Ascii.ascii) (s : list Ascii.ascii) : list (list Ascii.ascii) :=
  split_char_aux sep s [].

(** [s.padEnd(n, c)] and [s.padStart(n, c)] with a one-character filler. *)
Definition padEnd (n : nat) (c : Ascii.ascii) (s : list Ascii.ascii) : list Ascii.ascii :=
  s ++ List.repeat c (n - List.length s).

Definition padStart (n : nat) (c : Ascii.ascii) (s : list Ascii.ascii) : list Ascii.ascii :=
  List.repeat c (n - List.length s) ++ s.

Fixpoint drop_zeros (s : list Ascii.ascii) : list Ascii.ascii :=
  match s with
  | c :: rest => if Ascii.eqb c "0"%char then drop_zeros rest else s
  | [] => []
  end.

(** [s.replace(/0+$/, '')] *)
Definition strip_trailing_zeros (s : list Ascii.ascii) : list Ascii.ascii :=
  rev (drop_zeros (rev s)).

(** The value of a digit character in radix up to 36 (99: not a digit). *)
Definition digit_val (c : Ascii.ascii) : nat :=
  let n := Ascii.nat_of_ascii c in
  if Nat.leb 48 n && Nat.leb n 57 then n - 48
  else if Nat.leb 97 n && Nat.leb n 122 then n - 87
  else if Nat.leb 65 n && Nat.leb n 90 then n - 55
  else 99.

(** A non-empty sequence of digits of the given radix, and its value. *)
Definition radix_digits (radix : nat) (l : list Ascii.ascii) : option Z :=
  match l with
  | [] => None
  | _ =>
      if forallb (fun c => Nat.ltb (digit_val c) radix) l
      then Some (fold_left (fun acc c => acc * Z.of_nat radix + Z.of_nat (digit_val c))%Z l 0%Z)
      else None
  end.

(** [BigInt(s)] for a string (StringToBigInt): white space around is
    ignored, the empty string is [0n], [0x]/[0o]/[0b] (either case) select
    radix 16, 8 or 2, otherwise an optional sign and decimal digits;
    anything else throws a [SyntaxError]. *)
Definition BigInt_of_string (s : list Ascii.ascii) : outcome Z :=
  let t := js_trim s in
  let fail := Throw (ErrorObj ("Cannot convert " ++ string_of_list_ascii s ++ " to a BigInt")) in
  let of_opt (o : option Z) := match o with Some z => Ok z | None => fail end in
  let signed (u : list Ascii.ascii) :=
    match u with
    | c :: r =>
        if Ascii.eqb c "-"%char then of_opt (option_map Z.opp (radix_digits 10 r))
        else if Ascii.eqb c "+"%char then of_opt (radix_digits 10 r)
        else of_opt (radix_digits 10 u)
    | [] => of_opt None
    end in
  match t with
  | [] => Ok 0%Z
  | c0 :: c1 :: rest =>
      if Ascii.eqb c0 "0"%char && (Ascii.eqb c1 "x"%char || Ascii.eqb c1 "X"%char)
      then of_opt (radix_digits 16 rest)
      else if Ascii.eqb c0 "0"%char && (Ascii.eqb c1 "o"%char || Ascii.eqb c1 "O"%char)
      then of_opt (radix_digits 8 rest)
      else if Ascii.eqb c0 "0"%char && (Ascii.eqb c1 "b"%char || Ascii.eqb c1 "B"%char)
      then of_opt (radix_digits 2 rest)
      else signed t
  | _ => signed t
  end.

(** Decimal digits of a natural number, prepended to [acc]. *)
Fixpoint N_to_digits (fuel : nat) (n : N) (acc : list Ascii.ascii) : list Ascii.ascii :=
  match fuel with
  | O => acc
  | S f =>
      let acc' := Ascii.ascii_of_N (48 + N.modulo n 10) :: acc in
      if N.ltb n 10 then acc' else N_to_digits f (N.div n 10) acc'
  end.

(** [amount.toString()] of a [bigint]. *)
Definition bigint_toString (z : Z) : list Ascii.ascii :=
  match z with
  | Z0 => ["0"%char]
  | Zpos p => N_to_digits (Pos.size_nat p) (Npos p) []
  | Zneg p => "-"%char :: N_to_digits (Pos.size_nat p) (Npos p) []
  end.

(** TONService.toNano on a string argument (its callers pass
    [request.amount.toString()] or a literal). *)
Definition toNano (amountStr : string) : outcome Z :=
  let parts := split_char "."%char (list_ascii_of_string amountStr) in
  let whole := match parts with w :: _ => w | [] => [] end in
  let decimal := match parts with _ :: d :: _ => d | _ => [] end in
  let paddedDecimal := firstn 9 (padEnd 9 "0"%char decimal) in
  BigInt_of_string (whole ++ paddedDecimal).

(** TONService.fromNano *)
Definition fromNano (amount : Z) : string :=
  let amountStr := padStart 10 "0"%char (bigint_toString amount) in
  let L := List.length amountStr in
  let whole := match firstn (L - 9) amountStr with [] => ["0"%char] | w => w end in
  let decimal := strip_trailing_zeros (skipn (L - 9) amountStr) in
  string_of_list_ascii (match decimal with
                        | [] => whole
                        | _ => whole ++ "."%char :: decimal
                        end).


Definition dec_step (acc : Z) (c : Ascii.ascii) : Z := (acc * 10 + Z.of_nat (digit_val c))%Z.

Section TonWallet.
Context {Addr Transfer : Type}.

(** The internal message built by [createInternalMessage]: destination,
    value in nanotons, the body ([createMessageBody(memo)]: a text comment
    when [memo] is truthy, else empty) and the bounce flag. *)
Record TonMessage := {
  msg_dest : Addr;
  msg_value : Z;
  msg_body : option string;
  msg_bounce : bool
}.

(** The service's TON wallet and client: [this.wallet && this.keyPair],
    the wallet's address, [contract.getSeqno()], [contract.createTransfer],
    [contract.send], [Address.parse] and [Date.now()]. *)
Record TonWalletEnv := {
  ton_wallet_ready : bool;
  ton_wallet_address : Addr;
  ton_getSeqno : outcome Z;
  ton_createTransfer : Z -> TonMessage -> outcome Transfer;
  ton_send : Transfer -> outcome unit;
  ton_parse : string -> outcome Addr;
  ton_now : Z
}.

(** [createMessageBody(memo)] *)
Definition createMessageBody (memo : option string) : option string := truthy_str memo.

(** [createInternalMessage({to, value, body, bounce})]: a string [to] is
    parsed with [Address.parse]. *)
Definition createInternalMessage (env : TonWalletEnv) (to : Addr + string) (value : Z)
    (body : option string) (bounce : bool) : outcome TonMessage :=
  obind (match to with inl a => Ok a | inr s => ton_parse env s end) (fun dest =>
    Ok {| msg_dest := dest; msg_value := value; msg_body := body; msg_bounce := bounce |}).

(** [await contract.send(transfer)], recording the transfer handed over. *)
Definition send_step (env : TonWalletEnv) (transfer : Transfer)
    : outcome unit * list Transfer :=
  (ton_send env transfer, [transfer]).

(** TONService.sendTransaction; [amountStr] is [request.amount.toString()].
    The second component lists the transfers passed to [contract.send]. *)
Definition sendTransaction_ton (networkType : string) (env : TonWalletEnv)
    (to amountStr : string) (memo : option string)
    : outcome TransactionResponse * list Transfer :=
  let '(r, sent) :=
    if negb (ton_wallet_ready env)
    then (Throw (ErrorObj "Wallet not initialized. Please provide TON_MNEMONIC"), [])
    else match validateAddress_ton (ton_parse env) to with
         | Ok false | Throw _ => (Throw (ErrorObj "Invalid recipient address"), [])
         | Ok true =>
             match ton_getSeqno env with
             | Throw e => (Throw e, [])
             | Ok seqno =>
                 match obind (toNano amountStr) (fun value =>
                         obind (createInternalMessage env (inr to) value (createMessageBody memo) false)
                           (ton_createTransfer env seqno)) with
                 | Throw e => (Throw e, [])
                 | Ok transfer =>
                     let '(s, sent) := send_step env transfer in
                     (obind s (fun _ =>
                        Ok (mkResponse ("ton_" ++ Z_to_dec (ton_now env) ++ "_" ++ Z_to_dec seqno)
                              Pending None)), sent)
                 end
             end
         end in
  (try_catch r (handleError networkType "sendTransaction"), sent).

(** TONService.deployWallet *)
Definition deployWallet_ton (networkType : string) (env : TonWalletEnv)
    : outcome TransactionResponse * list Transfer :=
  let '(r, sent) :=
    if negb (ton_wallet_ready env)
    then (Throw (ErrorObj "Wallet not initialized. Please provide TON_MNEMONIC"), [])
    else match ton_getSeqno env with
         | Throw e => (Throw e, [])
         | Ok seqno =>
             if negb (Z.eqb seqno 0)
             then (Throw (ErrorObj "Wallet is already deployed"), [])
             else
               match obind (toNano "0.01")%string (fun value =>
                       obind (createInternalMessage env (inl (ton_wallet_address env)) value
                                (createMessageBody None) false)
                         (ton_createTransfer env 0)) with
               | Throw e => (Throw e, [])
               | Ok transfer =>
                   let '(s, sent) := send_step env transfer in
                   (obind s (fun _ =>
                      Ok (mkResponse ("ton_deploy_" ++ Z_to_dec (ton_now env)) Pending None)), sent)
               end
         end in
  (try_catch r (handleError networkType "deployWallet"), sent).

End TonWallet.

(* ------------------------------------------------------------------ *)
(** ** ArbitrumService.getTransactionHistory *)

(** An entry of [block.transactions]: a transaction hash, or a transaction
    object (it has [from], [to] and [hash]; [to] is [null] for a contract
    creation). *)
Inductive JsTxEntry :=
| TxHashOnly (h : string)
| TxObject (from : string) (to : option string) (hash : string).

(** The provider calls of ArbitrumService.getTransactionHistory:
    [ethers.isAddress], [provider.getBlockNumber()] and
    [provider.getBlock(i, true)] ([None]: the block is [null]). *)
Record ArbHistoryEnv := {
  arb_isAddress : string -> outcome bool;
  arb_getBlockNumber : outcome Z;
  arb_getBlock : Z -> outcome (option (list JsTxEntry))
}.

(** [x || d] for an optional [number] argument ([0] and [undefined] are falsy). *)
Definition num_or (x : option Z) (d : Z) : Z :=
  match x with Some z => if Z.eqb z 0 then d else z | None => d end.

(** The inner [for ... of] over a block's transactions. *)
Definition matching_hashes (address : string) (txs : list JsTxEntry) : list string :=
  flat_map (fun tx => match tx with
                      | TxObject from to hash =>
                          if String.eqb from address
                             || match to with Some t => String.eqb t address | None => false end
                          then [hash] else []
                      | TxHashOnly _ => []
                      end) txs.

(** The loop [for (let i = startBlock; i <= endBlock && i <= startBlock + 100; i++)];
    the second component lists the block numbers passed to [getBlock].  The
    fuel 101 is never the reason to stop: after 101 rounds [i] is
    [startBlock + 101] and the condition is false. *)
Fixpoint history_loop (env : ArbHistoryEnv) (address : string) (fuel : nat)
    (i startBlock endBlock : Z) (transactions : list string)
    : outcome (list string) * list Z :=
  match fuel with
  | O => (Ok transactions, [])
  | S f =>
      if Z.leb i endBlock && Z.leb i (startBlock + 100) then
        match arb_getBlock env i with
        | Throw e => (Throw e, [i])
        | Ok block =>
            let found := match block with Some txs => matching_hashes address txs | None => [] end in
            let '(r, trace) := history_loop env address f (i + 1) startBlock endBlock
                                 (transactions ++ found) in
            (r, i :: trace)
        end
      else (Ok transactions, [])
  end.

(** ArbitrumService.getTransactionHistory(address, fromBlock?, toBlock?) *)
Definition getTransactionHistory_arbitrum (networkType : string) (env : ArbHistoryEnv)
    (address : string) (fromBlock toBlock : option Z) : outcome (list string) * list Z :=
  let '(r, trace) :=
    match validateAddress_evm (arb_isAddress env) address with
    | Ok true =>
        match arb_getBlockNumber env with
        | Throw e => (Throw e, [])
        | Ok currentBlock =>
            let startBlock := num_or fromBlock (Z.max 0 (currentBlock - 1000)) in
            let endBlock := num_or toBlock currentBlock in
            history_loop env address 101 startBlock startBlock endBlock []
        end
    | _ => (Throw (ErrorObj "Invalid address format"), [])
    end in
  (try_catch r (handleError networkType "getTransactionHistory"), trace).

(** The block numbers [lo], [lo + 1], ..., [hi]. *)
Definition block_range (lo hi : Z) : list Z :=
  map (fun j => lo + Z.of_nat j)%Z (seq 0 (Z.to_nat (hi - lo + 1))).

(* ------------------------------------------------------------------ *)
(** ** TRC20Service.createWallet *)

(** [tronWeb.createAccount()]'s result. *)
Record TronAccount := {
  ta_base58 : string;
  ta_privateKey : string;
  ta_publicKey : string
}.

(** TRC20Service.createWallet's libraries: bip39, bip32 ([fromSeed] may
    throw: [require('bip32')] of bip32 3.x is a factory), and tronWeb.
    [address.fromPrivateKey] returns the base58 address string or [false]
    ([None]). *)
Record TronLib := {
  tr_validateMnemonic : string -> bool;
  tr_mnemonicToSeedSync : string -> string;
  tr_fromSeed : string -> outcome string;
  tr_derivePrivateKey : string -> string -> outcome string;
  tr_fromPrivateKey : string -> option string;
  tr_createAccount : Entropy -> outcome TronAccount;
  tr_generateMnemonic : Entropy -> string
}.

(** [account.address.base58] where [account] is the value of
    [tronWeb.address.fromPrivateKey(..)]: a string or [false], neither of
    which has an [address] property. *)
Definition fromPrivateKey_address_base58 (account : option string) : outcome string :=
  match account with
  | Some _ | None => Throw (ErrorObj "Cannot read properties of undefined (reading 'base58')")
  end.

(** TRC20Service.createWallet.  [tr_derivePrivateKey root path] is
    [root.derivePath(path).privateKey.toString('hex')]. *)
Definition createWallet_trc20 (networkType : string) (lib : TronLib) (entropy : Entropy)
    (options : CreateWalletOptions) : outcome WalletCreationResponse :=
  try_catch
    (match truthy_str (opt_mnemonic options) with
     | Some mn =>
         if negb (tr_validateMnemonic lib mn) then Throw (ErrorObj "Invalid mnemonic phrase")
         else
           let seed := tr_mnemonicToSeedSync lib mn in
           obind (tr_fromSeed lib seed) (fun root =>
             let derivationPath :=
               match truthy_str (opt_derivationPath options) with
               | Some p => p
               | None => ("m/44'/195'/" ++ Z_to_dec (match opt_index options with
                                                    | Some i => i | None => 0%Z end) ++ "'/0/0")%string
               end in
             obind (tr_derivePrivateKey lib root derivationPath) (fun privateKey =>
               let account := tr_fromPrivateKey lib privateKey in
               obind (fromPrivateKey_address_base58 account) (fun address =>
                 Ok {| wc_address := address; wc_privateKey := None; wc_publicKey := None;
                       wc_mnemonic := Some mn; wc_network := "tron";
                       wc_index := opt_index options;
                       wc_derivationPath := Some derivationPath |})))
     | None =>
         obind (tr_createAccount lib entropy) (fun account =>
           let '(mnemonic, derivationPath) :=
             match opt_index options with
             | Some i =>
                 (Some (tr_generateMnemonic lib entropy),
                  Some (match truthy_str (opt_derivationPath options) with
                        | Some p => p
                        | None => ("m/44'/195'/" ++ Z_to_dec i ++ "'/0/0")%string
                        end))
             | None => (None, None)
             end in
           Ok {| wc_address := ta_base58 account;
                 wc_privateKey := Some (ta_privateKey account);
                 wc_publicKey := Some (ta_publicKey account);
                 wc_mnemonic := mnemonic; wc_network := "tron";
                 wc_index := opt_index options; wc_derivationPath := derivationPath |})
     end)
    (handleError networkType "createWallet").

(* ------------------------------------------------------------------ *)
(** ** RippleService: parseInt, memo encoding, sendTransaction *)

(** The longest prefix of radix-[R] digits. *)
Fixpoint take_radix_digits (R : nat) (s : list Ascii.ascii) : list Ascii.ascii :=
  match s with
  | c :: r => if Nat.ltb (digit_val c) R then c :: take_radix_digits R r else []
  | [] => []
  end.

(** [parseInt(string)] (no radix), as the signed mathematical integer it
    reads; [None] is [NaN]. *)
Definition js_parseInt_mv (input : list Ascii.ascii) : option Z :=
  let S0 := trim_start input in
  let sign : Z := match S0 with
                  | c :: _ => if Ascii.eqb c "-"%char then (-1)%Z else 1%Z
                  | [] => 1%Z end in
  let S1 := match S0 with
            | c :: r => if Ascii.eqb c "-"%char || Ascii.eqb c "+"%char then r else S0
            | [] => [] end in
  let '(R, S2) := match S1 with
                  | c0 :: c1 :: r =>
                      if Ascii.eqb c0 "0"%char && (Ascii.eqb c1 "x"%char || Ascii.eqb c1 "X"%char)
                      then (16%nat, r) else (10%nat, S1)
                  | _ => (10%nat, S1)
                  end in
  match take_radix_digits R S2 with
  | [] => None
  | Zs => Some (sign * fold_left (fun acc c => acc * Z.of_nat R + Z.of_nat (digit_val c))%Z Zs 0)%Z
  end.

(** An integer-valued JavaScript number ([-0] is shown as [0]). *)
Inductive JsNum :=
| NumFinite (z : Z)
| NumInfinity (negative : bool).

(** Rounding of a non-negative integer to the nearest double (ties to even). *)
Definition round_magnitude (a : Z) : Z :=
  if (a <? 2 ^ 53)%Z then a
  else
    let e := (Z.log2 a - 52)%Z in
    let q := (a / 2 ^ e)%Z in
    let rem := (a mod 2 ^ e)%Z in
    let half := (2 ^ (e - 1))%Z in
    ((if (half <? rem)%Z || ((rem =? half)%Z && Z.odd q) then q + 1 else q) * 2 ^ e)%Z.

(** [𝔽(z)]: the number an integer converts to. *)
Definition int_to_Number (z : Z) : JsNum :=
  let r := round_magnitude (Z.abs z) in
  if (2 ^ 1024 <=? r)%Z then NumInfinity (z <? 0)%Z else NumFinite (Z.sgn z * r).

(** [parseInt(string)] as a number; [None] is [NaN]. *)
Definition js_parseInt (input : string) : option JsNum :=
  option_map int_to_Number (js_parseInt_mv (list_ascii_of_string input)).

(** [Buffer.from(s, 'utf8')] on code units 0-255: one byte below 128, two
    bytes otherwise. *)
Definition utf8_encode (s : list Ascii.ascii) : list nat :=
  flat_map (fun c => let n := Ascii.nat_of_ascii c in
                     if Nat.ltb n 128 then [n] else [192 + n / 64; 128 + n mod 64]) s.

Definition hex_digit_lower (k : nat) : Ascii.ascii :=
  if Nat.ltb k 10 then Ascii.ascii_of_nat (48 + k) else Ascii.ascii_of_nat (87 + k).

(** [buffer.toString('hex')] *)
Definition hex_of_bytes (bs : list nat) : list Ascii.ascii :=
  flat_map (fun b => [hex_digit_lower (b / 16); hex_digit_lower (b mod 16)]) bs.

(** [s.toUpperCase()] on ASCII text (the hex string here). *)
Definition ascii_toUpper (c : Ascii.ascii) : Ascii.ascii :=
  let n := Ascii.nat_of_ascii c in
  if Nat.leb 97 n && Nat.leb n 122 then Ascii.ascii_of_nat (n - 32) else c.

Definition toUpperCase_ascii (s : list Ascii.ascii) : list Ascii.ascii :=
  map ascii_toUpper s.

(** [Buffer.from(memo, 'utf8').toString('hex').toUpperCase()] *)
Definition memoData (memo : string) : string :=
  string_of_list_ascii (toUpperCase_ascii (hex_of_bytes (utf8_encode (list_ascii_of_string memo)))).

(** The [payment] object of RippleService.sendTransaction ([Memos] holds
    the [MemoData] of its single [{Memo: {MemoData}}] entry). *)
Record XrpPayment := {
  TransactionType : string;
  Account : string;
  Amount : string;
  Destination : string;
  DestinationTag : option JsNum;
  Memos : option string
}.

(** RippleService.sendTransaction, the building of [payment]. *)
Definition ripple_payment (account : string) (xrpToDrops : string -> outcome string)
    (amount to : string) (memo : option string) : outcome XrpPayment :=
  obind (xrpToDrops amount) (fun drops =>
    let payment := {| TransactionType := "Payment"; Account := account; Amount := drops;
                      Destination := to; DestinationTag := None; Memos := None |} in
    let payment :=
      match truthy_str memo with
      | Some m =>
          match js_parseInt m with
          | Some v => {| TransactionType := TransactionType payment; Account := Account payment;
                         Amount := Amount payment; Destination := Destination payment;
                         DestinationTag := Some v; Memos := Memos payment |}
          | None => payment
          end
      | None => payment
      end in
    let payment :=
      match truthy_str memo with
      | Some m =>
          match js_parseInt m with
          | None => {| TransactionType := TransactionType payment; Account := Account payment;
                       Amount := Amount payment; Destination := Destination payment;
                       DestinationTag := DestinationTag payment; Memos := Some (memoData m) |}
          | Some _ => payment
          end
      | None => payment
      end in
    Ok payment).

Section RippleSend.
Context {Prepared : Type}.

(** RippleService's wallet, validation and xrpl client calls. *)
Record RippleSendEnv := {
  xs_wallet : option string;
  xs_isValidAddress : string -> outcome bool;
  xs_xrpToDrops : string -> outcome string;
  xs_autofill : XrpPayment -> outcome Prepared;
  xs_sign : Prepared -> outcome string;
  xs_submitAndWait : string -> outcome (string * bool)
}.

(** RippleService.sendTransaction; the second component lists the payments
    handed to [client.autofill]. *)
Definition sendTransaction_ripple (networkType : string) (env : RippleSendEnv)
    (to : string) (from : option string) (amount : string) (memo : option string)
    : outcome TransactionResponse * list XrpPayment :=
  let body :=
    match xs_wallet env with
    | None => (Throw (ErrorObj "Wallet not initialized. Please provide RIPPLE_SEED"), [])
    | Some address =>
        match validateAddress_ripple (xs_isValidAddress env) to with
        | Throw e => (Throw e, [])
        | Ok false => (Throw (ErrorObj "Invalid recipient address"), [])
        | Ok true =>
            match match truthy_str from with
                  | Some f => validateAddress_ripple (xs_isValidAddress env) f
                  | None => Ok true end with
            | Throw e => (Throw e, [])
            | Ok false => (Throw (ErrorObj "Invalid sender address"), [])
            | Ok true =>
                match ripple_payment address (xs_xrpToDrops env) amount to memo with
                | Throw e => (Throw e, [])
                | Ok payment =>
                    (obind (xs_autofill env payment) (fun prepared =>
                     obind (xs_sign env prepared) (fun tx_blob =>
                     obind (xs_submitAndWait env tx_blob) (fun '(hash, validated) =>
                       Ok (mkResponse hash (if validated then Confirmed else Pending) None)))),
                     [payment])
                end
            end
        end
    end in
  (try_catch body.1 (handleError networkType "sendTransaction"), body.2).
End RippleSend.

(** Inverse of the hex encoding, used in proofs. *)
Fixpoint hex_decode (s : list Ascii.ascii) : list nat :=
  match s with
  | c1 :: c2 :: r => (digit_val c1 * 16 + digit_val c2) :: hex_decode r
  | _ => []
  end.

Definition is_upper_hex_char (c : Ascii.ascii) : bool :=
  let n := Ascii.nat_of_ascii c in
  (Nat.leb 48 n && Nat.leb n 57) || (Nat.leb 65 n && Nat.leb n 70).

(* ------------------------------------------------------------------ *)
(** ** The adapters' estimateGas *)

(** [TransactionRequest] (gasLimit and gasPrice are not read by estimateGas). *)
Record TxRequest := {
  req_from : option string;
  req_to : string;
  req_amount : string;
  req_memo : option string
}.

(** [ethers.TransactionRequest] as built by estimateGas. *)
Record EvmTxRequest := {
  etr_to : string;
  etr_value : Z;
  etr_from : option string;
  etr_data : option string
}.

Section EstimateGas.
(** JavaScript numbers, kept abstract: a numeric literal, [Number(n)] of an
    integer, [+], [*] and [/]. *)
Context {Num : Type} (num_lit : string -> Num) (num_of_Z : Z -> Num)
  (num_add num_mul num_div : Num -> Num -> Num).

(** TONService.estimateGas *)
Definition estimateGas_ton {Addr : Type} (parse : string -> outcome Addr) (request : TxRequest)
    : outcome Num :=
  try_catch
    (obind (validateAddress_ton parse (req_to request)) (fun valid =>
       if negb valid then Throw (ErrorObj "Invalid recipient address")
       else
         let baseGas := num_lit "0.005" in
         let messageSize :=
           match truthy_str (req_memo request) with
           | Some memo => num_mul (num_of_Z (Z.of_nat (String.length memo))) (num_lit "0.0001")
           | None => num_of_Z 0
           end in
         Ok (num_add baseGas messageSize)))
    (fun _ => Ok (num_lit "0.005")).

(** SolanaService's connection and key material.  [se_getFee] builds the
    transfer (and memo) transaction from the blockhash, fee payer, sender,
    recipient and amount, compiles its message and calls
    [getFeeForMessage]; [None] is a [null] [value]. *)
Record SolanaEstEnv {PK : Type} := {
  se_newPublicKey : string -> outcome PK;
  se_isOnCurve : PK -> outcome bool;
  se_keypair : option PK;
  se_getLatestBlockhash : outcome string;
  se_getFee : string -> PK -> PK -> PK -> string -> option string -> outcome (option Z)
}.

(** SolanaService.estimateGas *)
Definition estimateGas_solana {PK : Type} (env : @SolanaEstEnv PK) (request : TxRequest)
    : outcome Num :=
  let payer :=
    match se_keypair env with
    | Some pk => Ok pk
    | None =>
        se_newPublicKey env (match truthy_str (req_from request) with
                             | Some f => f
                             | None => "11111111111111111111111111111111" end)
    end in
  try_catch
    (obind (validateAddress_solana (se_newPublicKey env) (se_isOnCurve env) (req_to request)) (fun valid =>
     if negb valid then Throw (ErrorObj "Invalid recipient address")
     else
       obind (se_getLatestBlockhash env) (fun recentBlockhash =>
       obind payer (fun feePayer =>
       obind payer (fun fromPubkey =>
       obind (se_newPublicKey env (req_to request)) (fun toPubkey =>
       obind (se_getFee env recentBlockhash feePayer fromPubkey toPubkey
                (req_amount request) (truthy_str (req_memo request))) (fun value =>
         let lamports := match value with
                         | Some v => if Z.eqb v 0 then 5000%Z else v
                         | None => 5000%Z end in
         Ok (num_div (num_of_Z lamports) (num_of_Z 1000000000)))))))))
    (fun _ => Ok (num_lit "0.000005")).

(** RippleService's client: the [validated_ledger?.base_fee] of a
    [server_info] request, and [parseFloat(dropsToXrp(drops))]. *)
Record RippleEstEnv := {
  re_isValidAddress : string -> outcome bool;
  re_server_info_base_fee : outcome (option Z);
  re_dropsToXrp_parseFloat : string -> outcome Num
}.

(** RippleService.estimateGas *)
Definition estimateGas_ripple (env : RippleEstEnv) (request : TxRequest) : outcome Num :=
  try_catch
    (obind (validateAddress_ripple (re_isValidAddress env) (req_to request)) (fun valid =>
     if negb valid then Throw (ErrorObj "Invalid recipient address")
     else
       obind (re_server_info_base_fee env) (fun base_fee =>
         let baseFeeDrops := match base_fee with
                             | Some f => if Z.eqb f 0 then 10%Z else f
                             | None => 10%Z end in
         re_dropsToXrp_parseFloat env (Z_to_dec baseFeeDrops))))
    (fun _ => Ok (num_lit "0.00001")).

(** CardanoService.estimateGas *)
Definition estimateGas_cardano (request : TxRequest) : outcome Num :=
  try_catch
    (let baseFee := num_of_Z 155381 in
     let estimatedSize := num_of_Z 300 in
     let feePerByte := num_of_Z 44 in
     let totalFeeLovelace := num_add baseFee (num_mul estimatedSize feePerByte) in
     let totalFeeAda := num_div totalFeeLovelace (num_of_Z 1000000) in
     Ok totalFeeAda)
    (fun _ => Ok (num_lit "0.2")).

(** ArbitrumService / AvalancheService: the provider and wallet. *)
Record EvmEstEnv := {
  ee_isAddress : string -> outcome bool;
  ee_wallet : option string;
  ee_parseEther : string -> outcome Z;
  ee_estimateGas : EvmTxRequest -> outcome Z
}.

(** ArbitrumService.estimateGas and AvalancheService.estimateGas (the same
    code); the second component lists the requests handed to
    [provider.estimateGas]. *)
Definition estimateGas_evm (networkType : string) (env : EvmEstEnv) (request : TxRequest)
    : outcome Num * list EvmTxRequest :=
  let body :=
    match validateAddress_evm (ee_isAddress env) (req_to request) with
    | Throw e => (Throw e, [])
    | Ok false => (Throw (ErrorObj "Invalid recipient address"), [])
    | Ok true =>
        match ee_parseEther env (req_amount request) with
        | Throw e => (Throw e, [])
        | Ok value =>
            let from :=
              match truthy_str (req_from request) with
              | Some f =>
                  match validateAddress_evm (ee_isAddress env) f with
                  | Ok true => Some f
                  | _ => ee_wallet env
                  end
              | None => ee_wallet env
              end in
            let data :=
              match truthy_str (req_memo request) with
              | Some memo =>
                  Some ("0x" ++ string_of_list_ascii
                                  (hex_of_bytes (utf8_encode (list_ascii_of_string memo))))%string
              | None => None
              end in
            let txRequest := {| etr_to := req_to request; etr_value := value;
                                etr_from := from; etr_data := data |} in
            (obind (ee_estimateGas env txRequest) (fun gasEstimate => Ok (num_of_Z gasEstimate)),
             [txRequest])
        end
    end in
  (try_catch body.1 (handleError networkType "estimateGas"), body.2).

(** TRC20Service's tronWeb calls: [isAddress], [toSun] and
    [transactionBuilder.sendTrx]. *)
Record TronEstLib := {
  te_isAddress : string -> outcome bool;
  te_toSun : string -> outcome Num;
  te_sendTrx : string -> Num -> option string -> outcome unit
}.

(** TRC20Service.estimateGas; [tronWeb] is unset on a service that was
    never initialised, [wallet] is the address string or undefined. *)
Definition estimateGas_trc20 (networkType : string) (tronWeb : option TronEstLib)
    (wallet : option string) (request : TxRequest) : outcome Num :=
  try_catch
    (obind (validateAddress_trc20 (option_map te_isAddress tronWeb) (req_to request)) (fun valid =>
     if negb valid then Throw (ErrorObj "Invalid recipient address")
     else
       match tronWeb with
       | None => Throw (ErrorObj "Cannot read properties of undefined (reading 'toSun')")
       | Some tw =>
           obind (te_toSun tw (req_amount request)) (fun amountSun =>
           obind (te_sendTrx tw (req_to request) amountSun
                    (match truthy_str (req_from request) with
                     | Some f => Some f
                     | None => wallet end)) (fun _ =>
             let estimatedEnergy := num_of_Z 345 in
             Ok estimatedEnergy))
       end))
    (handleError networkType "estimateGas").
End EstimateGas.

(* ------------------------------------------------------------------ *)
(** ** BlockchainController, router and app *)

Local Set Warnings "-register-all".

(** A JSON value of a response body ([undefined] fields are left out). *)
Inductive Json {Num : Type} :=
| JStr (s : string)
| JNum (n : Num)
| JBool (b : bool)
| JObj (fields : list (string * Json)).
Arguments Json : clear implicits.

Record HttpResponse {Num : Type} := {
  http_status : nat;
  http_body : Json Num
}.
Arguments HttpResponse : clear implicits.

(** Adapter method calls a handler makes (on the service object with the
    given identity). *)
Inductive AdapterCall :=
| CallGetBalance (svc : nat) (address : string)
| CallGetWalletInfo (svc : nat) (address : string)
| CallSendTransaction (svc : nat) (request : TxRequest)
| CallEstimateGas (svc : nat) (request : TxRequest).

Definition status_str (s : TxStatus) : string :=
  match s with Pending => "pending" | Confirmed => "confirmed" | Failed => "failed" end.

Definition opt_field {Num : Type} (k : string) (v : option (Json Num)) : list (string * Json Num) :=
  match v with Some j => [(k, j)] | None => [] end.

Section Controller.
Context {Num : Type} (num_of_Z : Z -> Num) (R : Registry) (initialize : InitOracle).

(** The adapter methods the handlers call, for each service object. *)
Record ControllerOps := {
  co_validateAddress : Inst -> string -> outcome bool;
  co_getBalance : Inst -> string -> outcome Num;
  co_getWalletInfo : Inst -> string -> outcome (WalletInfo Num);
  co_sendTransaction : Inst -> TxRequest -> outcome TransactionResponse;
  co_estimateGas : Inst -> TxRequest -> outcome Num
}.
Context (ops : ControllerOps).

Definition tr_json (r : TransactionResponse) : Json Num :=
  JObj ([("hash", JStr (tr_hash r)); ("status", JStr (status_str (tr_status r)))] ++
        opt_field "blockNumber" (option_map (fun b => JNum (num_of_Z b)) (tr_blockNumber r))).

Definition reply (code : nat) (fields : list (string * Json Num)) : HttpResponse Num :=
  {| http_status := code; http_body := JObj fields |}.

(** BlockchainController.getBalance (timestamp omitted). *)
Definition controller_getBalance (network address : string) (st : FactoryState)
    : HttpResponse Num * FactoryState * list AdapterCall :=
  let fail := reply 500 [("error", JStr "Failed to get balance"); ("network", JStr network);
                         ("address", JStr address)] in
  match createService R initialize network st with
  | (Throw _, st1) => (fail, st1, [])
  | (Ok service, st1) =>
      match co_validateAddress ops service address with
      | Throw _ => (fail, st1, [])
      | Ok false => (reply 400 [("error", JStr "Invalid address format")], st1, [])
      | Ok true =>
          let c1 := CallGetBalance (inst_id service) address in
          match co_getBalance ops service address with
          | Throw _ => (fail, st1, [c1])
          | Ok balance =>
              let c2 := CallGetWalletInfo (inst_id service) address in
              match co_getWalletInfo ops service address with
              | Throw _ => (fail, st1, [c1; c2])
              | Ok walletInfo =>
                  (reply 200 [("network", JStr network); ("address", JStr address);
                              ("balance", JNum balance);
                              ("nativeToken", JStr (wi_nativeToken walletInfo))], st1, [c1; c2])
              end
          end
      end
  end.

(** BlockchainController.sendTransaction (timestamp and the echoed amount omitted). *)
Definition controller_sendTransaction (network : string) (request : TxRequest) (st : FactoryState)
    : HttpResponse Num * FactoryState * list AdapterCall :=
  let fail := reply 500 [("error", JStr "Failed to send transaction"); ("network", JStr network)] in
  match createService R initialize network st with
  | (Throw _, st1) => (fail, st1, [])
  | (Ok service, st1) =>
      match co_validateAddress ops service (req_to request) with
      | Throw _ => (fail, st1, [])
      | Ok false => (reply 400 [("error", JStr "Invalid recipient address")], st1, [])
      | Ok true =>
          match match truthy_str (req_from request) with
                | Some f => option_map negb (match co_validateAddress ops service f with
                                             | Ok b => Some b | Throw _ => None end)
                | None => Some false
                end with
          | None => (fail, st1, [])
          | Some true => (reply 400 [("error", JStr "Invalid sender address")], st1, [])
          | Some false =>
              let c := CallSendTransaction (inst_id service) request in
              match co_sendTransaction ops service request with
              | Throw _ => (fail, st1, [c])
              | Ok result =>
                  (reply 200 [("network", JStr network); ("transaction", tr_json result);
                              ("request", JObj ([("to", JStr (req_to request))] ++
                                                opt_field "memo" (option_map JStr (req_memo request))))],
                   st1, [c])
              end
          end
      end
  end.

(** BlockchainController.estimateGas (timestamp and the echoed amount omitted). *)
Definition controller_estimateGas (network : string) (request : TxRequest) (st : FactoryState)
    : HttpResponse Num * FactoryState * list AdapterCall :=
  let fail := reply 500 [("error", JStr "Failed to estimate gas"); ("network", JStr network)] in
  match createService R initialize network st with
  | (Throw _, st1) => (fail, st1, [])
  | (Ok service, st1) =>
      match co_validateAddress ops service (req_to request) with
      | Throw _ => (fail, st1, [])
      | Ok false => (reply 400 [("error", JStr "Invalid recipient address")], st1, [])
      | Ok true =>
          let c1 := CallEstimateGas (inst_id service) request in
          match co_estimateGas ops service request with
          | Throw _ => (fail, st1, [c1])
          | Ok gasEstimate =>
              let c2 := CallGetWalletInfo (inst_id service) (req_to request) in
              match co_getWalletInfo ops service (req_to request) with
              | Throw _ => (fail, st1, [c1; c2])
              | Ok walletInfo =>
                  (reply 200 [("network", JStr network); ("gasEstimate", JNum gasEstimate);
                              ("estimatedFee", JNum gasEstimate);
                              ("feeToken", JStr (wi_nativeToken walletInfo));
                              ("transactionDetails", JObj [("to", JStr (req_to request))])],
                   st1, [c1; c2])
              end
          end
      end
  end.
End Controller.

(** An entry of [supportedNetworks]. *)
Inductive NetworkEntry :=
| NetAvailable (type : string) (name : option string) (chainId : option Z) (testnet : bool)
| NetUnavailable (type : string) (error : string).

Definition entry_type (e : NetworkEntry) : string :=
  match e with NetAvailable t _ _ _ | NetUnavailable t _ => t end.

Definition entry_status (e : NetworkEntry) : string :=
  match e with NetAvailable _ _ _ _ => "available" | NetUnavailable _ _ => "unavailable" end.

(** The object the mapper of getSupportedNetworks returns for a network,
    from the outcome of [createService]; [service.getNetworkConfig()] is
    [{ ...config }], empty when the config is undefined. *)
Definition supported_entry (networkType : string) (r : outcome Inst) : NetworkEntry :=
  match r with
  | Ok service =>
      let config := inst_config service in
      NetAvailable networkType (option_map name config)
        (match config with Some c => chainId c | None => None end)
        (match config with Some c => match testnet c with Some true => true | _ => false end
                      | None => false end)
  | Throw e => NetUnavailable networkType (errorMessage e)
  end.

(** The mappers of [Promise.allSettled(networks.map(...))].  Each mapper
    runs [createService] synchronously up to its [await service.initialize()],
    so objects are created and [initialize] is called in list order; the
    map writes that follow a successful initialisation are for distinct keys
    ([Object.values(NetworkType)] has no duplicates) and no mapper reads
    another's key, so running the mappers one after the other gives the
    same results.  The mapper catches everything: no promise rejects. *)
Fixpoint supported_loop (R : Registry) (initialize : InitOracle) (l : list string)
    (st : FactoryState) : list NetworkEntry * FactoryState :=
  match l with
  | [] => ([], st)
  | networkType :: l' =>
      let '(r, st1) := createService R initialize networkType st in
      let '(rest, st2) := supported_loop R initialize l' st1 in
      (supported_entry networkType r :: rest, st2)
  end.

(** The JSON body of getSupportedNetworks (timestamp omitted). *)
Record SupportedReport := {
  sn_supportedNetworks : list NetworkEntry;
  sn_count : nat;
  sn_availableCount : nat
}.

(** BlockchainController.getSupportedNetworks; nothing outside the
    mappers throws, so the [500] branch is not reachable. *)
Definition getSupportedNetworks (R : Registry) (initialize : InitOracle) (st : FactoryState)
    : SupportedReport * FactoryState :=
  let networks := getAvailableNetworks R in
  let '(results, st') := supported_loop R initialize networks st in
  ({| sn_supportedNetworks := results;
      sn_count := List.length networks;
      sn_availableCount :=
        List.length (List.filter (fun n => String.eqb (entry_status n) "available") results) |},
   st').

(** ** Routing (app.ts, blockchain.routes.ts, the middleware) *)

Inductive HttpMethod := GET | POST | HEAD | OtherMethod (m : string).

(** A request: its method and the segments of its path (without the query
    string and a trailing slash). *)
Record Request := {
  rq_method : HttpMethod;
  rq_path : list string
}.

Inductive PSeg := PLit (s : string) | PParam (p : string).

Definition ascii_lower (c : Ascii.ascii) : Ascii.ascii :=
  let n := Ascii.nat_of_ascii c in
  if Nat.leb 65 n && Nat.leb n 90 then Ascii.ascii_of_nat (n + 32) else c.

Definition str_lower (s : string) : string :=
  string_of_list_ascii (map ascii_lower (list_ascii_of_string s)).

(** Express path matching: literal segments compare case-insensitively, a
    parameter takes one non-empty segment (percent-decoded later). *)
Fixpoint match_segments (pat : list PSeg) (segs : list string)
    : option (list (string * string)) :=
  match pat, segs with
  | [], [] => Some []
  | PLit s :: p, x :: xs =>
      if String.eqb (str_lower s) (str_lower x) then match_segments p xs else None
  | PParam n :: p, x :: xs =>
      if String.eqb x "" then None else option_map (cons (n, x)) (match_segments p xs)
  | _, _ => None
  end.

(** A [GET] route also answers [HEAD]. *)
Definition method_matches (route req : HttpMethod) : bool :=
  match route, req with
  | GET, GET | GET, HEAD | POST, POST => true
  | _, _ => false
  end.

Inductive Middleware := MwValidateNetwork | MwValidateAddress | MwValidateTxRequest | MwRateLimiter.

Record Route := {
  rt_method : HttpMethod;
  rt_path : list PSeg;
  rt_middlewares : list Middleware;
  rt_handler : string
}.

Definition mkRoute m p mws h : Route :=
  {| rt_method := m; rt_path := p; rt_middlewares := mws; rt_handler := h |}.

(** blockchain.routes.ts, in registration order. *)
Definition blockchain_routes : list Route :=
  [ mkRoute GET [PParam "network"; PLit "wallet"; PLit "create"]
      [MwValidateNetwork; MwRateLimiter] "createWallet";
    mkRoute GET [PLit "networks"] [] "getSupportedNetworks";
    mkRoute GET [PParam "network"; PLit "balance"; PParam "address"]
      [MwValidateNetwork; MwValidateAddress; MwRateLimiter] "getBalance";
    mkRoute GET [PLit "balance"; PParam "address"]
      [MwValidateAddress; MwRateLimiter] "getMultiNetworkBalance";
    mkRoute POST [PParam "network"; PLit "transaction"]
      [MwValidateNetwork; MwValidateTxRequest; MwRateLimiter] "sendTransaction";
    mkRoute GET [PParam "network"; PLit "transaction"; PParam "hash"]
      [MwValidateNetwork; MwRateLimiter] "getTransactionStatus";
    mkRoute POST [PParam "network"; PLit "estimate-gas"]
      [MwValidateNetwork; MwValidateTxRequest; MwRateLimiter] "estimateGas";
    mkRoute GET [PParam "network"; PLit "wallet"; PParam "address"]
      [MwValidateNetwork; MwValidateAddress; MwRateLimiter] "getWalletInfo";
    mkRoute GET [PParam "network"; PLit "block"; PLit "latest"]
      [MwValidateNetwork; MwRateLimiter] "getLatestBlock" ].

(** How a request ends: a response written by a middleware or an error
    handler (status and [error] text), or the handler it reaches with its
    parameters. *)
Inductive Routed :=
| Answered (status : nat) (error : string)
| Handled (handler : string) (params : list (string * string)).

(** The per-request behaviour of the parts whose code is not in this
    repository or depends on the body: [pre] is helmet, corsMiddleware, the
    body parsers and the request logger ([None]: they call [next()]);
    [joi] is the Joi schema check of validateTransactionRequest; [limiter]
    is [rateLimiter.consume] succeeding; [decode] is [decodeURIComponent]
    ([None]: it throws, and Express answers 400 through errorHandler). *)
Record RouteEnv := {
  pre : Request -> option Routed;
  joi : Request -> bool;
  limiter : Request -> bool;
  decode : string -> option string
}.

Fixpoint decode_params (env : RouteEnv) (ps : list (string * string))
    : option (list (string * string)) :=
  match ps with
  | [] => Some []
  | (k, v) :: r =>
      match decode env v, decode_params env r with
      | Some v', Some r' => Some ((k, v') :: r')
      | _, _ => None
      end
  end.

Fixpoint param (ps : list (string * string)) (k : string) : option string :=
  match ps with
  | [] => None
  | (k', v) :: r => if String.eqb k k' then Some v else param r k
  end.

(** The route's middleware chain, then its controller method. *)
Fixpoint run_chain (env : RouteEnv) (req : Request) (params : list (string * string))
    (mws : list Middleware) (handler : string) : Routed :=
  match mws with
  | [] => Handled handler params
  | MwValidateNetwork :: r =>
      match param params "network" with
      | Some n =>
          if existsb (String.eqb n) NetworkType_values
          then run_chain env req params r handler
          else Answered 400 "Invalid network type"
      | None => Answered 400 "Invalid network type"
      end
  | MwValidateAddress :: r =>
      match param params "address" with
      | Some a => if String.eqb a "" then Answered 400 "Invalid address parameter"
                  else run_chain env req params r handler
      | None => Answered 400 "Invalid address parameter"
      end
  | MwValidateTxRequest :: r =>
      if joi env req then run_chain env req params r handler
      else Answered 400 "Validation failed"
  | MwRateLimiter :: r =>
      if limiter env req then run_chain env req params r handler
      else Answered 429 "Too many requests"
  end.

(** The router: the first route whose method and path match handles the
    request; [None] when none does (the router calls [next()]). *)
Fixpoint router_dispatch (env : RouteEnv) (req : Request) (segs : list string)
    (routes : list Route) : option Routed :=
  match routes with
  | [] => None
  | rt :: rs =>
      if method_matches (rt_method rt) (rq_method req) then
        match match_segments (rt_path rt) segs with
        | Some ps =>
            match decode_params env ps with
            | Some ps' => Some (run_chain env req ps' (rt_middlewares rt) (rt_handler rt))
            | None => Some (Answered 400 "Failed to decode param")
            end
        | None => router_dispatch env req segs rs
        end
      else router_dispatch env req segs rs
  end.

(** [app.use('/api/blockchain', router)]: the rest of a path under the
    mount point. *)
Fixpoint strip_mount (mount segs : list string) : option (list string) :=
  match mount, segs with
  | [], rest => Some rest
  | m :: ms, s :: ss => if String.eqb (str_lower m) (str_lower s) then strip_mount ms ss else None
  | _ :: _, [] => None
  end.

(** App: the middlewares, [GET /health], the mounted router, [GET /api],
    then notFoundHandler. *)
Definition app_handle (env : RouteEnv) (req : Request) : Routed :=
  match pre env req with
  | Some r => r
  | None =>
      let fallthrough :=
        if method_matches GET (rq_method req) && bool_decide (match_segments [PLit "api"] (rq_path req) = Some [])
        then Handled "apiDocs" []
        else Answered 404 "Route not found" in
      if method_matches GET (rq_method req) && bool_decide (match_segments [PLit "health"] (rq_path req) = Some [])
      then Handled "health" []
      else
        match strip_mount ["api"; "blockchain"] (rq_path req) with
        | Some rest =>
            match router_dispatch env req rest blockchain_routes with
            | Some r => r
            | None => fallthrough
            end
        | None => fallthrough
        end
  end.

Definition trc20_inst : Inst :=
  {| inst_id := 7; inst_kind := TRC20Service; inst_network := "trc20";
     inst_config := source_NETWORK_CONFIGS "trc20" |}.

(* ------------------------------------------------------------------ *)
(** ** Concrete environments of the witnesses of further properties *)

(** A TON wallet at sequence number 0 whose transfer is its destination. *)
Definition ton_demo_env : @TonWalletEnv string string :=
  {| ton_wallet_ready := true; ton_wallet_address := "EQwallet";
     ton_getSeqno := Ok 0%Z; ton_createTransfer := fun _ m => Ok (msg_dest m);
     ton_send := fun _ => Ok tt; ton_parse := fun s => Ok s; ton_now := 1700000000%Z |}.

(** The same wallet, already deployed (sequence number 3). *)
Definition ton_deployed_env : @TonWalletEnv string string :=
  {| ton_wallet_ready := true; ton_wallet_address := "EQwallet";
     ton_getSeqno := Ok 3%Z; ton_createTransfer := fun _ m => Ok (msg_dest m);
     ton_send := fun _ => Ok tt; ton_parse := fun s => Ok s; ton_now := 1700000000%Z |}.

(** An Arbitrum provider at block 5000 whose every block holds one
    transaction from [0xme]. *)
Definition arb_demo_env : ArbHistoryEnv :=
  {| arb_isAddress := fun _ => Ok true; arb_getBlockNumber := Ok 5000%Z;
     arb_getBlock := fun i => Ok (Some [TxObject "0xme" (Some "0xyou") ("0xh" ++ Z_to_dec i)]) |}.

(** TronWeb and bip39/bip32 stand-ins that all succeed. *)
Definition tron_demo_lib : TronLib :=
  {| tr_validateMnemonic := fun m => String.eqb m "abandon";
     tr_mnemonicToSeedSync := fun m => "seed:" ++ m;
     tr_fromSeed := fun s => Ok ("root:" ++ s);
     tr_derivePrivateKey := fun root path => Ok ("pk:" ++ root ++ path);
     tr_fromPrivateKey := fun pk => Some ("T" ++ pk);
     tr_createAccount := fun _ => Ok {| ta_base58 := "Taddr"; ta_privateKey := "pk"; ta_publicKey := "pub" |};
     tr_generateMnemonic := fun _ => "legal winner" |}%string.

(** An XRPL client whose every call succeeds. *)
Definition ripple_demo_env : @RippleSendEnv XrpPayment :=
  {| xs_wallet := Some "rAcc"; xs_isValidAddress := fun _ => Ok true;
     xs_xrpToDrops := fun _ => Ok "1000000"; xs_autofill := fun p => Ok p;
     xs_sign := fun _ => Ok "blob"; xs_submitAndWait := fun _ => Ok ("HASH", true) |}.

(** An EVM provider with a wallet, 1 ether per amount and 21000 gas. *)
Definition evm_demo_env : EvmEstEnv :=
  {| ee_isAddress := fun a => Ok (negb (String.eqb a "")); ee_wallet := Some "0xw";
     ee_parseEther := fun _ => Ok (10 ^ 18)%Z; ee_estimateGas := fun _ => Ok 21000%Z |}.

(** A tronWeb whose [toSun] and [sendTrx] succeed. *)
Definition tron_est_demo : @TronEstLib Z :=
  {| te_isAddress := fun _ => Ok true; te_toSun := fun _ => Ok 1000000%Z;
     te_sendTrx := fun _ _ _ => Ok tt |}.

(** A request to [0xto] for amount 1 with no sender and no memo. *)
Definition demo_request : TxRequest :=
  {| req_from := None; req_to := "0xto"; req_amount := "1"; req_memo := None |}.

(** Controller-facing adapter operations that all succeed. *)
Definition controller_demo_ops : @ControllerOps Z :=
  {| co_validateAddress := fun _ a => Ok (negb (String.eqb a ""));
     co_getBalance := fun _ _ => Ok 5%Z;
     co_getWalletInfo := fun _ a => Ok {| wi_address := a; wi_balance := 5%Z; wi_nativeToken := "TRX" |};
     co_sendTransaction := fun _ _ => Ok (mkResponse "h" Pending None);
     co_estimateGas := fun _ _ => Ok 345%Z |}.

(** No middleware answers, every request passes the limiter and Joi, and
    every parameter decodes to itself. *)
Definition demo_route_env : RouteEnv :=
  {| pre := fun _ => None; joi := fun _ => true; limiter := fun _ => true;
     decode := fun s => Some s |}.

(** The TRC20 adapter object [createService] builds first from [initial_state]. *)
Definition demo_trc20_service : Inst :=
  {| inst_id := 0; inst_kind := TRC20Service; inst_network := "trc20";
     inst_config := source_NETWORK_CONFIGS "trc20" |}.

(* ================================================================== *)
(** * Properties *)

(** ** Factory *)

Section FactoryProofs.
Context (R : Registry).

Lemma createService_cache_wf (initialize : InitOracle) (n : string) (st : FactoryState) :
  cache_wf R st -> cache_wf R (createService R initialize n st).2.
Proof.
  intros Hwf. unfold createService.
  destruct (services st !! n) as [s|] eqn:Hc; [exact Hwf|].
  destruct (serviceClass R n) as [k|] eqn:Hk; [|exact Hwf].
  destruct (NETWORK_CONFIGS R n) as [c|] eqn:Hcfg; simpl.
  - destruct (enable c) eqn:He.
    + destruct (initialize _); simpl.
      * intros n' s' Hl. simpl in Hl.
        apply lookup_insert_Some in Hl as [[<- <-] | [_ Hl]]; simpl.
        -- split; [done|]. split; [simpl; lia|]. split; [done|]. eauto.
        -- destruct (Hwf n' s' Hl) as (? & ? & Hrest). split; [done|]. split; [simpl; lia|exact Hrest].
      * intros n' s' Hl. simpl in Hl.
        destruct (Hwf n' s' Hl) as (? & ? & Hrest). split; [done|]. split; [simpl; lia|exact Hrest].
    + intros n' s' Hl. simpl in Hl.
      destruct (Hwf n' s' Hl) as (? & ? & Hrest). split; [done|]. split; [simpl; lia|exact Hrest].
  - intros n' s' Hl. simpl in Hl.
    destruct (Hwf n' s' Hl) as (? & ? & Hrest). split; [done|]. split; [simpl; lia|exact Hrest].
Qed.

Lemma reachable_cache_wf (st : FactoryState) : reachable R st -> cache_wf R st.
Proof.
  induction 1.
  - intros n s Hl. simpl in Hl. rewrite lookup_empty in Hl. discriminate.
  - by apply createService_cache_wf.
Qed.

(** A successful call returns an object of the requested network. *)
Lemma createService_ok_network (initialize : InitOracle) (n : string) (st : FactoryState)
    (s : Inst) :
  cache_wf R st -> (createService R initialize n st).1 = Ok s -> inst_network s = n.
Proof.
  intros Hwf. unfold createService.
  destruct (services st !! n) as [s0|] eqn:Hc.
  - simpl. intros [= <-]. by apply (Hwf n s0).
  - destruct (serviceClass R n); [|discriminate].
    destruct (NETWORK_CONFIGS R n) as [c|]; [|discriminate].
    destruct (enable c); [destruct (initialize _)|]; simpl; intros H; inversion H; done.
Qed.

Lemma getAllServices_loop_reachable (initialize : InitOracle) (l : list string)
    (st : FactoryState) :
  reachable R st -> reachable R (getAllServices_loop R initialize l st).2.
Proof.
  revert st. induction l as [|n l IH]; intros st Hr; simpl; [done|].
  destruct (createService R initialize n st) as [r st1] eqn:E.
  assert (Hr1 : reachable R st1).
  { replace st1 with (createService R initialize n st).2 by (rewrite E; done).
    by constructor. }
  specialize (IH st1 Hr1).
  destruct (getAllServices_loop R initialize l st1) as [rest st2].
  destruct r; exact IH.
Qed.

(** The networks of the returned objects form a sub-list of the loop's
    input, so they are distinct when the input is. *)
Lemma getAllServices_loop_networks (initialize : InitOracle) (l : list string)
    (st : FactoryState) :
  reachable R st ->
  sublist (map inst_network (getAllServices_loop R initialize l st).1) l.
Proof.
  revert st. induction l as [|n l IH]; intros st Hr; simpl; [constructor|].
  destruct (createService R initialize n st) as [r st1] eqn:E.
  assert (Hr1 : reachable R st1).
  { replace st1 with (createService R initialize n st).2 by (rewrite E; done).
    by constructor. }
  specialize (IH st1 Hr1).
  destruct (getAllServices_loop R initialize l st1) as [rest st2]. simpl in *.
  destruct r as [s|e]; simpl.
  - assert (inst_network s = n) as ->.
    { apply (createService_ok_network initialize n st);
        [by apply reachable_cache_wf | by rewrite E]. }
    by apply sublist_skip.
  - by apply sublist_cons.
Qed.

Lemma getAllServices_NoDup (initialize : InitOracle) (st : FactoryState) :
  NoDup (NetworkTypeValues R) -> reachable R st ->
  NoDup (map inst_network (getAllServices R initialize st).1).
Proof.
  intros Hnd Hr. eapply sublist_NoDup; [exact Hnd|].
  by apply getAllServices_loop_networks.
Qed.
End FactoryProofs.

Section FactoryClaims.
Context (R : Registry).

(** For a supported network whose configuration exists and whose
    initialisation (when enabled) succeeds, [createService] returns an
    object of that network. *)
Lemma createService_constructible (initialize : InitOracle) (n : string) (st : FactoryState) :
  cache_wf R st ->
  serviceClass R n <> None ->
  (exists c, NETWORK_CONFIGS R n = Some c /\
     (enable c = true -> forall s, initialize s = Ok tt)) ->
  exists s, (createService R initialize n st).1 = Ok s /\ inst_network s = n.
Proof.
  intros Hwf Hk (c & Hc & Hinit). unfold createService.
  destruct (services st !! n) as [s|] eqn:Hl.
  - exists s. split; [done|]. by apply (Hwf n s).
  - destruct (serviceClass R n) as [k|]; [|congruence].
    rewrite Hc. destruct (enable c) eqn:He.
    + rewrite (Hinit eq_refl). simpl. eauto.
    + simpl. eauto.
Qed.

Lemma getAllServices_loop_all (initialize : InitOracle) (l : list string) (st : FactoryState) :
  reachable R st ->
  (forall n, In n l -> serviceClass R n <> None /\
     exists c, NETWORK_CONFIGS R n = Some c /\
       (enable c = true -> forall s, initialize s = Ok tt)) ->
  map inst_network (getAllServices_loop R initialize l st).1 = l.
Proof.
  revert st. induction l as [|n l IH]; intros st Hr Hall; simpl; [done|].
  destruct (Hall n (or_introl eq_refl)) as [Hk Hc].
  destruct (createService_constructible initialize n st (reachable_cache_wf R st Hr) Hk Hc)
    as (s & Hs & Hn).
  destruct (createService R initialize n st) as [r st1] eqn:E. simpl in Hs. subst r.
  assert (Hr1 : reachable R st1).
  { replace st1 with (createService R initialize n st).2 by (rewrite E; done).
    by constructor. }
  specialize (IH st1 Hr1 (fun m Hm => Hall m (or_intror Hm))).
  destruct (getAllServices_loop R initialize l st1) as [rest st2]. simpl in *.
  by rewrite Hn, IH.
Qed.
(** A supported, configured network whose initialisation (when enabled)
    succeeds on the objects of that network gets an object from
    [createService]; a disabled network always does. *)
Lemma createService_succeeds (initialize : InitOracle) (n : string) (st : FactoryState)
    (c : NetworkConfig) :
  cache_wf R st ->
  serviceClass R n <> None ->
  NETWORK_CONFIGS R n = Some c ->
  (enable c = true -> forall s, inst_network s = n -> initialize s = Ok tt) ->
  exists s, (createService R initialize n st).1 = Ok s /\ inst_network s = n.
Proof.
  intros Hwf Hk Hc Hinit. unfold createService.
  destruct (services st !! n) as [s|] eqn:Hl.
  - exists s. split; [done|]. by apply (Hwf n s).
  - destruct (serviceClass R n) as [k|]; [|congruence].
    rewrite Hc. destruct (enable c) eqn:He.
    + erewrite Hinit by (done || reflexivity). simpl. eauto.
    + simpl. eauto.
Qed.

(** An object returned by [createService] belongs to a supported,
    configured network. *)
Lemma createService_ok_supported (initialize : InitOracle) (n : string) (st : FactoryState)
    (s : Inst) :
  cache_wf R st -> (createService R initialize n st).1 = Ok s ->
  serviceClass R n <> None /\ exists c, NETWORK_CONFIGS R n = Some c.
Proof.
  intros Hwf. unfold createService.
  destruct (services st !! n) as [s0|] eqn:Hl.
  - intros _. destruct (Hwf n s0 Hl) as (_ & _ & Hk & c & Hc & _).
    split; [congruence|eauto].
  - destruct (serviceClass R n) as [k|]; [|discriminate].
    destruct (NETWORK_CONFIGS R n) as [c|]; [|discriminate].
    intros _. split; [discriminate|eauto].
Qed.

(** A throwing [createService] call is explained by an unsupported type,
    a missing configuration, or an enabled network whose [initialize()]
    threw that error. *)
Lemma createService_throw_cause (initialize : InitOracle) (n : string) (st : FactoryState)
    (e : exn) :
  (createService R initialize n st).1 = Throw e ->
  serviceClass R n = None \/ NETWORK_CONFIGS R n = None \/
  exists c s, NETWORK_CONFIGS R n = Some c /\ enable c = true /\
    inst_network s = n /\ initialize s = Throw e.
Proof.
  unfold createService.
  destruct (services st !! n); [discriminate|].
  destruct (serviceClass R n) as [k|]; [|intros _; by left].
  destruct (NETWORK_CONFIGS R n) as [c|] eqn:Hc; [|intros _; right; by left].
  destruct (enable c) eqn:He; [|discriminate].
  destruct (initialize _) eqn:Hi; simpl; [discriminate|].
  intros [= ->]. right; right. exists c. eexists.
  split; [done|]. split; [done|]. split; [|exact Hi]. reflexivity.
Qed.

Lemma createService_calls_loop (initialize : InitOracle) (l : list string) (st : FactoryState) :
  map fst (createService_calls R initialize l st).1 = l /\
  (getAllServices_loop R initialize l st).1 = ok_values (createService_calls R initialize l st).1 /\
  (getAllServices_loop R initialize l st).2 = (createService_calls R initialize l st).2.
Proof.
  revert st. induction l as [|n l IH]; intros st; simpl; [done|].
  destruct (createService R initialize n st) as [r st1].
  destruct (IH st1) as (H1 & H2 & H3).
  destruct (createService_calls R initialize l st1) as [rs st2].
  destruct (getAllServices_loop R initialize l st1) as [rest st2']. simpl in *.
  subst. split; [done|]. unfold ok_values. simpl.
  destruct r; simpl; split; done.
Qed.

Lemma createService_calls_throw (initialize : InitOracle) (l : list string) (st : FactoryState)
    (n : string) (e : exn) :
  In (n, Throw e) (createService_calls R initialize l st).1 ->
  serviceClass R n = None \/ NETWORK_CONFIGS R n = None \/
  exists c s, NETWORK_CONFIGS R n = Some c /\ enable c = true /\
    inst_network s = n /\ initialize s = Throw e.
Proof.
  revert st. induction l as [|m l IH]; intros st; simpl; [done|].
  destruct (createService R initialize m st) as [r st1] eqn:E.
  specialize (IH st1).
  destruct (createService_calls R initialize l st1) as [rs st2]. simpl in *.
  intros [Hh|Ht]; [|by apply IH].
  injection Hh as -> ->. apply (createService_throw_cause initialize n st).
  by rewrite E.
Qed.

Lemma getAllServices_loop_in (initialize : InitOracle) (l : list string) (st : FactoryState)
    (n : string) (c : NetworkConfig) :
  reachable R st -> In n l ->
  serviceClass R n <> None ->
  NETWORK_CONFIGS R n = Some c ->
  (enable c = true -> forall s, inst_network s = n -> initialize s = Ok tt) ->
  In n (map inst_network (getAllServices_loop R initialize l st).1).
Proof.
  intros Hr0 Hin Hk Hc Hinit. revert st Hr0.
  induction l as [|m l IH]; intros st Hr; [done|]. simpl.
  destruct (createService R initialize m st) as [r st1] eqn:E.
  assert (Hr1 : reachable R st1).
  { replace st1 with (createService R initialize m st).2 by (rewrite E; done).
    by constructor. }
  destruct (getAllServices_loop R initialize l st1) as [rest st2] eqn:El.
  destruct Hin as [->|Hin].
  - destruct (createService_succeeds initialize n st c (reachable_cache_wf R st Hr) Hk Hc Hinit)
      as (s & Hs & Hn).
    rewrite E in Hs. simpl in Hs. subst r. simpl. by left.
  - specialize (IH Hin st1 Hr1). rewrite El in IH. simpl in IH.
    destruct r; simpl; [by right|exact IH].
Qed.

Lemma getAllServices_loop_in_inv (initialize : InitOracle) (l : list string) (st : FactoryState)
    (n : string) :
  reachable R st ->
  In n (map inst_network (getAllServices_loop R initialize l st).1) ->
  In n l /\ serviceClass R n <> None /\ exists c, NETWORK_CONFIGS R n = Some c.
Proof.
  revert st. induction l as [|m l IH]; intros st Hr; simpl; [done|].
  destruct (createService R initialize m st) as [r st1] eqn:E.
  assert (Hr1 : reachable R st1).
  { replace st1 with (createService R initialize m st).2 by (rewrite E; done).
    by constructor. }
  specialize (IH st1 Hr1).
  destruct (getAllServices_loop R initialize l st1) as [rest st2]. simpl in *.
  assert (Hhead : forall s, r = Ok s -> inst_network s = m /\
            serviceClass R m <> None /\ exists c, NETWORK_CONFIGS R m = Some c).
  { intros s ->. pose proof (reachable_cache_wf R st Hr) as Hwf.
    split; [apply (createService_ok_network R initialize m st); [done|by rewrite E]|].
    apply (createService_ok_supported initialize m st s); [done|by rewrite E]. }
  destruct r as [s|e]; simpl.
  - intros [Hn|Hn].
    + destruct (Hhead s eq_refl) as (Hm & Hk & Hc). subst. auto.
    + destruct (IH Hn) as (? & ? & ?). auto.
  - intros Hn. destruct (IH Hn) as (? & ? & ?). auto.
Qed.
End FactoryClaims.

(** C10: a string that is not a registered network type makes
    [createService] throw [Unsupported network type: ...] before any object
    is constructed or initialised; the cache, the object allocation and the
    [initialize] log are all unchanged. *)
Theorem createService_unsupported_no_effect (R : Registry) (initialize : InitOracle)
    (n : string) (st : FactoryState) :
  reachable R st -> serviceClass R n = None ->
  createService R initialize n st = (Throw (ErrorObj ("Unsupported network type: " ++ n)), st).
Proof.
  intros Hr Hk. unfold createService.
  destruct (services st !! n) as [s|] eqn:Hl.
  - destruct (reachable_cache_wf R st Hr n s Hl) as (_ & _ & Hk' & _). congruence.
  - by rewrite Hk.
Qed.

Lemma createService_unsupported_no_effect_witness :
  reachable source_registry initial_state /\
  source_serviceClass "bitcoin" = None /\
  createService source_registry init_ok "bitcoin" initial_state
  = (Throw (ErrorObj ("Unsupported network type: " ++ "bitcoin")), initial_state).
Proof.
  split; [constructor|]. split; [reflexivity|].
  apply (createService_unsupported_no_effect source_registry init_ok "bitcoin" initial_state).
  - constructor.
  - reflexivity.
Defined.


(** C6: (1) for a network configured with [enable = false], [createService]
    neither calls [initialize] nor changes the cache; (2) when the network
    is enabled and [initialize] throws, the error is surfaced, the cache is
    unchanged, and the next call for the same network constructs a new
    object and calls [initialize] again. *)
Theorem createService_no_cache_when_disabled_or_init_fails (R : Registry) :
  (forall (initialize : InitOracle) (n : string) (st : FactoryState) (c : NetworkConfig),
     NETWORK_CONFIGS R n = Some c -> enable c = false ->
     services (createService R initialize n st).2 = services st /\
     initialize_calls (createService R initialize n st).2 = initialize_calls st) /\
  (forall (initialize : InitOracle) (n : string) (st : FactoryState) (k : AdapterKind)
          (c : NetworkConfig) (e : exn),
     services st !! n = None -> serviceClass R n = Some k ->
     NETWORK_CONFIGS R n = Some c -> enable c = true ->
     initialize {| inst_id := next_obj st; inst_kind := k; inst_network := n;
                   inst_config := Some c |} = Throw e ->
     let '(r, st') := createService R initialize n st in
     r = Throw e /\ services st' = services st /\
     initialize_calls st' = n :: initialize_calls st /\
     forall initialize' : InitOracle,
       let '(r2, st'') := createService R initialize' n st' in
       initialize_calls st'' = n :: initialize_calls st' /\
       forall s, r2 = Ok s -> inst_id s = next_obj st' /\ inst_id s <> next_obj st).
Proof.
  split.
  - intros initialize n st c Hc He. unfold createService.
    destruct (services st !! n); [done|].
    destruct (serviceClass R n); [|done].
    rewrite Hc, He. done.
  - intros initialize n st k c e Hl Hk Hc He Hinit. unfold createService.
    rewrite Hl, Hk, Hc, He, Hinit. simpl.
    split; [done|]. split; [done|]. split; [done|].
    intros initialize'. rewrite ?Hl, ?Hk, ?Hc, ?He.
    destruct (initialize' _); simpl.
    + split; [done|]. intros s [= <-]. simpl. lia.
    + split; [done|]. intros s [=].
Qed.

Lemma createService_no_cache_when_disabled_or_init_fails_witness :
  (services (createService source_registry init_ok "ton" initial_state).2 = services initial_state /\
   initialize_calls (createService source_registry init_ok "ton" initial_state).2
   = initialize_calls initial_state) /\
  (let '(r, st') := createService source_registry init_down "trc20" initial_state in
   r = Throw (ErrorObj "connect ECONNREFUSED") /\ services st' = services initial_state /\
   initialize_calls st' = "trc20" :: initialize_calls initial_state /\
   forall initialize' : InitOracle,
     let '(r2, st'') := createService source_registry initialize' "trc20" st' in
     initialize_calls st'' = "trc20" :: initialize_calls st' /\
     forall s, r2 = Ok s -> inst_id s = next_obj st' /\ inst_id s <> next_obj initial_state).
Proof.
  split.
  - apply (proj1 (createService_no_cache_when_disabled_or_init_fails source_registry)
             init_ok "ton" initial_state
             (mkConfig "TON Mainnet" "https://toncenter.com/api/v2/jsonRPC" None false));
      reflexivity.
  - apply (proj2 (createService_no_cache_when_disabled_or_init_fails source_registry)
             init_down "trc20" initial_state TRC20Service
             (mkConfig "Tron Mainnet" "https://api.trongrid.io" None true)
             (ErrorObj "connect ECONNREFUSED")); reflexivity.
Defined.

(** C5, as stated, fails: [ton] is disabled in the source configuration,
    and two sequential calls return two different objects. *)
Lemma createService_disabled_not_identical :
  (createService source_registry init_ok "ton" initial_state).1
  <> (createService source_registry init_ok "ton"
        (createService source_registry init_ok "ton" initial_state).2).1.
Proof. vm_compute. intros H. inversion H. Qed.

(** C5 (amended): for an enabled network, once [createService n] has
    returned an object, the next call returns that same object and changes
    no state; for a disabled network that is not cached, every call
    constructs a new, uninitialised object, so two calls return different
    objects. *)
Theorem createService_identity_enabled_fresh_disabled (R : Registry) :
  (forall (initialize initialize' : InitOracle) (n : string) (st st' : FactoryState)
          (s : Inst) (c : NetworkConfig),
     NETWORK_CONFIGS R n = Some c -> enable c = true ->
     createService R initialize n st = (Ok s, st') ->
     createService R initialize' n st' = (Ok s, st')) /\
  (forall (initialize initialize' : InitOracle) (n : string) (st : FactoryState)
          (k : AdapterKind) (c : NetworkConfig),
     services st !! n = None -> serviceClass R n = Some k ->
     NETWORK_CONFIGS R n = Some c -> enable c = false ->
     let '(r1, st1) := createService R initialize n st in
     let '(r2, st2) := createService R initialize' n st1 in
     exists s1 s2, r1 = Ok s1 /\ r2 = Ok s2 /\ inst_id s1 <> inst_id s2 /\
       initialize_calls st2 = initialize_calls st /\ services st2 = services st).
Proof.
  split.
  - intros initialize initialize' n st st' s c Hc He. unfold createService at 1.
    destruct (services st !! n) as [s0|] eqn:Hl.
    + intros [= <- <-]. unfold createService. by rewrite Hl.
    + destruct (serviceClass R n) as [k|]; [|discriminate].
      rewrite Hc, He. destruct (initialize _); [|discriminate].
      intros [= <- <-]. unfold createService. simpl. by rewrite lookup_insert_eq.
  - intros initialize initialize' n st k c Hl Hk Hc He. unfold createService.
    rewrite Hl, Hk, Hc, He. simpl. rewrite Hl. simpl.
    do 2 eexists. split; [done|]. split; [done|]. simpl. split; [lia|]. done.
Qed.

Lemma createService_identity_enabled_fresh_disabled_witness :
  (let '(r1, st1) := createService source_registry init_ok "trc20" initial_state in
   createService source_registry init_ok "trc20" st1 = (r1, st1)) /\
  (let '(r1, st1) := createService source_registry init_ok "ton" initial_state in
   let '(r2, st2) := createService source_registry init_ok "ton" st1 in
   exists s1 s2, r1 = Ok s1 /\ r2 = Ok s2 /\ inst_id s1 <> inst_id s2 /\
     initialize_calls st2 = initialize_calls initial_state /\
     services st2 = services initial_state).
Proof.
  split.
  - apply (proj1 (createService_identity_enabled_fresh_disabled source_registry)
             init_ok init_ok "trc20" initial_state
             (createService source_registry init_ok "trc20" initial_state).2
             {| inst_id := 0; inst_kind := TRC20Service; inst_network := "trc20";
                inst_config := Some (mkConfig "Tron Mainnet" "https://api.trongrid.io" None true) |}
             (mkConfig "Tron Mainnet" "https://api.trongrid.io" None true));
      reflexivity.
  - apply (proj2 (createService_identity_enabled_fresh_disabled source_registry)
             init_ok init_ok "ton" initial_state TONService
             (mkConfig "TON Mainnet" "https://toncenter.com/api/v2/jsonRPC" None false));
      reflexivity.
Defined.

(** C4, as stated, fails: with four networks, [ripple] disabled and every
    network constructible, [getAllServices] returns four objects (the
    disabled network's uninitialised object included), not at most three. *)
Lemma getAllServices_four_one_disabled :
  enable (mkConfig "ripple" "https://rpc.example" None false) = false /\
  four_NETWORK_CONFIGS "ripple" = Some (mkConfig "ripple" "https://rpc.example" None false) /\
  List.length (getAllServices four_registry init_ok initial_state).1 = 4 /\
  List.length (getAvailableNetworks four_registry) = 4.
Proof. vm_compute. repeat split. Qed.

(** C4 (amended): [getAllServices] calls [createService] for each network
    id in [NetworkType] order and returns, in that order, exactly the objects
    of the calls that did not throw; a call throws only for an unsupported
    type, a missing configuration or a failing [initialize()] of an enabled
    network. So the returned networks are a sub-list of the network ids, a
    disabled network is not omitted (it yields an uninitialised object), nor
    is an enabled one whose initialisation succeeds; when every network is
    constructible one object per network id is returned.
    [getAvailableNetworks] returns all network ids. *)
Theorem getAllServices_omits_only_failures (R : Registry) (initialize : InitOracle)
    (st : FactoryState) :
  reachable R st ->
  sublist (map inst_network (getAllServices R initialize st).1) (NetworkTypeValues R) /\
  getAvailableNetworks R = NetworkTypeValues R /\
  ((forall n, In n (NetworkTypeValues R) -> serviceClass R n <> None /\
      exists c, NETWORK_CONFIGS R n = Some c /\
        (enable c = true -> forall s, initialize s = Ok tt)) ->
   map inst_network (getAllServices R initialize st).1 = NetworkTypeValues R) /\
  (* the result is exactly the objects of the successive calls that did not throw *)
  map fst (createService_calls R initialize (NetworkTypeValues R) st).1 = NetworkTypeValues R /\
  (getAllServices R initialize st).1
  = ok_values (createService_calls R initialize (NetworkTypeValues R) st).1 /\
  (getAllServices R initialize st).2 = (createService_calls R initialize (NetworkTypeValues R) st).2 /\
  (* a call throws only for an unsupported type, a missing configuration or
     a failing initialize() of an enabled network *)
  (forall n e, In (n, Throw e) (createService_calls R initialize (NetworkTypeValues R) st).1 ->
     serviceClass R n = None \/ NETWORK_CONFIGS R n = None \/
     exists c s, NETWORK_CONFIGS R n = Some c /\ enable c = true /\
       inst_network s = n /\ initialize s = Throw e) /\
  (* network by network: a supported, configured network is returned when it
     is disabled, or enabled with initialize() succeeding on its objects *)
  (forall n c, In n (NetworkTypeValues R) -> serviceClass R n <> None ->
     NETWORK_CONFIGS R n = Some c ->
     (enable c = true -> forall s, inst_network s = n -> initialize s = Ok tt) ->
     In n (map inst_network (getAllServices R initialize st).1)) /\
  (forall n, In n (map inst_network (getAllServices R initialize st).1) ->
     In n (NetworkTypeValues R) /\ serviceClass R n <> None /\
     exists c, NETWORK_CONFIGS R n = Some c).
Proof.
  intros Hr. split; [by apply getAllServices_loop_networks|].
  split; [done|]. split; [intros Hall; by apply getAllServices_loop_all|].
  destruct (createService_calls_loop R initialize (NetworkTypeValues R) st) as (H1 & H2 & H3).
  split; [exact H1|]. split; [exact H2|]. split; [exact H3|].
  split; [intros n e; apply createService_calls_throw|].
  split.
  - intros n c Hin Hk Hc Hinit. by apply (getAllServices_loop_in R initialize _ st n c).
  - intros n. by apply getAllServices_loop_in_inv.
Qed.

Lemma getAllServices_omits_only_failures_witness :
  reachable four_registry initial_state /\
  map inst_network (getAllServices four_registry init_ok initial_state).1
  = four_NetworkTypeValues /\
  In "ripple"%string (map inst_network (getAllServices four_registry init_down initial_state).1).
Proof.
  split; [constructor|]. split.
  - destruct (getAllServices_omits_only_failures four_registry init_ok initial_state
                (reachable_init four_registry)) as (_ & _ & Hall & _).
    apply Hall. intros n Hn. simpl in Hn.
    repeat (destruct Hn as [<- | Hn]; [split; [discriminate | eexists; split; [reflexivity | intros _ s; reflexivity]] |]).
    destruct Hn.
  - destruct (getAllServices_omits_only_failures four_registry init_down initial_state
                (reachable_init four_registry)) as (_ & _ & _ & _ & _ & _ & _ & Hin & _).
    apply (Hin "ripple"%string (mkConfig "ripple" "https://rpc.example" None false)).
    + simpl. tauto.
    + discriminate.
    + reflexivity.
    + discriminate.
Defined.

(** ** Aggregation *)

Section AggregationProofs.
Context {Num : Type} (ops : AdapterOps Num).

Lemma is_failed_negb (r : Settled Num) : is_failed r = negb (is_successful r).
Proof. by destruct r. Qed.

Lemma successful_cons (r : Settled Num) (bs : list (Settled Num)) :
  successful (r :: bs) =
  if is_successful r then settled_value r :: successful bs else successful bs.
Proof. unfold successful. simpl. by destruct (is_successful r). Qed.

Lemma failed_cons (r : Settled Num) (bs : list (Settled Num)) :
  failed (r :: bs) =
  if is_successful r then failed bs else settled_value r :: failed bs.
Proof.
  unfold failed. simpl. rewrite is_failed_negb. by destruct (is_successful r).
Qed.

Lemma partition_length (bs : list (Settled Num)) :
  List.length (successful bs) + List.length (failed bs) = List.length bs.
Proof.
  induction bs as [|r bs IH]; [done|].
  rewrite successful_cons, failed_cons. destruct (is_successful r); simpl; lia.
Qed.

Lemma partition_entries_for (n : string) (bs : list (Settled Num)) :
  List.length (entries_for n (successful bs)) + List.length (entries_for n (failed bs))
  = List.length (entries_for n (map settled_value bs)).
Proof.
  induction bs as [|r bs IH]; [done|].
  rewrite successful_cons, failed_cons. unfold entries_for in *.
  destruct (is_successful r); simpl;
    destruct (match entry_network (settled_value r) with
              | Some m => String.eqb m n | None => false end); simpl; lia.
Qed.

Lemma partition_members (bs : list (Settled Num)) (e : BalanceQueryResult Num) :
  In e (successful bs ++ failed bs) -> In e (map settled_value bs).
Proof.
  induction bs as [|r bs IH]; simpl; [done|].
  rewrite successful_cons, failed_cons.
  destruct (is_successful r); simpl; rewrite ?in_app_iff in *; simpl in *;
    rewrite ?in_app_iff in IH; intuition.
Qed.

Lemma queryService_network (address : string) (s : Inst) :
  entry_network (settled_value (queryService ops address s)) = Some (inst_network s).
Proof.
  unfold queryService. simpl.
  destruct (validateAddress ops s address) as [[|]|]; simpl; [|done|done].
  by destruct (getWalletInfo ops s address).
Qed.

Lemma balances_entries_for (address n : string) (svcs : list Inst) :
  List.length (entries_for n (map settled_value (balances ops address svcs)))
  = List.length (List.filter (fun s => String.eqb (inst_network s) n) svcs).
Proof.
  induction svcs as [|s svcs IH]; [done|]. unfold entries_for, balances in *.
  cbn [map List.filter]. rewrite queryService_network. destruct (String.eqb (inst_network s) n); simpl; lia.
Qed.

Lemma NoDup_filter_network_le (svcs : list Inst) (n : string) :
  NoDup (map inst_network svcs) ->
  List.length (List.filter (fun s => String.eqb (inst_network s) n) svcs) <= 1.
Proof.
  induction svcs as [|s svcs IH]; simpl; [lia|]. intros Hnd.
  apply NoDup_cons in Hnd as [Hnin Hnd].
  destruct (String.eqb_spec (inst_network s) n) as [<-|]; simpl; [|by apply IH].
  assert (List.filter (fun s' => String.eqb (inst_network s') (inst_network s)) svcs = [])
    as ->; [|simpl; lia].
  assert (Hz : forall l : list Inst,
             (forall x, In x l -> String.eqb (inst_network x) (inst_network s) = false) ->
             List.filter (fun s' => String.eqb (inst_network s') (inst_network s)) l = []).
  { intros l. induction l as [|x l IHl]; simpl; intros H; [done|].
    rewrite H by auto. auto. }
  apply Hz. intros s' Hs'.
  destruct (String.eqb_spec (inst_network s') (inst_network s)) as [Heq|]; [|done].
  exfalso. apply Hnin. rewrite <- Heq. apply list_elem_of_In. by apply in_map.
Qed.

Lemma NoDup_filter_network_one (svcs : list Inst) (s : Inst) :
  NoDup (map inst_network svcs) -> In s svcs ->
  List.length (List.filter (fun s' => String.eqb (inst_network s') (inst_network s)) svcs) = 1.
Proof.
  intros Hnd Hin. pose proof (NoDup_filter_network_le svcs (inst_network s) Hnd).
  assert (In s (List.filter (fun s' => String.eqb (inst_network s') (inst_network s)) svcs)).
  { apply filter_In. split; [done|]. apply String.eqb_refl. }
  destruct (List.filter _ svcs); simpl in *; [done|lia].
Qed.
End AggregationProofs.

Lemma getMultiNetworkBalance_report {Num} (add : Num -> Num -> Num) (zero : Num)
    (ops : AdapterOps Num) (R : Registry) (initialize : InitOracle) (address : string)
    (st : FactoryState) :
  (getMultiNetworkBalance add zero ops R initialize address st).1
  = aggregate add zero ops address (getAllServices R initialize st).1.
Proof.
  unfold getMultiNetworkBalance. by destruct (getAllServices R initialize st).
Qed.

Lemma balances_members {Num} (ops : AdapterOps Num) (address : string) (svcs : list Inst)
    (e : BalanceQueryResult Num) :
  In e (map settled_value (balances ops address svcs)) ->
  exists s, In s svcs /\ e = settled_value (queryService ops address s).
Proof.
  unfold balances. rewrite map_map. intros Hin. apply in_map_iff in Hin as (s & <- & Hs).
  eauto.
Qed.

(** C1: for the services returned by [getAllServices] (whose network ids
    are distinct), [successful] and [failed] together have exactly one
    entry per service: their lengths add up to the number of networks
    queried ([totalNetworksChecked]), every queried network has exactly one
    entry, every entry belongs to a queried network, and no network id
    occurs in both partitions. *)
Theorem multiNetworkBalance_partition {Num} (add : Num -> Num -> Num) (zero : Num)
    (ops : AdapterOps Num) (R : Registry) (initialize : InitOracle) (address : string)
    (st : FactoryState) :
  NoDup (NetworkTypeValues R) -> reachable R st ->
  let svcs := (getAllServices R initialize st).1 in
  let rep := (getMultiNetworkBalance add zero ops R initialize address st).1 in
  rep_successfulQueries rep + rep_failedQueries rep = List.length svcs /\
  rep_totalNetworksChecked rep = List.length svcs /\
  (forall s, In s svcs ->
     List.length (entries_for (inst_network s) (rep_networks rep ++ rep_failedNetworks rep)) = 1) /\
  (forall e, In e (rep_networks rep ++ rep_failedNetworks rep) ->
     exists s, In s svcs /\ entry_network e = Some (inst_network s)) /\
  (forall n, entries_for n (rep_networks rep) <> [] -> entries_for n (rep_failedNetworks rep) = []).
Proof.
  intros Hnd Hr svcs rep. subst rep.
  rewrite getMultiNetworkBalance_report. fold svcs.
  pose proof (getAllServices_NoDup R initialize st Hnd Hr) as Hnd'. fold svcs in Hnd'.
  unfold aggregate; simpl.
  set (bs := balances ops address svcs).
  assert (Hlen : List.length bs = List.length svcs) by (unfold bs, balances; apply length_map).
  split; [rewrite partition_length; exact Hlen|].
  split; [exact Hlen|].
  split; [|split].
  - intros s Hs. unfold entries_for. rewrite List.filter_app, length_app.
    fold (entries_for (inst_network s) (successful bs)).
    fold (entries_for (inst_network s) (failed bs)).
    rewrite partition_entries_for. unfold bs. rewrite balances_entries_for.
    by apply NoDup_filter_network_one.
  - intros e He. apply partition_members in He.
    apply balances_members in He as (s & Hs & ->). exists s. split; [done|].
    apply queryService_network.
  - intros n Hne.
    pose proof (partition_entries_for n bs) as Hc. unfold bs in Hc.
    rewrite balances_entries_for in Hc.
    pose proof (NoDup_filter_network_le svcs n Hnd') as Hle.
    fold bs in Hc.
    destruct (entries_for n (successful bs)); [done|].
    destruct (entries_for n (failed bs)); [done|]. simpl in Hc. lia.
Qed.

Lemma multiNetworkBalance_partition_witness :
  NoDup (NetworkTypeValues source_registry) /\ reachable source_registry initial_state /\
  rep_successfulQueries (getMultiNetworkBalance Z.add 0%Z demo_ops source_registry init_ok
                           "TXyz" initial_state).1
  + rep_failedQueries (getMultiNetworkBalance Z.add 0%Z demo_ops source_registry init_ok
                         "TXyz" initial_state).1
  = List.length (getAllServices source_registry init_ok initial_state).1.
Proof.
  assert (Hnd : NoDup (NetworkTypeValues source_registry)) by (apply (bool_decide_unpack (NoDup NetworkType_values)); vm_compute; exact I).
  split; [exact Hnd|]. split; [constructor|].
  exact (proj1 (multiNetworkBalance_partition Z.add 0%Z demo_ops source_registry init_ok
                  "TXyz" initial_state Hnd (reachable_init source_registry))).
Defined.

Lemma NoDup_map_inj_in {A B} (f : A -> B) (l : list A) (x y : A) :
  NoDup (map f l) -> In x l -> In y l -> f x = f y -> x = y.
Proof.
  induction l as [|a l IH]; simpl; [done|]. intros Hnd Hx Hy Hf.
  apply NoDup_cons in Hnd as [Hnin Hnd].
  destruct Hx as [<-|Hx], Hy as [<-|Hy]; try done.
  - exfalso. apply Hnin. rewrite Hf. apply list_elem_of_In. by apply in_map.
  - exfalso. apply Hnin. rewrite <- Hf. apply list_elem_of_In. by apply in_map.
  - by apply IH.
Qed.

Lemma settled_in_partition {Num} (bs : list (Settled Num)) (r : Settled Num) :
  In r bs ->
  if is_successful r then In (settled_value r) (successful bs)
  else In (settled_value r) (failed bs).
Proof.
  intros Hin. unfold successful, failed.
  destruct (is_successful r) eqn:E; apply in_map, filter_In; split; try done.
  by rewrite is_failed_negb, E.
Qed.

(** The entries of a queried network: exactly the one its service produced. *)
Lemma aggregate_entries_for_service {Num} (add : Num -> Num -> Num) (zero : Num)
    (ops : AdapterOps Num) (address : string) (svcs : list Inst) (s : Inst) :
  NoDup (map inst_network svcs) -> In s svcs ->
  let rep := aggregate add zero ops address svcs in
  entries_for (inst_network s) (rep_networks rep ++ rep_failedNetworks rep)
  = [settled_value (queryService ops address s)].
Proof.
  intros Hnd Hs rep. subst rep. unfold aggregate; simpl.
  set (bs := balances ops address svcs).
  assert (Hlen : List.length (entries_for (inst_network s) (successful bs ++ failed bs)) = 1).
  { unfold entries_for. rewrite List.filter_app, length_app.
    fold (entries_for (inst_network s) (successful bs)).
    fold (entries_for (inst_network s) (failed bs)).
    rewrite partition_entries_for. unfold bs. rewrite balances_entries_for.
    by apply NoDup_filter_network_one. }
  assert (Hin : forall e, In e (entries_for (inst_network s) (successful bs ++ failed bs)) ->
                     e = settled_value (queryService ops address s)).
  { intros e He. unfold entries_for in He. apply filter_In in He as [He Hn].
    apply partition_members in He. apply balances_members in He as (s' & Hs' & ->).
    rewrite queryService_network in Hn. apply String.eqb_eq in Hn.
    f_equal. f_equal. by apply (NoDup_map_inj_in inst_network svcs). }
  destruct (entries_for (inst_network s) (successful bs ++ failed bs)) as [|e [|]];
    simpl in Hlen; try lia.
  f_equal. apply Hin. by left.
Qed.

(** C2: in the multi-network aggregation, each service of [getAllServices]
    has exactly one entry, the one its own calls produce: an address its
    [validateAddress] rejects gives an [invalid_address] entry in [failed];
    a throwing [getWalletInfo] gives one [error] entry in [failed]; a
    successful [getWalletInfo] gives its [success] entry in [successful],
    whatever the other services do. *)
Theorem multiNetworkBalance_per_service_outcome {Num} (add : Num -> Num -> Num) (zero : Num)
    (ops : AdapterOps Num) (R : Registry) (initialize : InitOracle) (address : string)
    (st : FactoryState) :
  NoDup (NetworkTypeValues R) -> reachable R st ->
  let svcs := (getAllServices R initialize st).1 in
  let rep := (getMultiNetworkBalance add zero ops R initialize address st).1 in
  forall s, In s svcs ->
    (validateAddress ops s address = Ok false ->
       entries_for (inst_network s) (rep_networks rep ++ rep_failedNetworks rep)
       = [InvalidAddress (inst_network s) (networkName s)
            "Address format not supported on this network"] /\
       In (InvalidAddress (inst_network s) (networkName s)
             "Address format not supported on this network") (rep_failedNetworks rep)) /\
    (forall e, validateAddress ops s address = Ok true ->
       getWalletInfo ops s address = Throw e ->
       entries_for (inst_network s) (rep_networks rep ++ rep_failedNetworks rep)
       = [ErrorResult (inst_network s) (networkName s) (errorMessage e)] /\
       In (ErrorResult (inst_network s) (networkName s) (errorMessage e)) (rep_failedNetworks rep)) /\
    (forall w, validateAddress ops s address = Ok true ->
       getWalletInfo ops s address = Ok w ->
       In (Success (inst_network s) (networkName s) (wi_address w) (wi_balance w)
             (wi_nativeToken w)) (rep_networks rep)).
Proof.
  intros Hnd Hr svcs rep s Hs. subst rep.
  rewrite getMultiNetworkBalance_report. fold svcs.
  pose proof (getAllServices_NoDup R initialize st Hnd Hr) as Hnd'. fold svcs in Hnd'.
  pose proof (aggregate_entries_for_service add zero ops address svcs s Hnd' Hs) as Hent.
  assert (Hq : In (queryService ops address s) (balances ops address svcs))
    by (unfold balances; by apply in_map).
  pose proof (settled_in_partition _ _ Hq) as Hp.
  unfold aggregate in *; simpl in *.
  unfold queryService in Hent, Hp. simpl in Hent, Hp.
  split; [|split].
  - intros Hv. rewrite Hv in Hent, Hp. simpl in Hp. split; [exact Hent|exact Hp].
  - intros e Hv Hw. rewrite Hv, Hw in Hent. rewrite Hv, Hw in Hp. simpl in Hp.
    split; [exact Hent|exact Hp].
  - intros w Hv Hw. rewrite Hv, Hw in Hp. simpl in Hp. exact Hp.
Qed.

Lemma multiNetworkBalance_per_service_outcome_witness :
  let sol := {| inst_id := 2; inst_kind := SolanaService; inst_network := "solana";
                inst_config := Some (mkConfig "Solana Mainnet"
                                       "https://api.mainnet-beta.solana.com" None false) |} in
  NoDup (NetworkTypeValues source_registry) /\ reachable source_registry initial_state /\
  In sol (getAllServices source_registry init_ok initial_state).1 /\
  validateAddress demo_ops sol "TXyz" = Ok false /\
  In (InvalidAddress "solana" (Some "Solana Mainnet")
        "Address format not supported on this network")
     (rep_failedNetworks (getMultiNetworkBalance Z.add 0%Z demo_ops source_registry
                            init_ok "TXyz" initial_state).1).
Proof.
  intros sol.
  assert (Hnd : NoDup (NetworkTypeValues source_registry))
    by (apply (bool_decide_unpack (NoDup NetworkType_values)); vm_compute; exact I).
  assert (Hs : In sol (getAllServices source_registry init_ok initial_state).1)
    by (vm_compute; right; right; left; reflexivity).
  assert (Hv : validateAddress demo_ops sol "TXyz" = Ok false) by reflexivity.
  split; [exact Hnd|]. split; [constructor|]. split; [exact Hs|]. split; [exact Hv|].
  exact (proj2 (proj1 (multiNetworkBalance_per_service_outcome Z.add 0%Z demo_ops
           source_registry init_ok "TXyz" initial_state Hnd (reachable_init source_registry)
           sol Hs) Hv)).
Defined.

Lemma successful_app {Num} (l1 l2 : list (Settled Num)) :
  successful (l1 ++ l2) = successful l1 ++ successful l2.
Proof. unfold successful. by rewrite List.filter_app, map_app. Qed.

Lemma successful_all_failed {Num} (f : list (Settled Num)) :
  Forall (fun r => is_successful r = false) f -> successful f = [].
Proof.
  induction 1 as [|r f Hr _ IH]; [done|]. rewrite successful_cons, Hr. exact IH.
Qed.

Lemma successful_entry {Num} (r : Settled Num) :
  is_successful r = true -> is_success_entry (settled_value r) = true.
Proof. destruct r as [[]|]; simpl; done. Qed.

Lemma totalBalance_fold {Num} (add : Num -> Num -> Num) (l : list (BalanceQueryResult Num))
    (acc : Num) :
  fold_left (fun sum item => match item with Success _ _ _ b _ => add sum b | _ => sum end) l acc
  = fold_left add (success_balances l) acc.
Proof. revert acc. induction l as [|[] l IH]; intros acc; simpl; auto. Qed.

(** C3: [totalBalance] is the left-to-right sum (with the code's [+],
    starting from [0]) of the [balance] fields of the [successful] entries,
    which are all [success] entries; inserting, removing or changing
    results that are not successful leaves it unchanged. *)
Theorem totalBalance_successful_only {Num} (add : Num -> Num -> Num) (zero : Num)
    (ops : AdapterOps Num) (address : string) (svcs : list Inst) :
  let rep := aggregate add zero ops address svcs in
  Forall (fun e => is_success_entry e = true) (rep_networks rep) /\
  rep_totalBalance rep = fold_left add (success_balances (rep_networks rep)) zero /\
  (forall l1 f l2 : list (Settled Num),
     Forall (fun r => is_successful r = false) f ->
     totalBalance add zero (successful (l1 ++ f ++ l2))
     = totalBalance add zero (successful (l1 ++ l2))) /\
  (forall bs bs' : list (Settled Num),
     Forall2 (fun r r' => r = r' \/ (is_successful r = false /\ is_successful r' = false)) bs bs' ->
     totalBalance add zero (successful bs) = totalBalance add zero (successful bs')).
Proof.
  intros rep. subst rep. unfold aggregate; simpl.
  split; [|split; [|split]].
  - unfold successful. apply List.Forall_forall. intros e He.
    apply in_map_iff in He as (r & <- & Hr). apply filter_In in Hr as [_ Hr].
    by apply successful_entry.
  - apply totalBalance_fold.
  - intros l1 f l2 Hf. rewrite !successful_app, (successful_all_failed f Hf). done.
  - intros bs bs' H2. f_equal.
    induction H2 as [|r r' bs bs' Hrr _ IH]; [done|].
    rewrite !successful_cons. destruct Hrr as [<- | [H1 H2]].
    + destruct (is_successful r); by rewrite IH.
    + by rewrite H1, H2.
Qed.

Lemma totalBalance_successful_only_witness :
  Forall (fun r : Settled Z => is_successful r = false)
    [Fulfilled (ErrorResult "ton" None "timeout")] /\
  totalBalance Z.add 0%Z
    (successful (balances demo_ops "TXyz" demo_svcs
                 ++ [Fulfilled (ErrorResult "ton" None "timeout")] ++ []))
  = totalBalance Z.add 0%Z (successful (balances demo_ops "TXyz" demo_svcs ++ [])).
Proof.
  assert (Hf : Forall (fun r : Settled Z => is_successful r = false)
                 [Fulfilled (ErrorResult "ton" None "timeout")])
    by (repeat constructor).
  split; [exact Hf|].
  exact (proj1 (proj2 (proj2 (totalBalance_successful_only Z.add 0%Z demo_ops "TXyz" demo_svcs)))
           _ _ [] Hf).
Defined.

(** ** Adapter operations *)

(** C7, as stated, fails: TONService answers [pending], not [failed], for a
    hash that is not [ton_]-prefixed and not among its wallet's latest
    transactions. *)
Lemma getTransactionStatus_ton_unknown_pending :
  getTransactionStatus_ton "ton" (Ok []) "0x5f2c" = Ok (mkResponse "0x5f2c" Pending None) /\
  Pending <> Failed.
Proof. split; [reflexivity | discriminate]. Qed.

(** C7 (amended): how each adapter's read-only [getTransactionStatus]
    treats an identifier the chain does not know: Arbitrum/Avalanche (null
    transaction), TRC20 (no transaction or no [txID]) and Solana (null
    signature status) return [failed]; Cardano returns [failed] whenever
    its API call fails; TON returns [pending] for a hash that is not
    [ton_]-prefixed and not among its wallet's latest transactions (or when
    that lookup fails); Ripple turns a rejected lookup into a thrown error. *)
Theorem getTransactionStatus_unknown_id_by_adapter :
  (forall (Tx : Type) (networkType hash : string)
          (getTransaction : string -> outcome (option Tx))
          (getTransactionReceipt : string -> outcome (option EvmReceipt)),
     getTransaction hash = Ok None ->
     getTransactionStatus_evm networkType getTransaction getTransactionReceipt hash
     = Ok (mkResponse hash Failed None)) /\
  (forall (networkType hash : string) (getTransaction : string -> outcome (option TronTx))
          (getTransactionInfo : string -> outcome TronTxInfo),
     (getTransaction hash = Ok None \/ getTransaction hash = Ok (Some {| txID := None |})) ->
     getTransactionStatus_trc20 networkType getTransaction getTransactionInfo hash
     = Ok (mkResponse hash Failed None)) /\
  (forall (SolTx : Type) (networkType hash : string)
          (getSignatureStatus : string -> outcome (option SolSignatureStatus))
          (getTransaction : string -> outcome (option SolTx)),
     getSignatureStatus hash = Ok None ->
     getTransactionStatus_solana networkType getSignatureStatus getTransaction hash
     = Ok (mkResponse hash Failed None)) /\
  (forall (hash : string) (makeApiCall : string -> outcome CardanoTx) (e : exn),
     makeApiCall ("/txs/" ++ hash)%string = Throw e ->
     getTransactionStatus_cardano makeApiCall hash = Ok (mkResponse hash Failed None)) /\
  (forall (networkType hash : string) (getTransactions : outcome (list TonTx)),
     String.prefix "ton_" hash = false ->
     (getTransactions = Ok [] \/
      (exists txs, getTransactions = Ok txs /\ Forall (fun tx => ton_hash tx <> hash) txs) \/
      (exists e, getTransactions = Throw e)) ->
     getTransactionStatus_ton networkType getTransactions hash
     = Ok (mkResponse hash Pending None)) /\
  (forall (hash : string) (request_tx : string -> outcome XrpTx) (e : exn),
     request_tx hash = Throw e ->
     exists msg, getTransactionStatus_ripple "ripple" request_tx hash = Throw (ErrorObj msg)).
Proof.
  split; [|split; [|split; [|split; [|split]]]].
  - intros Tx networkType hash gt gr H. unfold getTransactionStatus_evm. by rewrite H.
  - intros networkType hash gt gi [H|H]; unfold getTransactionStatus_trc20; by rewrite H.
  - intros SolTx networkType hash gs gt H. unfold getTransactionStatus_solana. by rewrite H.
  - intros hash api e H. unfold getTransactionStatus_cardano. by rewrite H.
  - intros networkType hash gts Hp Hl. unfold getTransactionStatus_ton. rewrite Hp.
    destruct Hl as [-> | [(txs & -> & Hall) | (e & ->)]]; simpl; [done| |done].
    assert (List.find (fun tx => String.eqb (ton_hash tx) hash) txs = None) as ->; [|done].
    induction Hall as [|tx txs Htx _ IH]; simpl; [done|].
    destruct (String.eqb_spec (ton_hash tx) hash); [contradiction|exact IH].
  - intros hash rq e H. unfold getTransactionStatus_ripple. rewrite H. simpl.
    eexists. reflexivity.
Qed.

Lemma getTransactionStatus_unknown_id_by_adapter_witness :
  String.prefix "ton_" "0x5f2c" = false /\
  getTransactionStatus_ton "ton" (Ok []) "0x5f2c" = Ok (mkResponse "0x5f2c" Pending None).
Proof.
  assert (Hp : String.prefix "ton_" "0x5f2c" = false) by reflexivity.
  split; [exact Hp|].
  exact (proj1 (proj2 (proj2 (proj2 (proj2 getTransactionStatus_unknown_id_by_adapter))))
           "ton" "0x5f2c" (Ok []) Hp (or_introl eq_refl)).
Defined.

(** C8: every adapter's [validateAddress] returns a boolean and never
    throws, for every address string and whatever its address library does
    (returns or throws); it only reads its argument and the library. *)
Theorem validateAddress_never_throws :
  (forall (isAddress : string -> outcome bool) (address : string),
     exists b, validateAddress_evm isAddress address = Ok b) /\
  (forall (tronWeb : option (string -> outcome bool)) (address : string),
     exists b, validateAddress_trc20 tronWeb address = Ok b) /\
  (forall (PK : Type) (newPublicKey : string -> outcome PK) (isOnCurve : PK -> outcome bool)
          (address : string),
     exists b, validateAddress_solana newPublicKey isOnCurve address = Ok b) /\
  (forall (Addr : Type) (parse : string -> outcome Addr) (address : string),
     exists b, validateAddress_ton parse address = Ok b) /\
  (forall (Addr : Type) (from_bech32 : string -> outcome Addr) (address : string),
     exists b, validateAddress_cardano from_bech32 address = Ok b) /\
  (forall (isValidAddress : string -> outcome bool) (address : string),
     exists b, validateAddress_ripple isValidAddress address = Ok b) /\
  (forall (chainCheck : string -> bool) (address : string),
     exists b, validateAddress_polygon chainCheck address = Ok b).
Proof.
  split; [|split; [|split; [|split; [|split; [|split]]]]].
  - intros f a. unfold validateAddress_evm. destruct (f a); simpl; eauto.
  - intros [f|] a; unfold validateAddress_trc20; simpl; [destruct (f a)|]; simpl; eauto.
  - intros PK f g a. unfold validateAddress_solana.
    destruct (f a) as [pk|]; simpl; [destruct (g pk)|]; simpl; eauto.
  - intros Addr f a. unfold validateAddress_ton. destruct (f a); simpl; eauto.
  - intros Addr f a. unfold validateAddress_cardano. destruct (f a); simpl; eauto.
  - intros f a. unfold validateAddress_ripple. destruct (f a); simpl; eauto.
  - intros f a. unfold validateAddress_polygon. eauto.
Qed.

(** C9, as stated, fails: without a mnemonic but with [SOLANA_SEED] set,
    two SolanaService calls drawing different entropy return the same
    wallet (while without the variable they differ). *)
Lemma createWallet_solana_env_seed_repeats :
  createWallet_solana demo_solana_lib (Some "legal winner thank year wave") 0 no_options
  = createWallet_solana demo_solana_lib (Some "legal winner thank year wave") 1 no_options /\
  createWallet_solana demo_solana_lib None 0 no_options
  <> createWallet_solana demo_solana_lib None 1 no_options.
Proof. split; [reflexivity | vm_compute; intros H; inversion H]. Qed.

Ltac unfold_wallet_eq E :=
  unfold createWallet_solana, createWallet_ripple, createWallet_cardano,
    createWallet_ton, createWallet_evm; rewrite ?E; reflexivity.

(** C9 (amended): with a non-empty mnemonic, the Arbitrum, Avalanche,
    Solana, TON, Ripple and Cardano adapters' [createWallet] depends only on
    the options (neither fresh entropy nor environment seeds are read), so
    two such calls agree; without a mnemonic, Solana, TON and the EVM
    adapters use their environment seed when it is set (repeated calls then
    agree), and otherwise, like Cardano and Ripple, build the wallet from
    fresh entropy: Solana, TON and Cardano from a mnemonic generated from
    it; the EVM adapters from [Wallet.createRandom] (with an index, from
    the phrase it generated, derived at the wallet's path); Ripple from
    [Wallet.generate] without an index and, with one, from the mnemonic
    [generateMnemonic] drew, derived at the wallet's path. *)
Theorem createWallet_determinism_by_adapter :
  (* a mnemonic is supplied: the result depends only on the options *)
  (forall lib env1 env2 e1 e2 opts, truthy_str (opt_mnemonic opts) <> None ->
     createWallet_solana lib env1 e1 opts = createWallet_solana lib env2 e2 opts) /\
  (forall lib env1 env2 e1 e2 opts, truthy_str (opt_mnemonic opts) <> None ->
     createWallet_ton lib env1 e1 opts = createWallet_ton lib env2 e2 opts) /\
  (forall nt ct lbl lib env1 env2 e1 e2 opts, truthy_str (opt_mnemonic opts) <> None ->
     createWallet_evm nt ct lbl lib env1 e1 opts = createWallet_evm nt ct lbl lib env2 e2 opts) /\
  (forall lib e1 e2 opts, truthy_str (opt_mnemonic opts) <> None ->
     createWallet_ripple lib e1 opts = createWallet_ripple lib e2 opts) /\
  (forall lib e1 e2 opts, truthy_str (opt_mnemonic opts) <> None ->
     createWallet_cardano lib e1 opts = createWallet_cardano lib e2 opts) /\
  (* no mnemonic, environment seed set: no fresh entropy is used *)
  (forall lib env e1 e2 opts, truthy_str (opt_mnemonic opts) = None -> truthy_str env <> None ->
     createWallet_solana lib env e1 opts = createWallet_solana lib env e2 opts) /\
  (forall lib env e1 e2 opts, truthy_str (opt_mnemonic opts) = None -> truthy_str env <> None ->
     createWallet_ton lib env e1 opts = createWallet_ton lib env e2 opts) /\
  (forall nt ct lbl lib env e1 e2 opts,
     truthy_str (opt_mnemonic opts) = None -> truthy_str env <> None ->
     createWallet_evm nt ct lbl lib env e1 opts = createWallet_evm nt ct lbl lib env e2 opts) /\
  (* no mnemonic and no seed: the wallet comes from the call's entropy *)
  (forall lib env e opts r, truthy_str (opt_mnemonic opts) = None -> truthy_str env = None ->
     createWallet_solana lib env e opts = Ok r ->
     wc_mnemonic r = Some (sol_generateMnemonic lib e)) /\
  (forall lib env e opts r, truthy_str (opt_mnemonic opts) = None -> truthy_str env = None ->
     createWallet_ton lib env e opts = Ok r ->
     wc_mnemonic r = Some (join_space (ton_mnemonicNew lib e))) /\
  (forall nt ct lbl lib env e opts r,
     truthy_str (opt_mnemonic opts) = None -> truthy_str env = None ->
     createWallet_evm nt ct lbl lib env e opts = Ok r ->
     match opt_index opts with
     | None => wc_address r = kp_address (eth_createRandom lib e).1 /\
               wc_mnemonic r = (eth_createRandom lib e).2
     | Some _ => exists mn mobj w,
         truthy_str (eth_createRandom lib e).2 = Some mn /\
         eth_Mnemonic_fromPhrase lib mn = Ok mobj /\
         eth_HDNodeWallet_fromMnemonic lib mobj (wc_derivationPath r) = Ok w /\
         wc_address r = kp_address w /\ wc_mnemonic r = Some mn
     end) /\
  (forall lib e opts r, truthy_str (opt_mnemonic opts) = None ->
     createWallet_ripple lib e opts = Ok r ->
     match opt_index opts with
     | None => wc_address r = kp_address (xrp_Wallet_generate lib e)
     | Some _ => wc_mnemonic r = Some (xrp_generateMnemonic lib e) /\
         exists path seed w, wc_derivationPath r = Some path /\
           xrp_derivePath lib path (xrp_mnemonicToSeedSync lib (xrp_generateMnemonic lib e)) = Ok seed /\
           xrp_Wallet_fromSeed lib seed = Ok w /\ wc_address r = kp_address w
     end) /\
  (forall lib e opts r, truthy_str (opt_mnemonic opts) = None ->
     createWallet_cardano lib e opts = Ok r ->
     wc_mnemonic r = Some (ada_generateMnemonic256 lib e)).
Proof.
  repeat split.
  - intros lib env1 env2 e1 e2 opts H.
    destruct (truthy_str (opt_mnemonic opts)) eqn:E; [|congruence]. unfold_wallet_eq E.
  - intros lib env1 env2 e1 e2 opts H.
    destruct (truthy_str (opt_mnemonic opts)) eqn:E; [|congruence]. unfold_wallet_eq E.
  - intros nt ct lbl lib env1 env2 e1 e2 opts H.
    destruct (truthy_str (opt_mnemonic opts)) eqn:E; [|congruence]. unfold_wallet_eq E.
  - intros lib e1 e2 opts H.
    destruct (truthy_str (opt_mnemonic opts)) eqn:E; [|congruence]. unfold_wallet_eq E.
  - intros lib e1 e2 opts H.
    destruct (truthy_str (opt_mnemonic opts)) eqn:E; [|congruence]. unfold_wallet_eq E.
  - intros lib env e1 e2 opts E H.
    destruct (truthy_str env) eqn:E'; [|congruence].
    unfold createWallet_solana. rewrite E, E'. reflexivity.
  - intros lib env e1 e2 opts E H.
    destruct (truthy_str env) eqn:E'; [|congruence].
    unfold createWallet_ton. rewrite E, E'. reflexivity.
  - intros nt ct lbl lib env e1 e2 opts E H.
    destruct (truthy_str env) eqn:E'; [|congruence].
    unfold createWallet_evm. rewrite E, E'. reflexivity.
  - intros lib env e opts r E E'. unfold createWallet_solana. rewrite E, E'.
    destruct (opt_index opts); simpl;
      [destruct (sol_derivePath _ _ _); simpl; [destruct (sol_fromSeed _ _)|] |
       destruct (sol_fromSeed _ _)]; simpl; try discriminate; by intros [= <-].
  - intros lib env e opts r E E'. unfold createWallet_ton. rewrite E, E'.
    destruct (ton_mnemonicToWalletKey _ _); simpl; [destruct (ton_walletAddress _ _ _)|];
      simpl; try discriminate; by intros [= <-].
  - intros nt ct lbl lib env e opts r E E'. unfold createWallet_evm. rewrite E, E'.
    destruct (eth_createRandom lib e) as [w0 phrase]. cbn [fst snd].
    destruct (opt_index opts) as [i|].
    + destruct (truthy_str phrase) as [mn|]; simpl; [|discriminate].
      destruct (eth_Mnemonic_fromPhrase lib mn) as [mobj|] eqn:Em; simpl; [|discriminate].
      destruct (eth_HDNodeWallet_fromMnemonic lib mobj _) as [w|] eqn:Ew; simpl; [|discriminate].
      intros [= <-]. simpl. by exists mn, mobj, w.
    + simpl. by intros [= <-].
  - intros lib e opts r E. unfold createWallet_ripple. rewrite E.
    destruct (opt_index opts) as [i|]; simpl.
    + destruct (xrp_derivePath _ _ _) as [seed|] eqn:Ed; simpl; [|discriminate].
      destruct (xrp_Wallet_fromSeed lib seed) as [w|] eqn:Ew; simpl; [|discriminate].
      intros [= <-]. simpl. split; [reflexivity|]. eexists _, seed, w. by split.
    + by intros [= <-].
  - intros lib e opts r E. unfold createWallet_cardano. rewrite E.
    destruct (ada_createWalletFromMnemonic _ _); simpl; try discriminate; by intros [= <-].
Qed.

(** A mnemonic supplied, and an environment seed alone, at concrete
    SolanaService inputs. *)
Lemma createWallet_determinism_by_adapter_witness :
  truthy_str (Some "abandon ability") <> None /\
  createWallet_solana demo_solana_lib None 0
    {| opt_mnemonic := Some "abandon ability"; opt_derivationPath := None; opt_index := None |}
  = createWallet_solana demo_solana_lib (Some "legal winner") 7
    {| opt_mnemonic := Some "abandon ability"; opt_derivationPath := None; opt_index := None |} /\
  truthy_str (opt_mnemonic no_options) = None /\
  truthy_str (Some "legal winner") <> None /\
  createWallet_solana demo_solana_lib (Some "legal winner") 0 no_options
  = createWallet_solana demo_solana_lib (Some "legal winner") 7 no_options.
Proof.
  destruct createWallet_determinism_by_adapter as [Hm [_ [_ [_ [_ [He _]]]]]].
  split; [discriminate|]. split.
  { apply Hm. simpl. discriminate. }
  split; [reflexivity|]. split; [discriminate|].
  apply He; [reflexivity | discriminate].
Defined.

(* ------------------------------------------------------------------ *)
(** ** Further properties: TONService *)

(** ** Lemmas on digit strings *)

Lemma dec_fold_acc (l : list Ascii.ascii) (a : Z) :
  fold_left dec_step l a = (a * 10 ^ Z.of_nat (List.length l) + fold_left dec_step l 0)%Z.
Proof.
  revert a. induction l as [|c l IH]; intros a; simpl.
  - lia.
  - rewrite (IH (dec_step a c)), (IH (dec_step 0 c)). unfold dec_step.
    rewrite Nat2Z.inj_succ, Z.pow_succ_r by lia. lia.
Qed.

Lemma dec_fold_app (l1 l2 : list Ascii.ascii) :
  fold_left dec_step (l1 ++ l2) 0%Z =
  (fold_left dec_step l1 0%Z * 10 ^ Z.of_nat (List.length l2) + fold_left dec_step l2 0%Z)%Z.
Proof. rewrite fold_left_app. apply dec_fold_acc. Qed.

Lemma dec_fold_zeros (k : nat) (l : list Ascii.ascii) :
  fold_left dec_step (List.repeat "0"%char k ++ l) 0%Z = fold_left dec_step l 0%Z.
Proof.
  rewrite dec_fold_app. enough (fold_left dec_step (List.repeat "0"%char k) 0%Z = 0%Z) by lia.
  induction k as [|k IH]; [reflexivity|]. simpl. exact IH.
Qed.

Lemma dec_digit_facts (c : Ascii.ascii) :
  is_dec_digit c = true ->
  js_whitespace c = false /\ (digit_val c < 10)%nat /\
  Ascii.eqb c "-"%char = false /\ Ascii.eqb c "+"%char = false /\
  Ascii.eqb c "."%char = false /\ Ascii.eqb c "e"%char = false /\
  Ascii.eqb c "x"%char = false /\ Ascii.eqb c "X"%char = false /\
  Ascii.eqb c "o"%char = false /\ Ascii.eqb c "O"%char = false /\
  Ascii.eqb c "b"%char = false /\ Ascii.eqb c "B"%char = false.
Proof.
  unfold is_dec_digit. intros H. apply andb_true_iff in H as [H1 H2].
  apply Nat.leb_le in H1. apply Nat.leb_le in H2.
  assert (Hne : forall d, (Ascii.nat_of_ascii d < 48 \/ 57 < Ascii.nat_of_ascii d)%nat ->
                          Ascii.eqb c d = false).
  { intros d Hd. apply Bool.not_true_iff_false. intros E.
    apply Ascii.eqb_eq in E. subst d. lia. }
  repeat split; try (apply Hne; vm_compute; lia).
  - unfold js_whitespace. apply Bool.not_true_iff_false. intros E.
    repeat rewrite ?Bool.orb_true_iff, ?Bool.andb_true_iff, ?Nat.leb_le, ?Nat.eqb_eq in E. lia.
  - unfold digit_val.
    replace (Nat.leb 48 (Ascii.nat_of_ascii c) && Nat.leb (Ascii.nat_of_ascii c) 57) with true.
    + lia.
    + symmetry. apply andb_true_iff. split; apply Nat.leb_le; lia.
Qed.

Lemma trim_start_digits (l : list Ascii.ascii) :
  Forall (fun c => is_dec_digit c = true) l -> trim_start l = l.
Proof.
  destruct l as [|c l]; [reflexivity|]. intros Hf. inversion Hf; subst.
  simpl. destruct (dec_digit_facts c ltac:(assumption)) as [-> _]. reflexivity.
Qed.

Lemma js_trim_digits (l : list Ascii.ascii) :
  Forall (fun c => is_dec_digit c = true) l -> js_trim l = l.
Proof.
  intros Hf. unfold js_trim. rewrite (trim_start_digits l Hf).
  rewrite (trim_start_digits (rev l)) by (apply Forall_rev; exact Hf).
  apply rev_involutive.
Qed.

Lemma radix10_digits (l : list Ascii.ascii) :
  l <> [] -> Forall (fun c => is_dec_digit c = true) l ->
  radix_digits 10 l = Some (fold_left dec_step l 0%Z).
Proof.
  intros Hne Hf. unfold radix_digits. destruct l as [|c0 l0]; [congruence|].
  replace (forallb _ _) with true.
  - reflexivity.
  - symmetry. apply forallb_forall. intros c Hc.
    rewrite List.Forall_forall in Hf. apply Nat.ltb_lt. apply dec_digit_facts, Hf, Hc.
Qed.

Lemma BigInt_of_digits (l : list Ascii.ascii) :
  l <> [] -> Forall (fun c => is_dec_digit c = true) l ->
  BigInt_of_string l = Ok (fold_left dec_step l 0%Z).
Proof.
  intros Hne Hf. unfold BigInt_of_string. rewrite js_trim_digits by exact Hf.
  pose proof (radix10_digits l Hne Hf) as Hr.
  destruct l as [|c0 l0]; [congruence|]. inversion Hf as [|? ? Hc0 Hf0]; subst.
  destruct (dec_digit_facts c0 Hc0) as (_ & _ & Hm & Hp & _).
  destruct l0 as [|c1 rest].
  - rewrite Hm, Hp, Hr. reflexivity.
  - inversion Hf0 as [|? ? Hc1 _]; subst.
    destruct (dec_digit_facts c1 Hc1) as (_ & _ & _ & _ & _ & _ & Hx & HX & Ho & HO & Hb & HB).
    rewrite Hx, HX, Ho, HO, Hb, HB, !andb_false_r, Hm, Hp, Hr. reflexivity.
Qed.

Lemma digit_of_N (m : N) :
  (m < 10)%N ->
  is_dec_digit (Ascii.ascii_of_N (48 + m)) = true /\
  Z.of_nat (digit_val (Ascii.ascii_of_N (48 + m))) = Z.of_N m.
Proof.
  intros H.
  assert (m = 0 \/ m = 1 \/ m = 2 \/ m = 3 \/ m = 4 \/ m = 5 \/ m = 6 \/ m = 7 \/ m = 8 \/ m = 9)%N
    as Hm by lia.
  repeat destruct Hm as [-> | Hm]; [..| subst]; split; reflexivity.
Qed.

Lemma N_to_digits_spec (fuel : nat) (n : N) (acc : list Ascii.ascii) :
  (fuel > 0)%nat -> (Z.of_N n < 10 ^ Z.of_nat fuel)%Z ->
  exists ds, N_to_digits fuel n acc = ds ++ acc /\ ds <> [] /\
             Forall (fun c => is_dec_digit c = true) ds /\
             fold_left dec_step ds 0%Z = Z.of_N n.
Proof.
  revert n acc. induction fuel as [|f IH]; intros n acc Hf Hn; [lia|].
  simpl. set (d := Ascii.ascii_of_N (48 + n mod 10)).
  destruct (digit_of_N (n mod 10) ltac:(apply N.mod_lt; lia)) as [Hd Hdv].
  fold d in Hd, Hdv.
  destruct (N.ltb_spec n 10) as [Hlt | Hge].
  - exists [d]. split; [reflexivity|]. split; [congruence|]. split; [constructor; auto|].
    simpl. unfold dec_step. rewrite Hdv. rewrite N.mod_small by lia. lia.
  - assert (Hf' : (f > 0)%nat).
    { destruct f; [|lia]. simpl in Hn. lia. }
    assert (Hdiv : (Z.of_N (n / 10) < 10 ^ Z.of_nat f)%Z).
    { rewrite N2Z.inj_div. apply Z.div_lt_upper_bound; [lia|].
      rewrite Nat2Z.inj_succ, Z.pow_succ_r in Hn by lia. simpl. lia. }
    destruct (IH (n / 10)%N (d :: acc) Hf' Hdiv) as (ds & Heq & Hne & Hall & Hval).
    exists (ds ++ [d]). rewrite Heq, <- app_assoc. split; [reflexivity|].
    split; [destruct ds; simpl; congruence|].
    split; [apply Forall_app; split; auto|].
    rewrite dec_fold_app, Hval. simpl. unfold dec_step. rewrite Hdv.
    pose proof (N.div_mod n 10 ltac:(lia)) as Hdm.
    apply (f_equal Z.of_N) in Hdm. rewrite N2Z.inj_add, N2Z.inj_mul in Hdm. lia.
Qed.

Lemma size_nat_bound (p : positive) : (Z.pos p < 10 ^ Z.of_nat (Pos.size_nat p))%Z.
Proof.
  induction p as [p IH | p IH |]; simpl Pos.size_nat; rewrite ?Nat2Z.inj_succ, ?Z.pow_succ_r by lia;
    try (rewrite Pos2Z.inj_xI || rewrite Pos2Z.inj_xO); lia.
Qed.

Lemma bigint_toString_digits (n : Z) :
  (0 <= n)%Z ->
  bigint_toString n <> [] /\ Forall (fun c => is_dec_digit c = true) (bigint_toString n) /\
  fold_left dec_step (bigint_toString n) 0%Z = n.
Proof.
  intros Hn. destruct n as [|p|p]; [| |lia].
  - simpl. split; [discriminate|]. split; [constructor; [reflexivity|constructor]|reflexivity].
  - simpl. destruct (N_to_digits_spec (Pos.size_nat p) (Npos p) [])
      as (ds & Heq & Hne & Hall & Hval).
    + destruct p; simpl; lia.
    + apply size_nat_bound.
    + rewrite Heq, app_nil_r. auto.
Qed.

Lemma drop_zeros_split (r : list Ascii.ascii) :
  r = List.repeat "0"%char (List.length r - List.length (drop_zeros r)) ++ drop_zeros r.
Proof.
  induction r as [|c r IH]; [reflexivity|]. simpl.
  destruct (Ascii.eqb_spec c "0"%char) as [-> | Hc].
  - assert (Hle : (List.length (drop_zeros r) <= List.length r)%nat).
    { rewrite IH at 2. rewrite length_app. lia. }
    replace (S (List.length r) - List.length (drop_zeros r))%nat
      with (S (List.length r - List.length (drop_zeros r))) by lia.
    simpl. f_equal. exact IH.
  - simpl. rewrite Nat.sub_diag. reflexivity.
Qed.

Lemma strip_trailing_zeros_pad (l : list Ascii.ascii) :
  strip_trailing_zeros l ++ List.repeat "0"%char (List.length l - List.length (strip_trailing_zeros l)) = l.
Proof.
  unfold strip_trailing_zeros. rewrite length_rev.
  pose proof (drop_zeros_split (rev l)) as H. rewrite length_rev in H.
  apply (f_equal (@rev _)) in H. rewrite rev_involutive, rev_app_distr, rev_repeat in H.
  symmetry. exact H.
Qed.

Lemma split_char_no_sep (sep : Ascii.ascii) (l cur : list Ascii.ascii) :
  Forall (fun c => Ascii.eqb c sep = false) l ->
  split_char_aux sep l cur = [rev cur ++ l].
Proof.
  revert cur. induction l as [|c l IH]; intros cur Hf; simpl.
  - rewrite app_nil_r. reflexivity.
  - inversion Hf; subst. rewrite H1, IH by assumption. simpl. rewrite <- app_assoc. reflexivity.
Qed.

Lemma split_char_sep (sep : Ascii.ascii) (l r cur : list Ascii.ascii) :
  Forall (fun c => Ascii.eqb c sep = false) l ->
  split_char_aux sep (l ++ sep :: r) cur = (rev cur ++ l) :: split_char_aux sep r [].
Proof.
  revert cur. induction l as [|c l IH]; intros cur Hf; simpl.
  - rewrite Ascii.eqb_refl, app_nil_r. reflexivity.
  - inversion Hf; subst. rewrite H1, IH by assumption. simpl. rewrite <- app_assoc. reflexivity.
Qed.

Lemma digits_no_sep (c : Ascii.ascii) (l : list Ascii.ascii) :
  is_dec_digit c = false -> Forall (fun d => is_dec_digit d = true) l ->
  Forall (fun d => Ascii.eqb d c = false) l.
Proof.
  intros Hc Hf. eapply Forall_impl; [exact Hf|]. intros d Hd. simpl in Hd.
  apply Bool.not_true_iff_false. intros E. apply Ascii.eqb_eq in E. subst. congruence.
Qed.

(** X1: TONService.toNano undoes TONService.fromNano: for every non-negative
    nanoton amount n, toNano(fromNano(n)) returns n. *)
Theorem toNano_fromNano (n : Z) : (0 <= n)%Z -> toNano (fromNano n) = Ok n.
Proof.
  intros Hn. destruct (bigint_toString_digits n Hn) as (Hne & Hall & Hval).
  unfold fromNano, toNano.
  remember (bigint_toString n) as ds eqn:Eds.
  clear Eds.
  remember (padStart 10 "0"%char ds) as P eqn:EP.
  assert (HPall : Forall (fun c => is_dec_digit c = true) P).
  { rewrite EP; unfold padStart. apply Forall_app. split; [|exact Hall].
    apply List.Forall_forall. intros c Hc. apply repeat_spec in Hc. subst. reflexivity. }
  assert (HPval : fold_left dec_step P 0%Z = n).
  { rewrite EP; unfold padStart. rewrite dec_fold_zeros. exact Hval. }
  assert (HPlen : (10 <= List.length P)%nat).
  { rewrite EP; unfold padStart. rewrite length_app, repeat_length. lia. }
  remember (List.length P) as L eqn:EL.
  remember (firstn (L - 9) P) as w eqn:Ew. remember (skipn (L - 9) P) as f eqn:Ef.
  assert (HPwf : P = w ++ f) by (subst w f; symmetry; apply firstn_skipn).
  assert (Hwlen : List.length w = (L - 9)%nat) by (subst w; rewrite length_firstn; lia).
  assert (Hflen : List.length f = 9%nat) by (subst f; rewrite length_skipn; lia).
  rewrite HPwf in HPall. apply Forall_app in HPall as [Hwall Hfall].
  assert (Hwne : w <> []) by (intros E; rewrite E in Hwlen; simpl in Hwlen; lia).
  assert (Hmw : match w with [] => ["0"%char] | a :: l => a :: l end = w) by (destruct w; congruence).
  rewrite Hmw.
  pose proof (strip_trailing_zeros_pad f) as Hstrip.
  remember (strip_trailing_zeros f) as dcm eqn:Edcm0.
  assert (Hdall : Forall (fun c => is_dec_digit c = true) dcm).
  { rewrite <- Hstrip in Hfall. apply Forall_app in Hfall. tauto. }
  assert (Hdot : is_dec_digit "."%char = false) by reflexivity.
  assert (Hpad : firstn 9 (padEnd 9 "0"%char dcm) = f).
  { unfold padEnd. rewrite Hflen in Hstrip. rewrite Hstrip.
    rewrite <- Hflen. apply firstn_all. }
  destruct dcm as [|c0 d0] eqn:Edcm.
  - rewrite list_ascii_of_string_of_list_ascii. unfold split_char.
    rewrite split_char_no_sep by (apply digits_no_sep; assumption). cbn -[padEnd BigInt_of_string take].
    rewrite Hpad, <- HPwf, <- HPval. apply BigInt_of_digits; [|rewrite HPwf; apply Forall_app; auto].
    rewrite EP; unfold padStart. intros E. apply (f_equal (@List.length _)) in E.
    rewrite length_app, repeat_length in E. simpl in E. destruct ds; [congruence|simpl in E; lia].
  - rewrite list_ascii_of_string_of_list_ascii. unfold split_char.
    rewrite split_char_sep by (apply digits_no_sep; assumption).
    rewrite split_char_no_sep by (apply digits_no_sep; assumption). cbn -[padEnd BigInt_of_string take].
    rewrite Hpad, <- HPwf, <- HPval. apply BigInt_of_digits; [|rewrite HPwf; apply Forall_app; auto].
    rewrite HPwf. destruct w; [congruence|simpl; congruence].
Qed.

Lemma firstn_padEnd9 (d : list Ascii.ascii) :
  firstn 9 (padEnd 9 "0"%char d) =
  firstn 9 d ++ List.repeat "0"%char (9 - List.length (firstn 9 d)).
Proof.
  unfold padEnd. rewrite firstn_app, length_firstn.
  destruct (Nat.le_gt_cases 9 (List.length d)) as [Hle | Hgt].
  - replace (9 - List.length d)%nat with 0%nat by lia.
    replace (9 - Nat.min 9 (List.length d))%nat with 0%nat by lia. reflexivity.
  - rewrite firstn_all2 with (l := List.repeat _ _) by (rewrite repeat_length; lia).
    f_equal. f_equal. lia.
Qed.

(** X2: On a decimal string w.d (digits only), TONService.toNano returns w *
    10^9 plus the first nine digits of d scaled to nanotons; digits of d
    past the ninth are dropped, not rounded. *)
Theorem toNano_decimal (w d : list Ascii.ascii) :
  Forall (fun c => is_dec_digit c = true) w ->
  Forall (fun c => is_dec_digit c = true) d ->
  toNano (string_of_list_ascii (w ++ "."%char :: d)) =
  Ok (fold_left dec_step w 0%Z * 10 ^ 9 +
      fold_left dec_step (firstn 9 d) 0%Z * 10 ^ Z.of_nat (9 - List.length (firstn 9 d)))%Z.
Proof.
  intros Hw Hd. unfold toNano. rewrite list_ascii_of_string_of_list_ascii. unfold split_char.
  assert (Hdot : is_dec_digit "."%char = false) by reflexivity.
  rewrite split_char_sep by (apply digits_no_sep; assumption).
  rewrite split_char_no_sep by (apply digits_no_sep; assumption).
  cbn -[padEnd BigInt_of_string take]. rewrite firstn_padEnd9.
  set (fd := firstn 9 d). set (k := (9 - List.length fd)%nat).
  assert (Hfd : Forall (fun c => is_dec_digit c = true) fd) by (apply Forall_take; exact Hd).
  assert (Hlen : (List.length fd + k = 9)%nat).
  { subst k fd. rewrite length_firstn. lia. }
  rewrite BigInt_of_digits.
  - f_equal. rewrite dec_fold_app, dec_fold_app, length_app, repeat_length, Hlen.
    assert (Hz : fold_left dec_step (List.repeat "0"%char k) 0%Z = 0%Z).
    { pose proof (dec_fold_zeros k []) as H. rewrite app_nil_r in H. exact H. }
    rewrite Hz. lia.
  - intros E. apply (f_equal (@List.length _)) in E.
    rewrite !length_app, repeat_length in E. simpl in E. lia.
  - apply Forall_app. split; [exact Hw|]. apply Forall_app. split; [exact Hfd|].
    apply List.Forall_forall. intros c Hc. apply repeat_spec in Hc. subst. reflexivity.
Qed.

(** A number string in exponent notation is no [BigInt] literal. *)
Theorem toNano_exponent_throws (m r : list Ascii.ascii) :
  m <> [] -> Forall (fun c => is_dec_digit c = true) m ->
  Forall (fun c => Ascii.eqb c "."%char = false) r ->
  toNano (string_of_list_ascii (m ++ "e"%char :: r)) =
  Throw (ErrorObj ("Cannot convert " ++
                   string_of_list_ascii (m ++ "e"%char :: r ++ List.repeat "0"%char 9) ++
                   " to a BigInt")).
Proof.
  intros Hne Hm Hr. unfold toNano. rewrite list_ascii_of_string_of_list_ascii. unfold split_char.
  rewrite split_char_no_sep.
  2:{ apply Forall_app. split; [apply digits_no_sep; [reflexivity|exact Hm]|].
      constructor; [reflexivity|exact Hr]. }
  cbn -[padEnd BigInt_of_string take].
  rewrite <- app_assoc. simpl app.
  set (s := m ++ "e"%char :: r ++ List.repeat "0"%char 9).
  change (BigInt_of_string s =
          Throw (ErrorObj ("Cannot convert " ++ string_of_list_ascii s ++ " to a BigInt"))).
  assert (Htrim : js_trim s = s).
  { assert (H1 : trim_start s = s).
    { destruct m as [|c0 m0]; [congruence|]. inversion Hm as [|? ? Hc0 Hm0]; subst.
      unfold s. simpl. destruct (dec_digit_facts c0 Hc0) as [-> _]. reflexivity. }
    assert (H2 : s = (m ++ "e"%char :: r ++ List.repeat "0"%char 8) ++ ["0"%char]).
    { unfold s. rewrite <- app_assoc. simpl. rewrite <- app_assoc. reflexivity. }
    unfold js_trim. rewrite H1. clear H1. rewrite H2.
    set (X := m ++ "e"%char :: r ++ List.repeat "0"%char 8). rewrite rev_unit.
    replace (trim_start ("0"%char :: rev X)) with ("0"%char :: rev X) by reflexivity.
    rewrite <- rev_unit. apply rev_involutive. }
  assert (Hbad : forallb (fun c => Nat.ltb (digit_val c) 10) s = false).
  { unfold s. rewrite forallb_app. simpl. rewrite andb_false_r. reflexivity. }
  unfold BigInt_of_string. rewrite Htrim.
  destruct m as [|c0 m0]; [congruence|]. inversion Hm as [|? ? Hc0 Hm0]; subst.
  destruct (dec_digit_facts c0 Hc0) as (_ & _ & Hmi & Hpl & _).
  assert (Hsig : forall u, u = s -> radix_digits 10 u = None).
  { intros u ->. unfold radix_digits. destruct s as [|x xs]; [reflexivity|].
    rewrite Hbad. reflexivity. }
  assert (Hrd : radix_digits 10 s = None) by (apply Hsig; reflexivity).
  unfold s in Hrd |- *. destruct m0 as [|c1 m1].
  - cbn -[radix_digits] in Hrd |- *. rewrite Hmi, Hpl, andb_false_r.
    rewrite Hrd. reflexivity.
  - inversion Hm0 as [|? ? Hc1 _]; subst.
    destruct (dec_digit_facts c1 Hc1) as (_ & _ & _ & _ & _ & _ & Hx & HX & Ho & HO & Hb & HB).
    cbn -[radix_digits] in Hrd |- *. rewrite Hx, HX, Ho, HO, Hb, HB, !andb_false_r, Hmi, Hpl.
    rewrite Hrd. reflexivity.
Qed.


Lemma ton_prefix_app (s : string) : String.prefix "ton_" ("ton_" ++ s) = true.
Proof. destruct s; reflexivity. Qed.

Lemma sendTransaction_ton_ok {Addr Transfer : Type} (networkType : string)
    (env : @TonWalletEnv Addr Transfer) (to amountStr : string) (memo : option string)
    (r : TransactionResponse) :
  (sendTransaction_ton networkType env to amountStr memo).1 = Ok r ->
  exists seqno, r = mkResponse ("ton_" ++ Z_to_dec (ton_now env) ++ "_" ++ Z_to_dec seqno) Pending None.
Proof.
  unfold sendTransaction_ton, send_step.
  destruct (ton_wallet_ready env); simpl; [|discriminate].
  destruct (validateAddress_ton (ton_parse env) to) as [[|]|]; simpl; try discriminate.
  destruct (ton_getSeqno env) as [seqno|]; simpl; [|discriminate].
  repeat match goal with
         | |- context [match ?x with Ok _ => _ | Throw _ => _ end] =>
             destruct x; simpl; try discriminate
         | |- context [obind (ton_send ?e ?t) _] => destruct (ton_send e t); simpl; try discriminate
         end.
  intros H. injection H as <-. eauto.
Qed.

Lemma deployWallet_ton_ok {Addr Transfer : Type} (networkType : string)
    (env : @TonWalletEnv Addr Transfer) (r : TransactionResponse) :
  (deployWallet_ton networkType env).1 = Ok r ->
  r = mkResponse ("ton_deploy_" ++ Z_to_dec (ton_now env)) Pending None.
Proof.
  unfold deployWallet_ton, send_step.
  destruct (ton_wallet_ready env); simpl; [|discriminate].
  destruct (ton_getSeqno env) as [seqno|]; simpl; [|discriminate].
  destruct (Z.eqb seqno 0); simpl; [|discriminate].
  repeat match goal with
         | |- context [match ?x with Ok _ => _ | Throw _ => _ end] =>
             destruct x; simpl; try discriminate
         | |- context [obind (ton_send ?e ?t) _] => destruct (ton_send e t); simpl; try discriminate
         end.
  intros H. injection H as <-. reflexivity.
Qed.

(** X3: Every response that TONService.sendTransaction or deployWallet
    returns has status pending, and getTransactionStatus reports its hash as
    confirmed without any lookup, whatever the chain holds, because the hash
    starts with ton_. *)
Theorem ton_sent_hash_confirmed {Addr Transfer : Type} (networkType : string)
    (env : @TonWalletEnv Addr Transfer) (to amountStr : string) (memo : option string)
    (getTransactions : outcome (list TonTx)) (r : TransactionResponse) :
  (sendTransaction_ton networkType env to amountStr memo).1 = Ok r \/
  (deployWallet_ton networkType env).1 = Ok r ->
  tr_status r = Pending /\
  getTransactionStatus_ton networkType getTransactions (tr_hash r) =
  Ok (mkResponse (tr_hash r) Confirmed None).
Proof.
  intros [H | H].
  - apply sendTransaction_ton_ok in H as [seqno ->]. split; [reflexivity|].
    unfold getTransactionStatus_ton. cbn [tr_hash mkResponse]. rewrite ton_prefix_app. reflexivity.
  - apply deployWallet_ton_ok in H as ->. split; [reflexivity|].
    unfold getTransactionStatus_ton. cbn [tr_hash mkResponse].
    replace ("ton_deploy_" ++ Z_to_dec (ton_now env))%string
      with ("ton_" ++ ("deploy_" ++ Z_to_dec (ton_now env)))%string by reflexivity.
    rewrite ton_prefix_app. reflexivity.
Qed.

(** X4: TONService.sendTransaction sends at most one transfer, and only when
    the wallet is ready, the sequence number is read, the amount converts
    and the recipient parses; that transfer is built from the sequence
    number and a non-bounceable message of the converted amount whose body
    is the memo when it is non-empty. *)
Theorem sendTransaction_ton_sent {Addr Transfer : Type} (networkType : string)
    (env : @TonWalletEnv Addr Transfer) (to amountStr : string) (memo : option string)
    (t : Transfer) :
  In t (sendTransaction_ton networkType env to amountStr memo).2 ->
  (sendTransaction_ton networkType env to amountStr memo).2 = [t] /\
  exists seqno value a,
    ton_wallet_ready env = true /\ ton_getSeqno env = Ok seqno /\
    toNano amountStr = Ok value /\ ton_parse env to = Ok a /\
    ton_createTransfer env seqno
      {| msg_dest := a; msg_value := value; msg_body := truthy_str memo; msg_bounce := false |}
    = Ok t.
Proof.
  unfold sendTransaction_ton, send_step.
  destruct (ton_wallet_ready env) eqn:Er; simpl; [|tauto].
  unfold validateAddress_ton, try_catch, obind at 1.
  destruct (ton_parse env to) as [a|] eqn:Ep; simpl; [|tauto].
  destruct (ton_getSeqno env) as [seqno|] eqn:Es; simpl; [|tauto].
  destruct (toNano amountStr) as [value|] eqn:En; simpl; [|tauto].
  unfold createInternalMessage. rewrite Ep. simpl.
  destruct (ton_createTransfer env seqno _) as [t'|] eqn:Et; simpl; [|tauto].
  intros [<- | []]. split; [reflexivity|]. exists seqno, value, a. auto.
Qed.

(** X5: When the amount's string form is in exponent notation (digits, then
    e, with no dot), TONService.sendTransaction throws the BigInt conversion
    error wrapped as [networkType sendTransaction failed: ...] and sends
    nothing, even with a ready wallet, a valid recipient and a sequence
    number. *)
Theorem sendTransaction_ton_exponent_amount {Addr Transfer : Type} (networkType : string)
    (env : @TonWalletEnv Addr Transfer) (to : string) (a : Addr) (seqno : Z)
    (m r : list Ascii.ascii) (memo : option string) :
  ton_wallet_ready env = true -> ton_parse env to = Ok a -> ton_getSeqno env = Ok seqno ->
  m <> [] -> Forall (fun c => is_dec_digit c = true) m ->
  Forall (fun c => Ascii.eqb c "."%char = false) r ->
  sendTransaction_ton networkType env to (string_of_list_ascii (m ++ "e"%char :: r)) memo =
  (Throw (ErrorObj (networkType ++ " sendTransaction failed: Cannot convert " ++
                    string_of_list_ascii (m ++ "e"%char :: r ++ List.repeat "0"%char 9) ++
                    " to a BigInt")), []).
Proof.
  intros Hr Hp Hs Hne Hm Hdot.
  unfold sendTransaction_ton. rewrite Hr. simpl.
  unfold validateAddress_ton, try_catch, obind at 1. rewrite Hp, Hs.
  rewrite (toNano_exponent_throws m r Hne Hm Hdot). reflexivity.
Qed.

(** X6: TONService.deployWallet sends at most one transfer, and only when
    the wallet is ready and its sequence number is 0; the transfer has
    sequence number 0 and carries 0.01 TON (10000000 nanotons) to the
    wallet's own address, with no body and no bounce. *)
Theorem deployWallet_ton_sent {Addr Transfer : Type} (networkType : string)
    (env : @TonWalletEnv Addr Transfer) (t : Transfer) :
  In t (deployWallet_ton networkType env).2 ->
  (deployWallet_ton networkType env).2 = [t] /\
  ton_wallet_ready env = true /\ ton_getSeqno env = Ok 0%Z /\
  ton_createTransfer env 0%Z
    {| msg_dest := ton_wallet_address env; msg_value := 10000000%Z;
       msg_body := None; msg_bounce := false |} = Ok t.
Proof.
  unfold deployWallet_ton, send_step.
  destruct (ton_wallet_ready env) eqn:Er; simpl; [|tauto].
  destruct (ton_getSeqno env) as [seqno|] eqn:Es; simpl; [|tauto].
  destruct (Z.eqb_spec seqno 0) as [->|]; simpl; [|tauto].
  destruct (ton_createTransfer env 0%Z _) as [t'|] eqn:Et; simpl; [|tauto].
  intros [<- | []]. auto.
Qed.

(** X7: When the TON wallet's sequence number is not 0, deployWallet throws
    [networkType deployWallet failed: Wallet is already deployed] and sends
    nothing. *)
Theorem deployWallet_ton_already_deployed {Addr Transfer : Type} (networkType : string)
    (env : @TonWalletEnv Addr Transfer) (seqno : Z) :
  ton_wallet_ready env = true -> ton_getSeqno env = Ok seqno -> seqno <> 0%Z ->
  deployWallet_ton networkType env =
  (Throw (ErrorObj (networkType ++ " deployWallet failed: Wallet is already deployed")), []).
Proof.
  intros Hr Hs Hn. unfold deployWallet_ton. rewrite Hr, Hs. simpl.
  destruct (Z.eqb_spec seqno 0); [contradiction|reflexivity].
Qed.

(* ------------------------------------------------------------------ *)
(** ** Further properties: ArbitrumService.getTransactionHistory *)

Lemma block_range_cons (lo hi : Z) :
  (lo <= hi)%Z -> block_range lo hi = lo :: block_range (lo + 1) hi.
Proof.
  intros H. unfold block_range.
  replace (Z.to_nat (hi - lo + 1)) with (S (Z.to_nat (hi - (lo + 1) + 1))) by lia.
  simpl. f_equal; [lia|]. rewrite <- seq_shift, map_map. apply map_ext. intros j. lia.
Qed.

Lemma block_range_nil (lo hi : Z) : (hi < lo)%Z -> block_range lo hi = [].
Proof. intros H. unfold block_range. replace (Z.to_nat (hi - lo + 1)) with 0%nat by lia. reflexivity. Qed.

(** The blocks fetched by the loop are a prefix of the window, all of it
    when the loop completes. *)
Lemma history_loop_trace (env : ArbHistoryEnv) (address : string) (fuel : nat)
    (i s e : Z) (acc : list string) :
  (s + 101 - i <= Z.of_nat fuel)%Z -> (s <= i)%Z ->
  let '(r, trace) := history_loop env address fuel i s e acc in
  (exists rest, trace ++ rest = block_range i (Z.min e (s + 100))) /\
  (forall v, r = Ok v -> trace = block_range i (Z.min e (s + 100))).
Proof.
  revert i acc. induction fuel as [|f IH]; intros i acc Hf Hi; simpl.
  - rewrite block_range_nil by lia. split; [exists []; reflexivity|auto].
  - destruct (Z.leb_spec i e), (Z.leb_spec i (s + 100)); simpl.
    + rewrite (block_range_cons i) by lia.
      destruct (arb_getBlock env i) as [block|ex].
      * specialize (IH (i + 1)%Z (acc ++ match block with
                                          | Some txs => matching_hashes address txs
                                          | None => [] end) ltac:(lia) ltac:(lia)).
        destruct (history_loop _ _ _ _ _ _ _) as [r trace].
        destruct IH as [[rest Hrest] Hok]. split.
        -- exists rest. simpl. rewrite Hrest. reflexivity.
        -- intros v Hv. rewrite (Hok v Hv). reflexivity.
      * split; [|discriminate]. exists (block_range (i + 1) (Z.min e (s + 100))). reflexivity.
    + rewrite block_range_nil by lia. split; [exists []; reflexivity|auto].
    + rewrite block_range_nil by lia. split; [exists []; reflexivity|auto].
    + rewrite block_range_nil by lia. split; [exists []; reflexivity|auto].
Qed.

(** X8: For a valid address, ArbitrumService.getTransactionHistory fetches
    the blocks startBlock, startBlock+1, ... in order, where startBlock is
    fromBlock or max(0, current-1000) and the last block is min(toBlock or
    current, startBlock+100); the fetched blocks are always a prefix of that
    range, and all of it when the call succeeds. *)
Theorem getTransactionHistory_arbitrum_window (networkType : string) (env : ArbHistoryEnv)
    (address : string) (fromBlock toBlock : option Z) (currentBlock : Z) :
  arb_isAddress env address = Ok true -> arb_getBlockNumber env = Ok currentBlock ->
  let startBlock := num_or fromBlock (Z.max 0 (currentBlock - 1000)) in
  let endBlock := num_or toBlock currentBlock in
  let '(r, trace) := getTransactionHistory_arbitrum networkType env address fromBlock toBlock in
  (exists rest, trace ++ rest = block_range startBlock (Z.min endBlock (startBlock + 100))) /\
  (forall v, r = Ok v -> trace = block_range startBlock (Z.min endBlock (startBlock + 100))).
Proof.
  intros Ha Hb startBlock endBlock. unfold getTransactionHistory_arbitrum, validateAddress_evm.
  rewrite Ha, Hb. cbn -[history_loop].
  pose proof (history_loop_trace env address 101 startBlock startBlock endBlock []
                ltac:(lia) ltac:(lia)) as H.
  fold startBlock endBlock.
  destruct (history_loop _ _ _ _ _ _ _) as [r trace]. destruct H as [Hp Hok].
  split; [exact Hp|]. intros v Hv. destruct r; [apply (Hok _ eq_refl)|discriminate].
Qed.

(** X9: Without fromBlock and toBlock, and with a current block of at least
    1000, ArbitrumService.getTransactionHistory only fetches blocks between
    current-1000 and current-900, so no block after current-900 is ever
    searched. *)
Theorem getTransactionHistory_arbitrum_default_range (networkType : string) (env : ArbHistoryEnv)
    (address : string) (currentBlock : Z) :
  arb_isAddress env address = Ok true -> arb_getBlockNumber env = Ok currentBlock ->
  (1000 <= currentBlock)%Z ->
  forall b, In b (getTransactionHistory_arbitrum networkType env address None None).2 ->
  (currentBlock - 1000 <= b <= currentBlock - 900)%Z.
Proof.
  intros Ha Hb Hc b Hin. unfold getTransactionHistory_arbitrum, validateAddress_evm in Hin.
  rewrite Ha, Hb in Hin. cbn -[history_loop] in Hin.
  pose proof (history_loop_trace env address 101 (Z.max 0 (currentBlock - 1000))
                (Z.max 0 (currentBlock - 1000)) currentBlock [] ltac:(lia) ltac:(lia)) as H.
  destruct (history_loop _ _ _ _ _ _ _) as [r trace]. destruct H as [[rest Hp] _].
  cbn in Hin. assert (Hin' : In b (block_range (Z.max 0 (currentBlock - 1000))
                            (Z.min currentBlock (Z.max 0 (currentBlock - 1000) + 100)))).
  { rewrite <- Hp. apply in_or_app. left. exact Hin. }
  unfold block_range in Hin'. apply in_map_iff in Hin' as (j & <- & Hj).
  apply in_seq in Hj. lia.
Qed.

(* ------------------------------------------------------------------ *)
(** ** Further properties: TRC20Service.createWallet *)


(** X11: Without a mnemonic, the mnemonic that TRC20Service.createWallet
    returns (generated only when an index is given) plays no part in the
    wallet: replacing the mnemonic generator changes neither the address nor
    the keys nor the error, only the returned mnemonic. *)
Theorem createWallet_trc20_generated_mnemonic_unrelated (networkType : string) (lib : TronLib)
    (entropy : Entropy) (options : CreateWalletOptions) (g : Entropy -> string) :
  truthy_str (opt_mnemonic options) = None ->
  let lib' := {| tr_validateMnemonic := tr_validateMnemonic lib;
                 tr_mnemonicToSeedSync := tr_mnemonicToSeedSync lib;
                 tr_fromSeed := tr_fromSeed lib;
                 tr_derivePrivateKey := tr_derivePrivateKey lib;
                 tr_fromPrivateKey := tr_fromPrivateKey lib;
                 tr_createAccount := tr_createAccount lib;
                 tr_generateMnemonic := g |} in
  match createWallet_trc20 networkType lib entropy options,
        createWallet_trc20 networkType lib' entropy options with
  | Ok w, Ok w' =>
      wc_address w = wc_address w' /\ wc_privateKey w = wc_privateKey w' /\
      wc_publicKey w = wc_publicKey w' /\
      wc_mnemonic w' = match opt_index options with Some _ => Some (g entropy) | None => None end
  | Throw e, Throw e' => e = e'
  | _, _ => False
  end.
Proof.
  intros Hm lib'. unfold createWallet_trc20. rewrite Hm. simpl.
  destruct (tr_createAccount lib entropy) as [acc|e]; simpl; [|reflexivity].
  destruct (opt_index options); simpl; auto.
Qed.

(* ------------------------------------------------------------------ *)
(** ** Further properties: RippleService *)

Lemma ripple_payment_cases account xrpToDrops amount to memo p :
  ripple_payment account xrpToDrops amount to memo = Ok p ->
  xrpToDrops amount = Ok (Amount p) /\ Account p = account /\ Destination p = to /\
  TransactionType p = "Payment"%string /\
  match truthy_str memo with
  | None => DestinationTag p = None /\ Memos p = None
  | Some m =>
      match js_parseInt m with
      | Some v => DestinationTag p = Some v /\ Memos p = None
      | None => DestinationTag p = None /\ Memos p = Some (memoData m)
      end
  end.
Proof.
  unfold ripple_payment. destruct (xrpToDrops amount) as [drops|e]; simpl; [|discriminate].
  destruct (truthy_str memo) as [m|]; [destruct (js_parseInt m)|];
    intros H; injection H as <-; simpl; repeat split; auto.
Qed.

(** X12: The payment that RippleService.sendTransaction builds never carries
    both a DestinationTag and Memos: with no memo it has neither, and a non-
    empty memo becomes either a DestinationTag (when parseInt reads a
    number) or Memos with the memo's hex data (when it does not). *)
Theorem ripple_payment_memo_exclusive account xrpToDrops amount to memo p :
  ripple_payment account xrpToDrops amount to memo = Ok p ->
  (truthy_str memo = None -> DestinationTag p = None /\ Memos p = None) /\
  (forall m, truthy_str memo = Some m ->
     (DestinationTag p <> None /\ Memos p = None) \/
     (DestinationTag p = None /\ Memos p = Some (memoData m))).
Proof.
  intros H. apply ripple_payment_cases in H as (_ & _ & _ & _ & H).
  split.
  - intros Hn. rewrite Hn in H. exact H.
  - intros m Hm. rewrite Hm in H. destruct (js_parseInt m); destruct H as [-> ->].
    + left. split; [discriminate | reflexivity].
    + right. auto.
Qed.

Lemma not_dec_digit_val (c : Ascii.ascii) :
  is_dec_digit c = false -> (10 <= digit_val c)%nat.
Proof.
  unfold is_dec_digit, digit_val. intros H. rewrite H.
  repeat match goal with |- context [Nat.leb ?a ?b] => destruct (Nat.leb_spec a b) end;
    simpl; lia.
Qed.

Lemma take_radix_digits_dec (d rest : list Ascii.ascii) :
  Forall (fun c => is_dec_digit c = true) d ->
  (forall c r, rest = c :: r -> is_dec_digit c = false) ->
  take_radix_digits 10 (d ++ rest) = d.
Proof.
  intros Hd Hr. induction Hd as [|c d Hc Hd IH].
  - destruct rest as [|c r]; [reflexivity|]. simpl.
    pose proof (not_dec_digit_val c (Hr c r eq_refl)).
    destruct (Nat.ltb_spec (digit_val c) 10); [lia|reflexivity].
  - simpl. destruct (dec_digit_facts c Hc) as (_ & Hlt & _).
    destruct (Nat.ltb_spec (digit_val c) 10); [|lia]. rewrite IH. reflexivity.
Qed.

Lemma int_to_Number_small (v : Z) :
  (0 <= v < 2 ^ 53)%Z -> int_to_Number v = NumFinite v.
Proof.
  intros Hv. unfold int_to_Number, round_magnitude.
  rewrite Z.abs_eq by lia.
  destruct (Z.ltb_spec v (2 ^ 53)); [|lia].
  destruct (Z.leb_spec (2 ^ 1024) v).
  - exfalso. assert (2 ^ 53 <= 2 ^ 1024)%Z by (apply Z.pow_le_mono_r; lia). lia.
  - f_equal. destruct (Z.eq_dec v 0) as [->|]; [reflexivity|].
    rewrite Z.sgn_pos by lia. lia.
Qed.

Lemma js_parseInt_digits (d rest : list Ascii.ascii) :
  d <> [] -> Forall (fun c => is_dec_digit c = true) d ->
  (forall c r, rest = c :: r -> is_dec_digit c = false) ->
  (forall c r, d = ["0"%char] -> rest = c :: r -> c <> "x"%char /\ c <> "X"%char) ->
  js_parseInt (string_of_list_ascii (d ++ rest)) = Some (int_to_Number (fold_left dec_step d 0%Z)).
Proof.
  intros Hne Hd Hr Hx0. unfold js_parseInt. rewrite list_ascii_of_string_of_list_ascii.
  destruct d as [|c0 d]; [congruence|]. clear Hne.
  pose proof Hd as Hd0. inversion Hd0 as [|? ? Hc0 Hdt]; subst.
  destruct (dec_digit_facts c0 Hc0) as (Hws & _ & Hm & Hp & _ & _ & Hx & HX & _).
  unfold js_parseInt_mv. simpl trim_start. rewrite Hws. cbn zeta.
  rewrite Hm, Hp. simpl orb.
  assert (HR : match c0 :: d ++ rest with
               | c0 :: c1 :: r =>
                   if Ascii.eqb c0 "0"%char && (Ascii.eqb c1 "x"%char || Ascii.eqb c1 "X"%char)
                   then (16%nat, r) else (10%nat, c0 :: d ++ rest)
               | _ => (10%nat, c0 :: d ++ rest)
               end = (10%nat, c0 :: d ++ rest)).
  { destruct d as [|c1 d].
    - destruct rest as [|c1 r]; [reflexivity|].
      simpl. destruct (Ascii.eqb_spec c0 "0"%char) as [->|]; [|reflexivity]. simpl.
      destruct (Hx0 c1 r eq_refl eq_refl) as [Hx' HX'].
      destruct (Ascii.eqb_spec c1 "x"%char); [congruence|].
      destruct (Ascii.eqb_spec c1 "X"%char); [congruence|]. reflexivity.
    - inversion Hdt as [|? ? Hc1 _]; subst.
      destruct (dec_digit_facts c1 Hc1) as (_ & _ & _ & _ & _ & _ & Hx1 & HX1 & _).
      simpl. rewrite Hx1, HX1. destruct (Ascii.eqb c0 "0"%char); reflexivity. }
  cbn iota beta. rewrite HR. change (c0 :: d ++ rest) with ((c0 :: d) ++ rest).
  rewrite (take_radix_digits_dec (c0 :: d) rest Hd Hr). simpl option_map.
  f_equal. f_equal. rewrite Z.mul_1_l. reflexivity.
Qed.

Lemma dec_fold_nonneg (l : list Ascii.ascii) (a : Z) :
  (0 <= a)%Z -> (0 <= fold_left dec_step l a)%Z.
Proof.
  revert a. induction l as [|c l IH]; intros a Ha; simpl; [exact Ha|].
  apply IH. unfold dec_step. lia.
Qed.

Lemma hex_char_ok (k : nat) :
  (k < 16)%nat ->
  digit_val (ascii_toUpper (hex_digit_lower k)) = k /\
  is_upper_hex_char (ascii_toUpper (hex_digit_lower k)) = true.
Proof.
  intros Hk. do 16 (destruct k as [|k]; [split; reflexivity|]). lia.
Qed.

Lemma hex_decode_upper (bs : list nat) :
  Forall (fun b => b < 256)%nat bs ->
  hex_decode (toUpperCase_ascii (hex_of_bytes bs)) = bs.
Proof.
  induction 1 as [|b bs Hb Hbs IH]; [reflexivity|].
  unfold toUpperCase_ascii, hex_of_bytes in *. cbn [flat_map app map hex_decode].
  destruct (hex_char_ok (b / 16)) as [H1 _]; [apply Nat.Div0.div_lt_upper_bound; lia|].
  destruct (hex_char_ok (b mod 16)) as [H2 _]; [apply Nat.mod_upper_bound; lia|].
  rewrite H1, H2, IH. f_equal. pose proof (Nat.div_mod_eq b 16). lia.
Qed.

Lemma upper_hex_chars (bs : list nat) :
  Forall (fun b => b < 256)%nat bs ->
  Forall (fun c => is_upper_hex_char c = true) (toUpperCase_ascii (hex_of_bytes bs)).
Proof.
  induction 1 as [|b bs Hb Hbs IH]; [constructor|].
  unfold toUpperCase_ascii, hex_of_bytes in *. cbn [flat_map app map].
  constructor; [apply hex_char_ok, Nat.Div0.div_lt_upper_bound; lia|].
  constructor; [|exact IH].
  apply hex_char_ok, Nat.mod_upper_bound; lia.
Qed.

(** X13: RippleService.sendTransaction's MemoData is the hex text of the
    memo's UTF-8 bytes, upper-cased: for any byte sequence (values 0-255,
    whatever Buffer.from(memo, 'utf8') produced), that text has two
    characters per byte, contains only the characters 0-9 and A-F, and
    reads back, two hex digits per byte, to exactly those bytes. *)
Theorem memoData_upper_hex_of_bytes (bs : list nat) :
  Forall (fun b => b < 256)%nat bs ->
  List.length (toUpperCase_ascii (hex_of_bytes bs)) = (2 * List.length bs)%nat /\
  Forall (fun c => is_upper_hex_char c = true) (toUpperCase_ascii (hex_of_bytes bs)) /\
  hex_decode (toUpperCase_ascii (hex_of_bytes bs)) = bs.
Proof.
  intros Hbs. split; [|split; [by apply upper_hex_chars | by apply hex_decode_upper]].
  clear Hbs. induction bs as [|b bs IH]; [reflexivity|].
  unfold toUpperCase_ascii, hex_of_bytes in *. cbn [flat_map app map List.length].
  rewrite IH. lia.
Qed.

(** X14: A memo that starts with decimal digits (and is not a 0x prefix) is
    sent by RippleService.sendTransaction as DestinationTag parseInt(memo),
    the value of its leading digits, with no Memos; the rest of the memo is
    lost. *)
Theorem ripple_payment_numeric_memo account xrpToDrops amount to (d rest : list Ascii.ascii) p :
  d <> [] -> Forall (fun c => is_dec_digit c = true) d ->
  (forall c r, rest = c :: r -> is_dec_digit c = false) ->
  (forall c r, d = ["0"%char] -> rest = c :: r -> c <> "x"%char /\ c <> "X"%char) ->
  ripple_payment account xrpToDrops amount to (Some (string_of_list_ascii (d ++ rest))) = Ok p ->
  DestinationTag p = Some (int_to_Number (fold_left dec_step d 0%Z)) /\ Memos p = None /\
  ((fold_left dec_step d 0 < 2 ^ 53)%Z -> DestinationTag p = Some (NumFinite (fold_left dec_step d 0%Z))).
Proof.
  intros Hne Hd Hr Hx0 Hp. apply ripple_payment_cases in Hp as (_ & _ & _ & _ & H).
  assert (Htr : truthy_str (Some (string_of_list_ascii (d ++ rest))) =
                Some (string_of_list_ascii (d ++ rest))).
  { destruct d; [congruence|reflexivity]. }
  rewrite Htr, (js_parseInt_digits d rest Hne Hd Hr Hx0) in H. destruct H as [H1 H2].
  split; [exact H1|split; [exact H2|]].
  intros Hs. rewrite H1, int_to_Number_small; [reflexivity|split; [|exact Hs]].
  apply dec_fold_nonneg. lia.
Qed.

(** X15: RippleService.sendTransaction autofills at most one payment, and
    only when a wallet is loaded, the recipient and any non-empty sender are
    valid addresses; that payment is the one built from the wallet's
    address, the converted amount, the recipient and the memo. *)
Theorem sendTransaction_ripple_submitted {Prepared : Type} (networkType : string)
    (env : @RippleSendEnv Prepared) to from amount memo p :
  In p (sendTransaction_ripple networkType env to from amount memo).2 ->
  (sendTransaction_ripple networkType env to from amount memo).2 = [p] /\
  exists address,
    xs_wallet env = Some address /\
    validateAddress_ripple (xs_isValidAddress env) to = Ok true /\
    (forall f, truthy_str from = Some f -> validateAddress_ripple (xs_isValidAddress env) f = Ok true) /\
    ripple_payment address (xs_xrpToDrops env) amount to memo = Ok p.
Proof.
  unfold sendTransaction_ripple. cbn [snd].
  destruct (xs_wallet env) as [address|]; [|intros []].
  destruct (validateAddress_ripple (xs_isValidAddress env) to) as [[]|] eqn:Hto; try intros [].
  destruct (truthy_str from) as [f|] eqn:Hf.
  - destruct (validateAddress_ripple (xs_isValidAddress env) f) as [[]|] eqn:Hvf; try intros [].
    destruct (ripple_payment address (xs_xrpToDrops env) amount to memo) as [p'|] eqn:Hp; [|intros []].
    intros [<-|[]]. split; [reflexivity|]. exists address. repeat split; auto.
    intros f' Hf'. injection Hf' as <-. exact Hvf.
  - destruct (ripple_payment address (xs_xrpToDrops env) amount to memo) as [p'|] eqn:Hp; [|intros []].
    intros [<-|[]]. split; [reflexivity|]. exists address. repeat split; auto. discriminate.
Qed.

(* ------------------------------------------------------------------ *)
(** ** Further properties: estimateGas *)

(** X16: The estimateGas of TON, Solana, Ripple and Cardano never throws;
    for an invalid recipient TON returns 0.005, Solana 0.000005 and Ripple
    0.00001, their fallback fees. *)
Theorem estimateGas_fallbacks {Num Addr PK : Type} (num_lit : string -> Num) (num_of_Z : Z -> Num)
    (num_add num_mul num_div : Num -> Num -> Num)
    (parse : string -> outcome Addr) (senv : @SolanaEstEnv PK) (renv : @RippleEstEnv Num)
    (request : TxRequest) :
  (exists n, estimateGas_ton num_lit num_of_Z num_add num_mul parse request = Ok n) /\
  (exists n, estimateGas_solana num_lit num_of_Z num_div senv request = Ok n) /\
  (exists n, estimateGas_ripple num_lit renv request = Ok n) /\
  (exists n, estimateGas_cardano num_lit num_of_Z num_add num_mul num_div request = Ok n) /\
  (validateAddress_ton parse (req_to request) = Ok false ->
   estimateGas_ton num_lit num_of_Z num_add num_mul parse request = Ok (num_lit "0.005"%string)) /\
  (validateAddress_solana (se_newPublicKey senv) (se_isOnCurve senv) (req_to request) = Ok false ->
   estimateGas_solana num_lit num_of_Z num_div senv request = Ok (num_lit "0.000005"%string)) /\
  (validateAddress_ripple (re_isValidAddress renv) (req_to request) = Ok false ->
   estimateGas_ripple num_lit renv request = Ok (num_lit "0.00001"%string)).
Proof.
  unfold estimateGas_ton, estimateGas_solana, estimateGas_ripple, estimateGas_cardano.
  repeat split;
    try (intros H; rewrite H; reflexivity);
    lazymatch goal with
    | |- exists n, try_catch ?b ?h = Ok n =>
        destruct b as [a|e]; simpl; eauto
    end.
Qed.

(** X17: The estimateGas of the EVM adapters (Arbitrum, Avalanche) and of
    TRC20 throw [networkType estimateGas failed: Invalid recipient address]
    for an invalid recipient, and the EVM ones then send no request to the
    provider. *)
Theorem estimateGas_evm_trc20_reject_invalid_recipient {Num : Type} (num_of_Z : Z -> Num)
    (networkType : string) (eenv : EvmEstEnv) (tronWeb : option (@TronEstLib Num))
    (wallet : option string) (request : TxRequest) :
  (validateAddress_evm (ee_isAddress eenv) (req_to request) = Ok false ->
   estimateGas_evm num_of_Z networkType eenv request =
   (Throw (ErrorObj (networkType ++ " estimateGas failed: Invalid recipient address")), [])) /\
  (validateAddress_trc20 (option_map te_isAddress tronWeb) (req_to request) = Ok false ->
   estimateGas_trc20 num_of_Z networkType tronWeb wallet request =
   Throw (ErrorObj (networkType ++ " estimateGas failed: Invalid recipient address"))).
Proof.
  split; intros H.
  - unfold estimateGas_evm. rewrite H. reflexivity.
  - unfold estimateGas_trc20. rewrite H. reflexivity.
Qed.

(** X18: The only request the EVM estimateGas passes to the provider has a
    valid recipient as to, the parsed amount as value, and as from the
    request's sender when it is non-empty and valid, else the loaded
    wallet's address. *)
Theorem estimateGas_evm_request {Num : Type} (num_of_Z : Z -> Num) (networkType : string)
    (env : EvmEstEnv) (request : TxRequest) (txr : EvmTxRequest) :
  In txr (estimateGas_evm num_of_Z networkType env request).2 ->
  validateAddress_evm (ee_isAddress env) (req_to request) = Ok true /\
  ee_parseEther env (req_amount request) = Ok (etr_value txr) /\
  etr_to txr = req_to request /\
  etr_from txr =
    match truthy_str (req_from request) with
    | Some f => match validateAddress_evm (ee_isAddress env) f with
                | Ok true => Some f
                | _ => ee_wallet env
                end
    | None => ee_wallet env
    end.
Proof.
  unfold estimateGas_evm. cbn [snd].
  destruct (validateAddress_evm (ee_isAddress env) (req_to request)) as [[]|] eqn:Hto; try intros [].
  destruct (ee_parseEther env (req_amount request)) as [value|] eqn:Hv; [|intros []].
  intros [<-|[]]. cbn. repeat split; auto.
Qed.

(** X19: Whenever TRC20Service.estimateGas succeeds it returns 345, whatever
    the amount, sender or memo. *)
Theorem estimateGas_trc20_constant {Num : Type} (num_of_Z : Z -> Num) (networkType : string)
    (tronWeb : option (@TronEstLib Num)) (wallet : option string) (request : TxRequest) (n : Num) :
  estimateGas_trc20 num_of_Z networkType tronWeb wallet request = Ok n ->
  n = num_of_Z 345%Z.
Proof.
  unfold estimateGas_trc20, try_catch, handleError, obind. intros H.
  destruct (validateAddress_trc20 _ _) as [[]|]; cbn in H; try discriminate H.
  destruct tronWeb as [tw|]; cbn in H; [|discriminate H].
  destruct (te_toSun tw _) as [s|]; cbn in H; [|discriminate H].
  destruct (te_sendTrx tw _ _ _); cbn in H; [|discriminate H].
  injection H as <-. reflexivity.
Qed.

(* ------------------------------------------------------------------ *)
(** ** Further properties: BlockchainController, router and app *)

(** X20: BlockchainController.sendTransaction answers 400 Invalid recipient
    address or 400 Invalid sender address without calling the adapter when
    the recipient or a non-empty sender is invalid; the only adapter call it
    makes is sendTransaction with the request, after both checks pass. *)
Theorem controller_sendTransaction_gate {Num : Type} (num_of_Z : Z -> Num) (R : Registry)
    (initialize : InitOracle) (ops : ControllerOps) (network : string) (request : TxRequest)
    (st : FactoryState) (service : Inst) (st1 : FactoryState) :
  createService R initialize network st = (Ok service, st1) ->
  let '(resp, st', calls) := controller_sendTransaction num_of_Z R initialize ops network request st in
  (co_validateAddress ops service (req_to request) = Ok false ->
   resp = reply 400 [("error", JStr "Invalid recipient address")] /\ calls = []) /\
  (forall f, co_validateAddress ops service (req_to request) = Ok true ->
   truthy_str (req_from request) = Some f -> co_validateAddress ops service f = Ok false ->
   resp = reply 400 [("error", JStr "Invalid sender address")] /\ calls = []) /\
  (forall c, In c calls ->
   c = CallSendTransaction (inst_id service) request /\
   co_validateAddress ops service (req_to request) = Ok true /\
   (forall f, truthy_str (req_from request) = Some f -> co_validateAddress ops service f = Ok true)).
Proof.
  intros Hcs. unfold controller_sendTransaction. rewrite Hcs.
  destruct (co_validateAddress ops service (req_to request)) as [[]|] eqn:Hto;
    destruct (truthy_str (req_from request)) as [f|] eqn:Hf;
    try destruct (co_validateAddress ops service f) as [[]|] eqn:Hvf; cbn;
    try destruct (co_sendTransaction ops service request);
    repeat match goal with
    | |- _ /\ _ => split
    | |- _ -> _ => intro
    | |- forall _, _ => intro
    | H : In _ [] |- _ => destruct H
    | H : False |- _ => destruct H
    | H : In _ (_ :: _) |- _ => destruct H as [<-|H]
    end; try reflexivity; try congruence.
Qed.

(** X21: Once the adapter has estimated the fee,
    BlockchainController.estimateGas also calls getWalletInfo on the
    recipient; if that call fails it answers 500 Failed to estimate gas,
    otherwise 200 with the recipient's nativeToken as feeToken. *)
Theorem controller_estimateGas_needs_recipient_info {Num : Type} (num_of_Z : Z -> Num)
    (R : Registry) (initialize : InitOracle) (ops : ControllerOps) (network : string)
    (request : TxRequest) (st : FactoryState) (service : Inst) (st1 : FactoryState)
    (gasEstimate : Num) :
  createService R initialize network st = (Ok service, st1) ->
  co_validateAddress ops service (req_to request) = Ok true ->
  co_estimateGas ops service request = Ok gasEstimate ->
  let '(resp, st', calls) := controller_estimateGas R initialize ops network request st in
  calls = [CallEstimateGas (inst_id service) request;
           CallGetWalletInfo (inst_id service) (req_to request)] /\
  st' = st1 /\
  match co_getWalletInfo ops service (req_to request) with
  | Throw _ => resp = reply 500 [("error", JStr "Failed to estimate gas"); ("network", JStr network)]
  | Ok walletInfo =>
      http_status resp = 200 /\
      In ("feeToken", JStr (wi_nativeToken walletInfo)) (match http_body resp with
                                                        | JObj fs => fs | _ => [] end)
  end.
Proof.
  intros Hcs Hto Hest. unfold controller_estimateGas. rewrite Hcs, Hto, Hest. cbn.
  destruct (co_getWalletInfo ops service (req_to request)); cbn; repeat split.
  right; right; right; left. reflexivity.
Qed.

(** X22: Once the adapter has returned the balance,
    BlockchainController.getBalance also calls getWalletInfo on the address;
    if that call fails it answers 500 Failed to get balance, otherwise 200
    with network, address, balance and the wallet's nativeToken. *)
Theorem controller_getBalance_needs_wallet_info {Num : Type} (R : Registry)
    (initialize : InitOracle) (ops : ControllerOps) (network address : string)
    (st : FactoryState) (service : Inst) (st1 : FactoryState) (balance : Num) :
  createService R initialize network st = (Ok service, st1) ->
  co_validateAddress ops service address = Ok true ->
  co_getBalance ops service address = Ok balance ->
  let '(resp, st', calls) := controller_getBalance R initialize ops network address st in
  calls = [CallGetBalance (inst_id service) address; CallGetWalletInfo (inst_id service) address] /\
  match co_getWalletInfo ops service address with
  | Throw _ => resp = reply 500 [("error", JStr "Failed to get balance"); ("network", JStr network);
                                 ("address", JStr address)]
  | Ok walletInfo =>
      resp = reply 200 [("network", JStr network); ("address", JStr address);
                        ("balance", JNum balance); ("nativeToken", JStr (wi_nativeToken walletInfo))]
  end.
Proof.
  intros Hcs Hv Hb. unfold controller_getBalance. rewrite Hcs, Hv, Hb. cbn.
  destruct (co_getWalletInfo ops service address); split; reflexivity.
Qed.

(** X23: On a fresh factory, BlockchainController.getSupportedNetworks lists
    the 8 network types in order with the first seven available (name and
    chainId from their config, testnet false); availableCount is 8 or 7 as
    TRC20's initialize succeeds or fails, and only TRC20 is initialized. *)
Theorem getSupportedNetworks_fresh (initialize : InitOracle) :
  let '(rep, st') := getSupportedNetworks source_registry initialize initial_state in
  sn_count rep = 8%nat /\
  map entry_type (sn_supportedNetworks rep) = NetworkType_values /\
  firstn 7 (sn_supportedNetworks rep) =
    [NetAvailable "arbitrum" (Some "Arbitrum One") (Some 42161%Z) false;
     NetAvailable "ton" (Some "TON Mainnet") None false;
     NetAvailable "solana" (Some "Solana Mainnet") None false;
     NetAvailable "ripple" (Some "XRPL Mainnet") None false;
     NetAvailable "polygon" (Some "Polygon Mainnet") (Some 137%Z) false;
     NetAvailable "avalanche" (Some "Avalanche C-Chain") (Some 43114%Z) false;
     NetAvailable "cardano" (Some "Cardano Mainnet") None false] /\
  sn_availableCount rep = (match initialize trc20_inst with Ok _ => 8 | Throw _ => 7 end)%nat /\
  initialize_calls st' = ["trc20"].
Proof.
  destruct (initialize trc20_inst) eqn:E;
  unfold getSupportedNetworks; cbn; unfold createService; cbn;
  repeat (rewrite lookup_empty; cbn);
  match goal with |- context [initialize ?i] =>
    replace (initialize i) with (initialize trc20_inst) by reflexivity end;
  rewrite E; cbn; repeat split.
Qed.

Lemma match_segments_len_none (p : list PSeg) (segs : list string) :
  List.length p <> List.length segs -> match_segments p segs = None.
Proof.
  revert segs; induction p as [|[s|s] p IH]; intros [|x xs] H; cbn in *; try lia; auto.
  - destruct (String.eqb _ _); auto.
  - destruct (String.eqb x ""); auto. rewrite IH by lia. reflexivity.
Qed.

(** X24: The createWallet path that GET /api documents,
    /api/blockchain/:network/create/wallet, is answered 404 Route not found,
    while the registered /api/blockchain/:network/wallet/create reaches
    createWallet after the network check and the rate limiter (when no
    earlier middleware answers and the network parameter decodes to itself). *)
Theorem documented_createWallet_path_not_found (env : RouteEnv) (n : string) :
  let documented := {| rq_method := GET; rq_path := ["api"; "blockchain"; n; "create"; "wallet"] |} in
  let registered := {| rq_method := GET; rq_path := ["api"; "blockchain"; n; "wallet"; "create"] |} in
  pre env documented = None -> pre env registered = None ->
  n <> ""%string -> decode env n = Some n ->
  app_handle env documented = Answered 404 "Route not found" /\
  app_handle env registered =
    (if existsb (String.eqb n) NetworkType_values
     then if limiter env registered then Handled "createWallet" [("network", n)]
          else Answered 429 "Too many requests"
     else Answered 400 "Invalid network type").
Proof.
  intros documented registered Hd Hr Hn Hdec. split.
  - subst documented. unfold app_handle. rewrite Hd. cbn [rq_path rq_method].
    replace (strip_mount ["api"; "blockchain"] ["api"; "blockchain"; n; "create"; "wallet"]%string)
      with (Some [n; "create"; "wallet"]%string) by reflexivity.
    cbn [router_dispatch blockchain_routes mkRoute rt_method rt_path rq_method method_matches].
    repeat match goal with |- context [match_segments ?p ?s] =>
      first [ rewrite (match_segments_len_none p s) by (cbn [List.length]; lia)
            | replace (match_segments p s) with (@None (list (string * string)))
                by (destruct n as [|a r]; [congruence|reflexivity]) ] end.
    reflexivity.
  - unfold app_handle. rewrite Hr.
    replace (method_matches GET (rq_method registered)) with true by reflexivity.
    replace (bool_decide (match_segments [PLit "health"] (rq_path registered) = Some []))
      with false by reflexivity.
    replace (strip_mount ["api"; "blockchain"] (rq_path registered))
      with (Some [n; "wallet"; "create"]%string) by reflexivity.
    cbn [andb blockchain_routes router_dispatch mkRoute rt_method rt_path rt_middlewares
         rt_handler method_matches rq_method].
    replace (match_segments [PParam "network"; PLit "wallet"; PLit "create"] [n; "wallet"; "create"]%string)
      with (Some [("network", n)]%string)
      by (destruct n as [|a s]; [congruence|reflexivity]).
    cbn [decode_params]. rewrite Hdec. cbn [run_chain param].
    rewrite String.eqb_refl. destruct (existsb (String.eqb n) NetworkType_values); reflexivity.
Qed.

(* ------------------------------------------------------------------ *)
(** ** Witnesses of the further properties *)

Lemma toNano_fromNano_witness :
  (0 <= 1500000000)%Z /\ toNano (fromNano 1500000000) = Ok 1500000000%Z.
Proof. split; [lia|]. apply (toNano_fromNano 1500000000); lia. Defined.

Lemma toNano_decimal_witness :
  Forall (fun c => is_dec_digit c = true) ["1"%char] /\
  Forall (fun c => is_dec_digit c = true) ["5"%char] /\
  toNano (string_of_list_ascii (["1"%char] ++ "."%char :: ["5"%char])) =
  Ok (fold_left dec_step ["1"%char] 0%Z * 10 ^ 9 +
      fold_left dec_step (firstn 9 ["5"%char]) 0%Z
        * 10 ^ Z.of_nat (9 - List.length (firstn 9 ["5"%char])))%Z.
Proof.
  split; [repeat constructor|]. split; [repeat constructor|].
  apply (toNano_decimal ["1"%char] ["5"%char]); repeat constructor.
Defined.

Lemma ton_sent_hash_confirmed_witness :
  ((sendTransaction_ton "ton" ton_demo_env "EQdest" "1.5" None).1
     = Ok (mkResponse "ton_1700000000_0" Pending None) \/
   (deployWallet_ton "ton" ton_demo_env).1 = Ok (mkResponse "ton_1700000000_0" Pending None)) /\
  tr_status (mkResponse "ton_1700000000_0" Pending None) = Pending /\
  getTransactionStatus_ton "ton" (Ok []) "ton_1700000000_0" =
  Ok (mkResponse "ton_1700000000_0" Confirmed None).
Proof.
  assert (H : (sendTransaction_ton "ton" ton_demo_env "EQdest" "1.5" None).1
                = Ok (mkResponse "ton_1700000000_0" Pending None) \/
              (deployWallet_ton "ton" ton_demo_env).1
                = Ok (mkResponse "ton_1700000000_0" Pending None))
    by (left; vm_compute; reflexivity).
  split; [exact H|].
  exact (ton_sent_hash_confirmed "ton" ton_demo_env "EQdest" "1.5" None (Ok [])
           (mkResponse "ton_1700000000_0" Pending None) H).
Defined.

Lemma sendTransaction_ton_sent_witness :
  In "EQdest" (sendTransaction_ton "ton" ton_demo_env "EQdest" "1.5" (Some "hi")).2 /\
  (sendTransaction_ton "ton" ton_demo_env "EQdest" "1.5" (Some "hi")).2 = ["EQdest"] /\
  exists seqno value a,
    ton_wallet_ready ton_demo_env = true /\ ton_getSeqno ton_demo_env = Ok seqno /\
    toNano "1.5" = Ok value /\ ton_parse ton_demo_env "EQdest" = Ok a /\
    ton_createTransfer ton_demo_env seqno
      {| msg_dest := a; msg_value := value; msg_body := truthy_str (Some "hi"); msg_bounce := false |}
    = Ok "EQdest".
Proof.
  assert (H : In "EQdest" (sendTransaction_ton "ton" ton_demo_env "EQdest" "1.5" (Some "hi")).2)
    by (vm_compute; left; reflexivity).
  split; [exact H|].
  exact (sendTransaction_ton_sent "ton" ton_demo_env "EQdest" "1.5" (Some "hi") "EQdest" H).
Defined.

Lemma sendTransaction_ton_exponent_amount_witness :
  ton_wallet_ready ton_demo_env = true /\ ton_parse ton_demo_env "EQdest" = Ok "EQdest" /\
  ton_getSeqno ton_demo_env = Ok 0%Z /\ ["1"%char] <> [] /\
  Forall (fun c => is_dec_digit c = true) ["1"%char] /\
  Forall (fun c => Ascii.eqb c "."%char = false) ["5"%char] /\
  sendTransaction_ton "ton" ton_demo_env "EQdest" (string_of_list_ascii (["1"%char] ++ "e"%char :: ["5"%char])) None =
  (Throw (ErrorObj ("ton" ++ " sendTransaction failed: Cannot convert " ++
                    string_of_list_ascii (["1"%char] ++ "e"%char :: ["5"%char] ++ List.repeat "0"%char 9) ++
                    " to a BigInt")), []).
Proof.
  split; [reflexivity|]. split; [reflexivity|]. split; [reflexivity|].
  split; [discriminate|]. split; [repeat constructor|]. split; [repeat constructor|].
  apply (sendTransaction_ton_exponent_amount "ton" ton_demo_env "EQdest" "EQdest" 0%Z
           ["1"%char] ["5"%char] None); first [reflexivity | discriminate | repeat constructor].
Defined.

Lemma deployWallet_ton_sent_witness :
  In "EQwallet" (deployWallet_ton "ton" ton_demo_env).2 /\
  (deployWallet_ton "ton" ton_demo_env).2 = ["EQwallet"] /\
  ton_wallet_ready ton_demo_env = true /\ ton_getSeqno ton_demo_env = Ok 0%Z /\
  ton_createTransfer ton_demo_env 0%Z
    {| msg_dest := ton_wallet_address ton_demo_env; msg_value := 10000000%Z;
       msg_body := None; msg_bounce := false |} = Ok "EQwallet".
Proof.
  assert (H : In "EQwallet" (deployWallet_ton "ton" ton_demo_env).2)
    by (vm_compute; left; reflexivity).
  split; [exact H|].
  exact (deployWallet_ton_sent "ton" ton_demo_env "EQwallet" H).
Defined.

Lemma deployWallet_ton_already_deployed_witness :
  ton_wallet_ready ton_deployed_env = true /\ ton_getSeqno ton_deployed_env = Ok 3%Z /\
  3%Z <> 0%Z /\
  deployWallet_ton "ton" ton_deployed_env =
  (Throw (ErrorObj ("ton" ++ " deployWallet failed: Wallet is already deployed")), []).
Proof.
  split; [reflexivity|]. split; [reflexivity|]. split; [lia|].
  apply (deployWallet_ton_already_deployed "ton" ton_deployed_env 3%Z); [reflexivity | reflexivity | lia].
Defined.

Lemma getTransactionHistory_arbitrum_window_witness :
  arb_isAddress arb_demo_env "0xme" = Ok true /\ arb_getBlockNumber arb_demo_env = Ok 5000%Z /\
  let startBlock := num_or (Some 4990%Z) (Z.max 0 (5000 - 1000)) in
  let endBlock := num_or None 5000%Z in
  let '(r, trace) := getTransactionHistory_arbitrum "arbitrum" arb_demo_env "0xme" (Some 4990%Z) None in
  (exists rest, trace ++ rest = block_range startBlock (Z.min endBlock (startBlock + 100))) /\
  (forall v, r = Ok v -> trace = block_range startBlock (Z.min endBlock (startBlock + 100))).
Proof.
  split; [reflexivity|]. split; [reflexivity|].
  apply (getTransactionHistory_arbitrum_window "arbitrum" arb_demo_env "0xme" (Some 4990%Z) None 5000%Z);
    reflexivity.
Defined.

Lemma getTransactionHistory_arbitrum_default_range_witness :
  arb_isAddress arb_demo_env "0xme" = Ok true /\ arb_getBlockNumber arb_demo_env = Ok 5000%Z /\
  (1000 <= 5000)%Z /\
  forall b, In b (getTransactionHistory_arbitrum "arbitrum" arb_demo_env "0xme" None None).2 ->
  (5000 - 1000 <= b <= 5000 - 900)%Z.
Proof.
  split; [reflexivity|]. split; [reflexivity|]. split; [lia|].
  apply (getTransactionHistory_arbitrum_default_range "arbitrum" arb_demo_env "0xme" 5000%Z);
    [reflexivity | reflexivity | lia].
Defined.


Lemma createWallet_trc20_generated_mnemonic_unrelated_witness :
  let options := {| opt_mnemonic := None; opt_derivationPath := None; opt_index := Some 2%Z |} in
  let g := fun _ : Entropy => "zoo zoo"%string in
  truthy_str (opt_mnemonic options) = None /\
  let lib' := {| tr_validateMnemonic := tr_validateMnemonic tron_demo_lib;
                 tr_mnemonicToSeedSync := tr_mnemonicToSeedSync tron_demo_lib;
                 tr_fromSeed := tr_fromSeed tron_demo_lib;
                 tr_derivePrivateKey := tr_derivePrivateKey tron_demo_lib;
                 tr_fromPrivateKey := tr_fromPrivateKey tron_demo_lib;
                 tr_createAccount := tr_createAccount tron_demo_lib;
                 tr_generateMnemonic := g |} in
  match createWallet_trc20 "trc20" tron_demo_lib 0 options,
        createWallet_trc20 "trc20" lib' 0 options with
  | Ok w, Ok w' =>
      wc_address w = wc_address w' /\ wc_privateKey w = wc_privateKey w' /\
      wc_publicKey w = wc_publicKey w' /\
      wc_mnemonic w' = match opt_index options with Some _ => Some (g 0) | None => None end
  | Throw e, Throw e' => e = e'
  | _, _ => False
  end.
Proof.
  intros options g. split; [reflexivity|].
  apply (createWallet_trc20_generated_mnemonic_unrelated "trc20" tron_demo_lib 0 options g).
  reflexivity.
Defined.

Lemma ripple_payment_memo_exclusive_witness :
  let p := {| TransactionType := "Payment"; Account := "rAcc"; Amount := "1000000";
              Destination := "rDest"; DestinationTag := None; Memos := Some (memoData "hello") |} in
  ripple_payment "rAcc" (xs_xrpToDrops ripple_demo_env) "1" "rDest" (Some "hello") = Ok p /\
  (truthy_str (Some "hello") = None -> DestinationTag p = None /\ Memos p = None) /\
  (forall m, truthy_str (Some "hello") = Some m ->
     (DestinationTag p <> None /\ Memos p = None) \/
     (DestinationTag p = None /\ Memos p = Some (memoData m))).
Proof.
  intros p.
  assert (H : ripple_payment "rAcc" (xs_xrpToDrops ripple_demo_env) "1" "rDest" (Some "hello") = Ok p)
    by (vm_compute; reflexivity).
  split; [exact H|].
  exact (ripple_payment_memo_exclusive "rAcc" (xs_xrpToDrops ripple_demo_env) "1" "rDest" (Some "hello") p H).
Defined.

Lemma memoData_upper_hex_of_bytes_witness :
  Forall (fun b => b < 256)%nat [0; 127; 239; 255]%nat /\
  string_of_list_ascii (toUpperCase_ascii (hex_of_bytes [0; 127; 239; 255]%nat)) = "007FEFFF"%string /\
  hex_decode (toUpperCase_ascii (hex_of_bytes [0; 127; 239; 255]%nat)) = [0; 127; 239; 255]%nat.
Proof.
  assert (Hb : Forall (fun b => b < 256)%nat [0; 127; 239; 255]%nat)
    by (repeat (apply List.Forall_cons; [lia|]); apply List.Forall_nil).
  split; [exact Hb|]. split; [vm_compute; reflexivity|].
  exact (proj2 (proj2 (memoData_upper_hex_of_bytes [0; 127; 239; 255]%nat Hb))).
Defined.

Lemma ripple_payment_numeric_memo_witness :
  let p := {| TransactionType := "Payment"; Account := "rAcc"; Amount := "1000000";
              Destination := "rDest"; DestinationTag := Some (NumFinite 42); Memos := None |} in
  ["4"%char; "2"%char] <> [] /\
  Forall (fun c => is_dec_digit c = true) ["4"%char; "2"%char] /\
  (forall c r, [" "%char; "x"%char] = c :: r -> is_dec_digit c = false) /\
  (forall c r, ["4"%char; "2"%char] = ["0"%char] -> [" "%char; "x"%char] = c :: r ->
     c <> "x"%char /\ c <> "X"%char) /\
  ripple_payment "rAcc" (xs_xrpToDrops ripple_demo_env) "1" "rDest"
    (Some (string_of_list_ascii (["4"%char; "2"%char] ++ [" "%char; "x"%char]))) = Ok p /\
  DestinationTag p = Some (int_to_Number (fold_left dec_step ["4"%char; "2"%char] 0%Z)) /\
  Memos p = None /\
  ((fold_left dec_step ["4"%char; "2"%char] 0 < 2 ^ 53)%Z ->
   DestinationTag p = Some (NumFinite (fold_left dec_step ["4"%char; "2"%char] 0%Z))).
Proof.
  intros p.
  assert (H1 : ["4"%char; "2"%char] <> []) by discriminate.
  assert (H2 : Forall (fun c => is_dec_digit c = true) ["4"%char; "2"%char]) by repeat constructor.
  assert (H3 : forall c r, [" "%char; "x"%char] = c :: r -> is_dec_digit c = false)
    by (intros c r E; injection E as <- _; reflexivity).
  assert (H4 : forall c r, ["4"%char; "2"%char] = ["0"%char] -> [" "%char; "x"%char] = c :: r ->
                 c <> "x"%char /\ c <> "X"%char) by (intros c r E; discriminate E).
  assert (H5 : ripple_payment "rAcc" (xs_xrpToDrops ripple_demo_env) "1" "rDest"
                 (Some (string_of_list_ascii (["4"%char; "2"%char] ++ [" "%char; "x"%char]))) = Ok p)
    by (vm_compute; reflexivity).
  do 5 (split; [assumption|]).
  exact (ripple_payment_numeric_memo "rAcc" (xs_xrpToDrops ripple_demo_env) "1" "rDest"
           ["4"%char; "2"%char] [" "%char; "x"%char] p H1 H2 H3 H4 H5).
Defined.

Lemma sendTransaction_ripple_submitted_witness :
  let p := {| TransactionType := "Payment"; Account := "rAcc"; Amount := "1000000";
              Destination := "rDest"; DestinationTag := None; Memos := None |} in
  In p (sendTransaction_ripple "ripple" ripple_demo_env "rDest" None "1" None).2 /\
  (sendTransaction_ripple "ripple" ripple_demo_env "rDest" None "1" None).2 = [p] /\
  exists address,
    xs_wallet ripple_demo_env = Some address /\
    validateAddress_ripple (xs_isValidAddress ripple_demo_env) "rDest" = Ok true /\
    (forall f, truthy_str None = Some f ->
       validateAddress_ripple (xs_isValidAddress ripple_demo_env) f = Ok true) /\
    ripple_payment address (xs_xrpToDrops ripple_demo_env) "1" "rDest" None = Ok p.
Proof.
  intros p.
  assert (H : In p (sendTransaction_ripple "ripple" ripple_demo_env "rDest" None "1" None).2)
    by (vm_compute; left; reflexivity).
  split; [exact H|].
  exact (sendTransaction_ripple_submitted "ripple" ripple_demo_env "rDest" None "1" None p H).
Defined.

Lemma estimateGas_evm_request_witness :
  let txr := {| etr_to := "0xto"; etr_value := (10 ^ 18)%Z; etr_from := Some "0xw"; etr_data := None |} in
  In txr (estimateGas_evm id "arbitrum" evm_demo_env demo_request).2 /\
  validateAddress_evm (ee_isAddress evm_demo_env) (req_to demo_request) = Ok true /\
  ee_parseEther evm_demo_env (req_amount demo_request) = Ok (etr_value txr) /\
  etr_to txr = req_to demo_request /\
  etr_from txr =
    match truthy_str (req_from demo_request) with
    | Some f => match validateAddress_evm (ee_isAddress evm_demo_env) f with
                | Ok true => Some f
                | _ => ee_wallet evm_demo_env
                end
    | None => ee_wallet evm_demo_env
    end.
Proof.
  intros txr.
  assert (H : In txr (estimateGas_evm id "arbitrum" evm_demo_env demo_request).2)
    by (vm_compute; left; reflexivity).
  split; [exact H|].
  exact (estimateGas_evm_request id "arbitrum" evm_demo_env demo_request txr H).
Defined.

Lemma estimateGas_trc20_constant_witness :
  estimateGas_trc20 id "trc20" (Some tron_est_demo) (Some "Twallet") demo_request = Ok 345%Z /\
  345%Z = id 345%Z.
Proof.
  assert (H : estimateGas_trc20 id "trc20" (Some tron_est_demo) (Some "Twallet") demo_request = Ok 345%Z)
    by (vm_compute; reflexivity).
  split; [exact H|].
  exact (estimateGas_trc20_constant id "trc20" (Some tron_est_demo) (Some "Twallet") demo_request 345%Z H).
Defined.

Lemma controller_sendTransaction_gate_witness :
  createService source_registry init_ok "trc20" initial_state
    = (Ok demo_trc20_service, (createService source_registry init_ok "trc20" initial_state).2) /\
  let '(resp, st', calls) :=
    controller_sendTransaction id source_registry init_ok controller_demo_ops "trc20" demo_request initial_state in
  (co_validateAddress controller_demo_ops demo_trc20_service (req_to demo_request) = Ok false ->
   resp = reply 400 [("error", JStr "Invalid recipient address")] /\ calls = []) /\
  (forall f, co_validateAddress controller_demo_ops demo_trc20_service (req_to demo_request) = Ok true ->
   truthy_str (req_from demo_request) = Some f ->
   co_validateAddress controller_demo_ops demo_trc20_service f = Ok false ->
   resp = reply 400 [("error", JStr "Invalid sender address")] /\ calls = []) /\
  (forall c, In c calls ->
   c = CallSendTransaction (inst_id demo_trc20_service) demo_request /\
   co_validateAddress controller_demo_ops demo_trc20_service (req_to demo_request) = Ok true /\
   (forall f, truthy_str (req_from demo_request) = Some f ->
      co_validateAddress controller_demo_ops demo_trc20_service f = Ok true)).
Proof.
  assert (H : createService source_registry init_ok "trc20" initial_state
                = (Ok demo_trc20_service, (createService source_registry init_ok "trc20" initial_state).2))
    by (vm_compute; reflexivity).
  split; [exact H|].
  exact (controller_sendTransaction_gate id source_registry init_ok controller_demo_ops "trc20" demo_request
           initial_state demo_trc20_service _ H).
Defined.

Lemma controller_estimateGas_needs_recipient_info_witness :
  createService source_registry init_ok "trc20" initial_state
    = (Ok demo_trc20_service, (createService source_registry init_ok "trc20" initial_state).2) /\
  co_validateAddress controller_demo_ops demo_trc20_service (req_to demo_request) = Ok true /\
  co_estimateGas controller_demo_ops demo_trc20_service demo_request = Ok 345%Z /\
  let '(resp, st', calls) :=
    controller_estimateGas source_registry init_ok controller_demo_ops "trc20" demo_request initial_state in
  calls = [CallEstimateGas (inst_id demo_trc20_service) demo_request;
           CallGetWalletInfo (inst_id demo_trc20_service) (req_to demo_request)] /\
  st' = (createService source_registry init_ok "trc20" initial_state).2 /\
  match co_getWalletInfo controller_demo_ops demo_trc20_service (req_to demo_request) with
  | Throw _ => resp = reply 500 [("error", JStr "Failed to estimate gas"); ("network", JStr "trc20")]
  | Ok walletInfo =>
      http_status resp = 200 /\
      In ("feeToken", JStr (wi_nativeToken walletInfo)) (match http_body resp with
                                                        | JObj fs => fs | _ => [] end)
  end.
Proof.
  assert (H : createService source_registry init_ok "trc20" initial_state
                = (Ok demo_trc20_service, (createService source_registry init_ok "trc20" initial_state).2))
    by (vm_compute; reflexivity).
  split; [exact H|]. split; [reflexivity|]. split; [reflexivity|].
  exact (controller_estimateGas_needs_recipient_info id source_registry init_ok controller_demo_ops "trc20"
           demo_request initial_state demo_trc20_service _ 345%Z H eq_refl eq_refl).
Defined.

Lemma controller_getBalance_needs_wallet_info_witness :
  createService source_registry init_ok "trc20" initial_state
    = (Ok demo_trc20_service, (createService source_registry init_ok "trc20" initial_state).2) /\
  co_validateAddress controller_demo_ops demo_trc20_service "TXaddr" = Ok true /\
  co_getBalance controller_demo_ops demo_trc20_service "TXaddr" = Ok 5%Z /\
  let '(resp, st', calls) :=
    controller_getBalance source_registry init_ok controller_demo_ops "trc20" "TXaddr" initial_state in
  calls = [CallGetBalance (inst_id demo_trc20_service) "TXaddr";
           CallGetWalletInfo (inst_id demo_trc20_service) "TXaddr"] /\
  match co_getWalletInfo controller_demo_ops demo_trc20_service "TXaddr" with
  | Throw _ => resp = reply 500 [("error", JStr "Failed to get balance"); ("network", JStr "trc20");
                                 ("address", JStr "TXaddr")]
  | Ok walletInfo =>
      resp = reply 200 [("network", JStr "trc20"); ("address", JStr "TXaddr");
                        ("balance", JNum 5%Z); ("nativeToken", JStr (wi_nativeToken walletInfo))]
  end.
Proof.
  assert (H : createService source_registry init_ok "trc20" initial_state
                = (Ok demo_trc20_service, (createService source_registry init_ok "trc20" initial_state).2))
    by (vm_compute; reflexivity).
  split; [exact H|]. split; [reflexivity|]. split; [reflexivity|].
  exact (controller_getBalance_needs_wallet_info source_registry init_ok controller_demo_ops "trc20" "TXaddr"
           initial_state demo_trc20_service _ 5%Z H eq_refl eq_refl).
Defined.

Lemma documented_createWallet_path_not_found_witness :
  let documented := {| rq_method := GET; rq_path := ["api"; "blockchain"; "trc20"; "create"; "wallet"] |} in
  let registered := {| rq_method := GET; rq_path := ["api"; "blockchain"; "trc20"; "wallet"; "create"] |} in
  pre demo_route_env documented = None /\ pre demo_route_env registered = None /\
  "trc20"%string <> ""%string /\ decode demo_route_env "trc20" = Some "trc20"%string /\
  app_handle demo_route_env documented = Answered 404 "Route not found" /\
  app_handle demo_route_env registered =
    (if existsb (String.eqb "trc20") NetworkType_values
     then if limiter demo_route_env registered then Handled "createWallet" [("network", "trc20")]
          else Answered 429 "Too many requests"
     else Answered 400 "Invalid network type").
Proof.
  intros documented registered.
  split; [reflexivity|]. split; [reflexivity|]. split; [discriminate|]. split; [reflexivity|].
  exact (documented_createWallet_path_not_found demo_route_env "trc20" eq_refl eq_refl
           ltac:(discriminate) eq_refl).
Defined.
